(** * Scaling, binning and layout engine of the GWHAT hydrograph

    Shallow embedding of the numeric core of [gwhat/hydrograph4.py]
    (class [Hydrograph]): [set_margins], [best_fit_waterlvl],
    [best_fit_time], [resample_bin], [bin_sum] and [make_xticks_info],
    together with the two [xlrd.xldate] conversions and
    [calendar.monthrange] they call; then [set_time_scale], the ticks of
    [setup_waterlvl_scale] and [update_precip_scale], the label padding of
    [draw_ylabels], the bins drawn by [draw_weather], [filt_data], and the
    date and datum handlers of the layout panel ([WHAT/HydroPrint.py]).

    Number model.  A Python/NumPy float is idealised as an exact rational
    ([Q]): rounding to binary64 is not modelled.  A measured array
    ([WL], [TMAX], ...) holds finite values or the missing-data marker
    NaN and is a [list reading] with [None] for NaN.  The one place where
    the source can leave the finite numbers, the NumPy division
    [dWL / ygrid], is modelled with the special values of IEEE arithmetic
    ([np_float]).  Python exceptions are values of [exn]; a method of
    [Hydrograph] is a state transformer that returns a result or an
    exception together with the object as the call leaves it. *)

From Stdlib Require Import String Ascii DecimalString.
From Stdlib Require Import ZArith QArith Qround Qabs List Bool Lia Lqa.
Import ListNotations.

Local Open Scope Z_scope.

(** ** Exceptions and results *)

Inductive exn : Type :=
| ValueError          (* NumPy reduction of an empty array *)
| IndexError          (* index out of range *)
| ZeroDivisionError   (* Python division by zero *)
| IllegalMonthError   (* calendar.monthrange *)
| XLDateNegative
| XLDateAmbiguous
| XLDateTooLarge
| XLDateBadTuple.

Inductive result (A : Type) : Type :=
| Ok (a : A)
| Raise (e : exn).

Arguments Ok {A} a.
Arguments Raise {A} e.

Definition rbind {A B} (r : result A) (k : A -> result B) : result B :=
  match r with
  | Ok a => k a
  | Raise e => Raise e
  end.

Declare Scope result_scope.
Delimit Scope result_scope with res.
Notation "x <- c ;; k" := (rbind c (fun x => k))
  (at level 61, c at next level, right associativity) : result_scope.
Notation "' p <- c ;; k" := (rbind c (fun x => match x with p => k end))
  (at level 61, p pattern, c at next level, right associativity) : result_scope.

(** ** Python and NumPy primitives *)

Module Py.

(** [l[i]] with Python's negative indices. *)
Definition getitem {A} (l : list A) (i : Z) : result A :=
  let n := Z.of_nat (length l) in
  let j := if i <? 0 then i + n else i in
  if (0 <=? j) && (j <? n)
  then match nth_error l (Z.to_nat j) with
       | Some a => Ok a
       | None => Raise IndexError
       end
  else Raise IndexError.

(** [a / b] on Python numbers. *)
Definition truediv (a b : Q) : result Q :=
  if Qeq_bool b 0 then Raise ZeroDivisionError else Ok (a / b)%Q.

(** [int(x)]: truncation towards zero. *)
Definition int (x : Q) : Z := Z.quot (Qnum x) (Zpos (Qden x)).

(** [round(x)] of Python 3: to the nearest integer, halves to the even
    neighbour. *)
Definition round (x : Q) : Z :=
  let f := Qfloor x in
  match Qcompare (x - inject_Z f) (1 # 2) with
  | Lt => f
  | Gt => f + 1
  | Eq => if Z.even f then f else f + 1
  end.

(** [divmod(a, b)] for a positive [b]. *)
Definition divmod (a b : Z) : Z * Z := (a / b, a mod b).

End Py.

(** NaN-free view of a measured value. *)
Definition reading : Type := option Q.

(** Idealised binary64 scalar: exact finite values and the IEEE specials. *)
Inductive np_float : Type :=
| nan
| ninf
| pinf
| fin (q : Q).

Module Np.

(** [np.arange(start, stop, step)] for a positive step:
    [ceil((stop - start) / step)] values [start + i * step]. *)
Definition arange (start stop step : Q) : list Q :=
  map (fun i => (start + inject_Z (Z.of_nat i) * step)%Q)
      (seq 0 (Z.to_nat (Qceiling ((stop - start) / step)))).

(** [x[~np.isnan(x)]] *)
Fixpoint dropna (x : list reading) : list Q :=
  match x with
  | [] => []
  | None :: r => dropna r
  | Some q :: r => q :: dropna r
  end.

Definition Qmax (a b : Q) : Q := if Qle_bool a b then b else a.
Definition Qmin (a b : Q) : Q := if Qle_bool a b then a else b.

(** [np.max] and [np.min] of a NaN-free array; an empty array has no
    maximum. *)
Definition max (x : list Q) : result Q :=
  match x with
  | [] => Raise ValueError
  | a :: r => Ok (fold_left Qmax r a)
  end.

Definition min (x : list Q) : result Q :=
  match x with
  | [] => Raise ValueError
  | a :: r => Ok (fold_left Qmin r a)
  end.

(** Scalar operations on [np_float]. *)
Definition true_divide (a : Q) (b : Z) : np_float :=
  if b =? 0
  then match Qcompare a 0 with
       | Eq => nan
       | Gt => pinf
       | Lt => ninf
       end
  else fin (a / inject_Z b).

Definition subtract (a b : np_float) : np_float :=
  match a, b with
  | nan, _ | _, nan => nan
  | fin x, fin y => fin (x - y)
  | fin _, pinf => ninf
  | fin _, ninf => pinf
  | pinf, pinf => nan
  | ninf, ninf => nan
  | pinf, _ => pinf
  | ninf, _ => ninf
  end.

Definition abs (a : np_float) : np_float :=
  match a with
  | nan => nan
  | ninf | pinf => pinf
  | fin x => fin (Qabs x)
  end.

(** [a == b]: NaN is equal to nothing. *)
Definition equal (a b : np_float) : bool :=
  match a, b with
  | fin x, fin y => Qeq_bool x y
  | pinf, pinf => true
  | ninf, ninf => true
  | _, _ => false
  end.

(** [a <= b], false when either side is NaN. *)
Definition less_equal (a b : np_float) : bool :=
  match a, b with
  | nan, _ | _, nan => false
  | ninf, _ => true
  | _, pinf => true
  | fin x, fin y => Qle_bool x y
  | _, _ => false
  end.

(** One step of the minimum reduction: NaN propagates. *)
Definition minimum (a b : np_float) : np_float :=
  match a, b with
  | nan, _ | _, nan => nan
  | _, _ => if less_equal a b then a else b
  end.

(** [np.min] of an array of scalars. *)
Definition fmin (x : list np_float) : result np_float :=
  match x with
  | [] => Raise ValueError
  | a :: r => Ok (fold_left minimum r a)
  end.

(** [np.where(mask)[0][0]]: the first index at which the mask holds. *)
Fixpoint where_first (mask : list bool) : result nat :=
  match mask with
  | [] => Raise IndexError
  | true :: _ => Ok O
  | false :: r => rbind (where_first r) (fun i => Ok (S i))
  end.

(** [x[:n]] for [n >= 0] *)
Definition take {A} (n : Z) (x : list A) : list A := firstn (Z.to_nat n) x.

(** [x.reshape(nrow, ncol)] for explicit dimensions: fails unless the
    sizes agree (the [-1] placeholder is not modelled; [bin_sum] never
    passes it with a size that NumPy accepts). *)
Fixpoint rows {A} (nrow : nat) (ncol : nat) (x : list A) : list (list A) :=
  match nrow with
  | O => []
  | S k => firstn ncol x :: rows k ncol (skipn ncol x)
  end.

Definition reshape {A} (x : list A) (nrow ncol : Z) : result (list (list A)) :=
  if (0 <=? nrow) && (0 <=? ncol) && (Z.of_nat (length x) =? nrow * ncol)
  then Ok (rows (Z.to_nat nrow) (Z.to_nat ncol) x)
  else Raise ValueError.

(** Addition and division of measured values: NaN poisons the result. *)
Definition radd (a b : reading) : reading :=
  match a, b with
  | Some x, Some y => Some (x + y)%Q
  | _, _ => None
  end.

Definition rdiv (a : reading) (d : Z) : reading :=
  match a with
  | Some x => Some (x / inject_Z d)%Q
  | None => None
  end.

(** [np.sum(x, axis=1)] *)
Definition sum (row : list reading) : reading :=
  fold_left radd row (Some 0%Q).

Definition sum_axis1 (x : list (list reading)) : list reading :=
  map sum x.

End Np.

(** ** Calendar conversions used by the time axis

    [xlrd.xldate.xldate_as_tuple] and [xlrd.xldate.xldate_from_date_tuple]
    at [datemode = 0] (the 1900 date system of the water-level files), and
    [calendar.monthrange].  They belong to the libraries the module
    imports; their arithmetic is reproduced here because the time-axis
    methods are defined through them. *)

Module Xldate.

Definition date : Type := (Z * Z * Z)%type.
Definition datetime : Type := (Z * Z * Z * Z * Z * Z)%type.

Definition _JDN_delta : Z := 2415080 - 61.
Definition _XLDAYS_TOO_LARGE : Z := 2958466.

Definition Qlt_bool (a b : Q) : bool := negb (Qle_bool b a).

(** Year, month and day of the day number [xldays >= 61]. *)
Definition ymd_of_xldays (xldays : Z) : date :=
  let jdn := xldays + _JDN_delta in
  let yreg := ((((jdn * 4 + 274277) / 146097) * 3 / 4) + jdn + 1363) * 4 + 3 in
  let mp := ((yreg mod 1461) / 4) * 535 + 333 in
  let d := ((mp mod 16384) / 535) + 1 in
  let mp := Z.shiftr mp 14 in
  if mp >=? 10
  then ((yreg / 1461) - 4715, mp - 9, d)
  else ((yreg / 1461) - 4716, mp + 3, d).

Definition xldate_as_tuple (xldate : Q) : result datetime :=
  if Qeq_bool xldate 0 then Ok (0, 0, 0, 0, 0, 0)
  else if Qlt_bool xldate 0 then Raise XLDateNegative
  else
    let xldays := Py.int xldate in
    let frac := (xldate - inject_Z xldays)%Q in
    let seconds := Py.round (frac * 86400) in
    let '(xldays, hour, minute, second) :=
      if seconds =? 86400
      then (xldays + 1, 0, 0, 0)
      else
        let '(minutes, second) := Py.divmod seconds 60 in
        let '(hour, minute) := Py.divmod minutes 60 in
        (xldays, hour, minute, second) in
    if xldays >=? _XLDAYS_TOO_LARGE then Raise XLDateTooLarge
    else if xldays =? 0 then Ok (0, 0, 0, hour, minute, second)
    else if xldays <? 61 then Raise XLDateAmbiguous
    else
      let '(y, m, d) := ymd_of_xldays xldays in
      Ok (y, m, d, hour, minute, second).

Definition _leap (y : Z) : bool :=
  if negb (y mod 4 =? 0) then false
  else if negb (y mod 100 =? 0) then true
  else if negb (y mod 400 =? 0) then false
  else true.

Definition _days_in_month (month : Z) : Z :=
  nth (Z.to_nat month) [0; 31; 28; 31; 30; 31; 30; 31; 31; 30; 31; 30; 31] 0.

(** Day number of a calendar date, before any range check. *)
Definition xldays_of_ymd (year month day : Z) : Z :=
  let Yp := year + 4716 in
  let M := month in
  let '(Yp, Mp) := if M <=? 2 then (Yp - 1, M + 9) else (Yp, M - 3) in
  let jdn := (1461 * Yp) / 4 + (979 * Mp + 16) / 32 +
             day - 1364 - (((Yp + 184) / 100) * 3) / 4 in
  jdn - _JDN_delta.

(** The result is [float(xldays)], an integral day number. *)
Definition xldate_from_date_tuple (date_tuple : date) : result Z :=
  let '(year, month, day) := date_tuple in
  if (year =? 0) && (month =? 0) && (day =? 0) then Ok 0
  else if negb ((1900 <=? year) && (year <=? 9999)) then Raise XLDateBadTuple
  else if negb ((1 <=? month) && (month <=? 12)) then Raise XLDateBadTuple
  else if (day <? 1)
          || ((day >? _days_in_month month)
              && negb ((day =? 29) && (month =? 2) && _leap year))
       then Raise XLDateBadTuple
  else
    let xldays := xldays_of_ymd year month day in
    if xldays <=? 0 then Raise XLDateBadTuple
    else if xldays <? 61 then Raise XLDateAmbiguous
    else Ok xldays.

End Xldate.

Module Calendar.

Definition isleap (year : Z) : bool :=
  (year mod 4 =? 0) && (negb (year mod 100 =? 0) || (year mod 400 =? 0)).

Definition mdays : list Z := [0; 31; 28; 31; 30; 31; 30; 31; 31; 30; 31; 30; 31].

(** [monthrange(year, month)[1]]: the number of days of the month (the
    weekday component is not used by the caller). *)
Definition monthrange (year month : Z) : result Z :=
  if negb ((1 <=? month) && (month <=? 12)) then Raise IllegalMonthError
  else Ok (nth (Z.to_nat month) mdays 0
           + (if (month =? 2) && isleap year then 1 else 0)).

End Calendar.

(** ** The figure object *)

Inductive Language : Type := english | french.
Inductive Datum : Type := mbgs | masl.      (* WLdatum 0 and 1 *)
Inductive DateMode : Type := Month | Year.  (* datemode.lower(): 'month', 'year' *)

Record WLDataset : Type := mkWLDataset
  { WL : list reading;
    Elevation : Q }.

(** [left, bottom, width, height] of an axes, in figure fractions. *)
Definition position : Type := (Q * Q * Q * Q)%type.

(** The attributes of [Hydrograph] that the modelled methods read or
    write.  [TIMEmin] and [TIMEmax] are integers: every assignment in the
    sources stores a result of [xldate_from_date_tuple] (or the initial
    36526).  [meteo_on] is the value of the property of that name. *)
Record Hydrograph : Type := mkHydrograph
  { fwidth : Q;                  (* figure width, inches *)
    fheight : Q;                 (* figure height, inches *)
    NZGrid : Z;                  (* number of grid divisions *)
    va_ratio : Q;
    language : Language;
    WLmin : Q;
    WLscale : Q;
    TIMEmin : Z;
    TIMEmax : Z;
    isLegend : Z;
    isGraphTitle : Z;
    WLdatum : Datum;
    meteo_on : bool;
    datemode : DateMode;
    date_labels_pattern : Z;
    wldset : WLDataset;
    TIMEmeteo : list reading;
    TMAX : list reading;
    PTOT : list reading;
    RAIN : list reading;
    bTIME : list reading;
    bTMAX : list reading;
    bPTOT : list reading;
    bRAIN : list reading;
    bwidth_indx : Z;
    bwidth : Z;
    axes : list position }.

Definition with_WLscale (v : Q) (h : Hydrograph) : Hydrograph :=
  mkHydrograph h.(fwidth) h.(fheight) h.(NZGrid) h.(va_ratio) h.(language)
    h.(WLmin) v h.(TIMEmin) h.(TIMEmax) h.(isLegend) h.(isGraphTitle)
    h.(WLdatum) h.(meteo_on) h.(datemode) h.(date_labels_pattern) h.(wldset)
    h.(TIMEmeteo) h.(TMAX) h.(PTOT) h.(RAIN)
    h.(bTIME) h.(bTMAX) h.(bPTOT) h.(bRAIN) h.(bwidth_indx) h.(bwidth) h.(axes).

Definition with_WLmin (v : Q) (h : Hydrograph) : Hydrograph :=
  mkHydrograph h.(fwidth) h.(fheight) h.(NZGrid) h.(va_ratio) h.(language)
    v h.(WLscale) h.(TIMEmin) h.(TIMEmax) h.(isLegend) h.(isGraphTitle)
    h.(WLdatum) h.(meteo_on) h.(datemode) h.(date_labels_pattern) h.(wldset)
    h.(TIMEmeteo) h.(TMAX) h.(PTOT) h.(RAIN)
    h.(bTIME) h.(bTMAX) h.(bPTOT) h.(bRAIN) h.(bwidth_indx) h.(bwidth) h.(axes).

Definition with_TIMEmin (v : Z) (h : Hydrograph) : Hydrograph :=
  mkHydrograph h.(fwidth) h.(fheight) h.(NZGrid) h.(va_ratio) h.(language)
    h.(WLmin) h.(WLscale) v h.(TIMEmax) h.(isLegend) h.(isGraphTitle)
    h.(WLdatum) h.(meteo_on) h.(datemode) h.(date_labels_pattern) h.(wldset)
    h.(TIMEmeteo) h.(TMAX) h.(PTOT) h.(RAIN)
    h.(bTIME) h.(bTMAX) h.(bPTOT) h.(bRAIN) h.(bwidth_indx) h.(bwidth) h.(axes).

Definition with_TIMEmax (v : Z) (h : Hydrograph) : Hydrograph :=
  mkHydrograph h.(fwidth) h.(fheight) h.(NZGrid) h.(va_ratio) h.(language)
    h.(WLmin) h.(WLscale) h.(TIMEmin) v h.(isLegend) h.(isGraphTitle)
    h.(WLdatum) h.(meteo_on) h.(datemode) h.(date_labels_pattern) h.(wldset)
    h.(TIMEmeteo) h.(TMAX) h.(PTOT) h.(RAIN)
    h.(bTIME) h.(bTMAX) h.(bPTOT) h.(bRAIN) h.(bwidth_indx) h.(bwidth) h.(axes).

Definition with_bwidth (v : Z) (h : Hydrograph) : Hydrograph :=
  mkHydrograph h.(fwidth) h.(fheight) h.(NZGrid) h.(va_ratio) h.(language)
    h.(WLmin) h.(WLscale) h.(TIMEmin) h.(TIMEmax) h.(isLegend) h.(isGraphTitle)
    h.(WLdatum) h.(meteo_on) h.(datemode) h.(date_labels_pattern) h.(wldset)
    h.(TIMEmeteo) h.(TMAX) h.(PTOT) h.(RAIN)
    h.(bTIME) h.(bTMAX) h.(bPTOT) h.(bRAIN) h.(bwidth_indx) v h.(axes).

Definition with_bins (t tmax ptot rain : list reading) (h : Hydrograph)
  : Hydrograph :=
  mkHydrograph h.(fwidth) h.(fheight) h.(NZGrid) h.(va_ratio) h.(language)
    h.(WLmin) h.(WLscale) h.(TIMEmin) h.(TIMEmax) h.(isLegend) h.(isGraphTitle)
    h.(WLdatum) h.(meteo_on) h.(datemode) h.(date_labels_pattern) h.(wldset)
    h.(TIMEmeteo) h.(TMAX) h.(PTOT) h.(RAIN)
    t tmax ptot rain h.(bwidth_indx) h.(bwidth) h.(axes).

(** The [meteo_on] property is read as the value its getter returns. *)
Definition with_meteo_on (v : bool) (h : Hydrograph) : Hydrograph :=
  mkHydrograph h.(fwidth) h.(fheight) h.(NZGrid) h.(va_ratio) h.(language)
    h.(WLmin) h.(WLscale) h.(TIMEmin) h.(TIMEmax) h.(isLegend) h.(isGraphTitle)
    h.(WLdatum) v h.(datemode) h.(date_labels_pattern) h.(wldset)
    h.(TIMEmeteo) h.(TMAX) h.(PTOT) h.(RAIN)
    h.(bTIME) h.(bTMAX) h.(bPTOT) h.(bRAIN) h.(bwidth_indx) h.(bwidth) h.(axes).

Definition with_axes (v : list position) (h : Hydrograph) : Hydrograph :=
  mkHydrograph h.(fwidth) h.(fheight) h.(NZGrid) h.(va_ratio) h.(language)
    h.(WLmin) h.(WLscale) h.(TIMEmin) h.(TIMEmax) h.(isLegend) h.(isGraphTitle)
    h.(WLdatum) h.(meteo_on) h.(datemode) h.(date_labels_pattern) h.(wldset)
    h.(TIMEmeteo) h.(TMAX) h.(PTOT) h.(RAIN)
    h.(bTIME) h.(bTMAX) h.(bPTOT) h.(bRAIN) h.(bwidth_indx) h.(bwidth) v.

Definition with_NZGrid (v : Z) (h : Hydrograph) : Hydrograph :=
  mkHydrograph h.(fwidth) h.(fheight) v h.(va_ratio) h.(language) h.(WLmin)
    h.(WLscale) h.(TIMEmin) h.(TIMEmax) h.(isLegend) h.(isGraphTitle)
    h.(WLdatum) h.(meteo_on) h.(datemode) h.(date_labels_pattern) h.(wldset)
    h.(TIMEmeteo) h.(TMAX) h.(PTOT) h.(RAIN) h.(bTIME) h.(bTMAX) h.(bPTOT)
    h.(bRAIN) h.(bwidth_indx) h.(bwidth) h.(axes).

Definition with_WLdatum (v : Datum) (h : Hydrograph) : Hydrograph :=
  mkHydrograph h.(fwidth) h.(fheight) h.(NZGrid) h.(va_ratio) h.(language)
    h.(WLmin) h.(WLscale) h.(TIMEmin) h.(TIMEmax) h.(isLegend)
    h.(isGraphTitle) v h.(meteo_on) h.(datemode) h.(date_labels_pattern)
    h.(wldset) h.(TIMEmeteo) h.(TMAX) h.(PTOT) h.(RAIN) h.(bTIME) h.(bTMAX)
    h.(bPTOT) h.(bRAIN) h.(bwidth_indx) h.(bwidth) h.(axes).

Definition with_wldset (v : WLDataset) (h : Hydrograph) : Hydrograph :=
  mkHydrograph h.(fwidth) h.(fheight) h.(NZGrid) h.(va_ratio) h.(language)
    h.(WLmin) h.(WLscale) h.(TIMEmin) h.(TIMEmax) h.(isLegend)
    h.(isGraphTitle) h.(WLdatum) h.(meteo_on) h.(datemode)
    h.(date_labels_pattern) v h.(TIMEmeteo) h.(TMAX) h.(PTOT) h.(RAIN)
    h.(bTIME) h.(bTMAX) h.(bPTOT) h.(bRAIN) h.(bwidth_indx) h.(bwidth)
    h.(axes).

Definition with_datemode (v : DateMode) (h : Hydrograph) : Hydrograph :=
  mkHydrograph h.(fwidth) h.(fheight) h.(NZGrid) h.(va_ratio) h.(language)
    h.(WLmin) h.(WLscale) h.(TIMEmin) h.(TIMEmax) h.(isLegend)
    h.(isGraphTitle) h.(WLdatum) h.(meteo_on) v h.(date_labels_pattern)
    h.(wldset) h.(TIMEmeteo) h.(TMAX) h.(PTOT) h.(RAIN) h.(bTIME) h.(bTMAX)
    h.(bPTOT) h.(bRAIN) h.(bwidth_indx) h.(bwidth) h.(axes).

Definition with_date_labels_pattern (v : Z) (h : Hydrograph) : Hydrograph :=
  mkHydrograph h.(fwidth) h.(fheight) h.(NZGrid) h.(va_ratio) h.(language)
    h.(WLmin) h.(WLscale) h.(TIMEmin) h.(TIMEmax) h.(isLegend)
    h.(isGraphTitle) h.(WLdatum) h.(meteo_on) h.(datemode) v h.(wldset)
    h.(TIMEmeteo) h.(TMAX) h.(PTOT) h.(RAIN) h.(bTIME) h.(bTMAX) h.(bPTOT)
    h.(bRAIN) h.(bwidth_indx) h.(bwidth) h.(axes).

Definition with_language (v : Language) (h : Hydrograph) : Hydrograph :=
  mkHydrograph h.(fwidth) h.(fheight) h.(NZGrid) h.(va_ratio) v h.(WLmin)
    h.(WLscale) h.(TIMEmin) h.(TIMEmax) h.(isLegend) h.(isGraphTitle)
    h.(WLdatum) h.(meteo_on) h.(datemode) h.(date_labels_pattern) h.(wldset)
    h.(TIMEmeteo) h.(TMAX) h.(PTOT) h.(RAIN) h.(bTIME) h.(bTMAX) h.(bPTOT)
    h.(bRAIN) h.(bwidth_indx) h.(bwidth) h.(axes).

Definition with_bwidth_indx (v : Z) (h : Hydrograph) : Hydrograph :=
  mkHydrograph h.(fwidth) h.(fheight) h.(NZGrid) h.(va_ratio) h.(language)
    h.(WLmin) h.(WLscale) h.(TIMEmin) h.(TIMEmax) h.(isLegend)
    h.(isGraphTitle) h.(WLdatum) h.(meteo_on) h.(datemode)
    h.(date_labels_pattern) h.(wldset) h.(TIMEmeteo) h.(TMAX) h.(PTOT)
    h.(RAIN) h.(bTIME) h.(bTMAX) h.(bPTOT) h.(bRAIN) v h.(bwidth) h.(axes).

Definition with_weather (t tmax ptot rain : list reading) (h : Hydrograph)
  : Hydrograph :=
  mkHydrograph h.(fwidth) h.(fheight) h.(NZGrid) h.(va_ratio) h.(language)
    h.(WLmin) h.(WLscale) h.(TIMEmin) h.(TIMEmax) h.(isLegend) h.(isGraphTitle)
    h.(WLdatum) h.(meteo_on) h.(datemode) h.(date_labels_pattern) h.(wldset)
    t tmax ptot rain
    h.(bTIME) h.(bTMAX) h.(bPTOT) h.(bRAIN) h.(bwidth_indx) h.(bwidth) h.(axes).

(** The object as [__init__] leaves it, with an empty water-level dataset,
    a weather dataset attached (so that [meteo_on] reads [True]) and the
    five axes of [generate_hydrograph]; [bwidth] does not exist before
    [resample_bin] and is given the width of the initial [bwidth_indx]. *)
Definition init : Hydrograph :=
  mkHydrograph 11%Q 7%Q 8 0.2%Q english 0%Q 0%Q 36526 36526 1 1 mbgs true
    Month 2 (mkWLDataset [] 0%Q) [] [] [] [] [] [] [] [] 1 7
    (repeat (0, 0, 1, 1)%Q 5).

(** A method: the value returned or the exception raised, and the object
    afterwards (assignments made before a raise are kept). *)
Definition M (A : Type) : Type := Hydrograph -> result A * Hydrograph.

Definition ret {A} (a : A) : M A := fun self => (Ok a, self).

Definition bind {A B} (c : M A) (k : A -> M B) : M B :=
  fun self =>
    match c self with
    | (Ok a, self') => k a self'
    | (Raise e, self') => (Raise e, self')
    end.

Definition lift {A} (r : result A) : M A := fun self => (r, self).
Definition get : M Hydrograph := fun self => (Ok self, self).
Definition modify (f : Hydrograph -> Hydrograph) : M unit :=
  fun self => (Ok tt, f self).

Declare Scope method_scope.
Delimit Scope method_scope with method.
Notation "x <- c ;; k" := (bind c (fun x => k))
  (at level 61, c at next level, right associativity) : method_scope.
Notation "c ;; k" := (bind c (fun _ => k))
  (at level 61, right associativity) : method_scope.

Local Open Scope Q_scope.

(** ** [Hydrograph.set_margins] *)

(** First block of [set_margins]: [(left_margin, right_margin,
    bottom_margin, top_margin)], each an inch figure divided by the figure
    dimension. *)
Definition margins (self : Hydrograph) : result (Q * Q * Q * Q) :=
  (let fheight' := self.(fheight) in
   left_margin <- Py.truediv 0.85 self.(fwidth) ;;
   right_margin <- (if negb self.(meteo_on)
                    then Py.truediv 0.15 self.(fwidth)
                    else Py.truediv 0.85 self.(fwidth)) ;;
   bottom_margin <- Py.truediv 0.6 self.(fheight) ;;
   top_margin <- Py.truediv 0.25 self.(fheight) ;;
   top_margin <- (if (self.(isGraphTitle) =? 1)%Z || (self.(isLegend) =? 1)%Z
                  then if negb self.(meteo_on)
                       then extra <- Py.truediv 0.2 fheight' ;;
                            Ok (top_margin + extra)
                       else extra <- Py.truediv 0.45 fheight' ;;
                            Ok (top_margin + extra)
                  else Ok top_margin) ;;
   Ok (left_margin, right_margin, bottom_margin, top_margin))%res.

(** The loop over [enumerate(self.axes)]. *)
Fixpoint place_axes (i : nat) (axes : list position)
    (left_margin bottom_margin wtot htot htop hlow : Q) : list position :=
  match axes with
  | [] => []
  | _ :: rest =>
      (if Nat.eqb i 4
       then (left_margin, bottom_margin + hlow, wtot, htop)
       else if Nat.eqb i 0 || Nat.eqb i 1
            then (left_margin, bottom_margin, wtot, htot)
            else (left_margin, bottom_margin, wtot, hlow))
      :: place_axes (S i) rest left_margin bottom_margin wtot htot htop hlow
  end.

Definition set_margins : M unit :=
  (self <- get ;;
   m <- lift (margins self) ;;
   let '(left_margin, right_margin, bottom_margin, top_margin) := m in
   let va_ratio := if self.(meteo_on) then self.(va_ratio) else 0 in
   let htot := 1 - (bottom_margin + top_margin) in
   let htop := htot * va_ratio in
   let hlow := htot * (1 - va_ratio) in
   let wtot := 1 - (left_margin + right_margin) in
   modify (with_axes (place_axes 0 self.(axes)
                        left_margin bottom_margin wtot htot htop hlow)))%method.

(** ** [Hydrograph.best_fit_waterlvl] *)

Definition SCALE : list Q :=
  Np.arange 0.05 0.30 0.05 ++ Np.arange 0.3 5.1 0.1.

Definition best_fit_waterlvl : M (Q * Q) :=
  (self <- get ;;
   let WL := self.(wldset).(WL) in
   let WL := match self.(WLdatum) with
             | masl => map (option_map (fun w => self.(wldset).(Elevation) - w)) WL
             | mbgs => WL
             end in
   let WL := Np.dropna WL in
   WLhigh <- lift (Np.max WL) ;;
   WLlow <- lift (Np.min WL) ;;
   let dWL := WLhigh - WLlow in
   let ygrid := (self.(NZGrid) - 5)%Z in
   (* WL scale *)
   let dSCALE :=
     map (fun c => Np.abs (Np.subtract (fin c) (Np.true_divide dWL ygrid)))
         SCALE in
   lowest <- lift (Np.fmin dSCALE) ;;
   indx <- lift (Np.where_first (map (fun d => Np.equal d lowest) dSCALE)) ;;
   let scale := nth indx SCALE 0 in
   modify (with_WLscale scale) ;;
   (* WL min value; the scale is an entry of SCALE and is not zero *)
   let N := match self.(WLdatum) with
            | mbgs => Qceiling (WLhigh / scale)
            | masl => Qfloor (WLlow / scale)
            end in
   modify (with_WLmin (scale * inject_Z N)) ;;
   ret (scale, scale * inject_Z N))%method.

(** ** [Hydrograph.setup_waterlvl_scale] *)

(** The bounds [(ymin, ymax)] given to the water-level axes: the grid
    spans [NZGrid] scale steps from [WLmin] (two less without the weather
    panel), upwards in the masl datum and downwards in the mbgs datum. *)
Definition waterlvl_axis (self : Hydrograph) : Q * Q :=
  let NZGrid' := if self.(meteo_on) then self.(NZGrid) else (self.(NZGrid) - 2)%Z in
  match self.(WLdatum) with
  | masl =>
      let WLmin' := self.(WLmin) in
      let WLscale' := self.(WLscale) in
      let WLmax := WLmin' + (inject_Z NZGrid' * WLscale') in
      (WLmin', WLmax)
  | mbgs =>
      let WLmax := self.(WLmin) in
      let WLscale' := self.(WLscale) in
      let WLmin' := WLmax - (inject_Z NZGrid' * WLscale') in
      (WLmin', WLmax)
  end.

(** ** [Hydrograph.best_fit_time] *)

Definition best_fit_time (TIME : list Q) : M (Xldate.date * Xldate.date) :=
  (first <- lift (Py.getitem TIME 0) ;;
   date0 <- lift (Xldate.xldate_as_tuple first) ;;
   let '(y0, m0, _, _, _, _) := date0 in
   let date0 := (y0, m0, 1%Z) in
   tmin <- lift (Xldate.xldate_from_date_tuple date0) ;;
   modify (with_TIMEmin tmin) ;;
   last <- lift (Py.getitem TIME (-1)) ;;
   date1 <- lift (Xldate.xldate_as_tuple last) ;;
   let '(y1, m1, _, _, _, _) := date1 in
   let year := y1 in
   let month := (m1 + 1)%Z in
   let '(year, month) := if (month >? 12)%Z then ((year + 1)%Z, 1%Z)
                         else (year, month) in
   let date1 := (year, month, 1%Z) in
   tmax <- lift (Xldate.xldate_from_date_tuple date1) ;;
   modify (with_TIMEmax tmax) ;;
   ret (date0, date1))%method.

(** ** [Hydrograph.bin_sum] and [Hydrograph.resample_bin] *)

Definition bin_sum (x : list reading) (bwidth : Z) : result (list reading) :=
  (if (bwidth =? 0)%Z then Raise ZeroDivisionError
   else
     let nbin := (Z.of_nat (length x) / bwidth)%Z in
     bheight <- Np.reshape (Np.take (nbin * bwidth) x) nbin bwidth ;;
     Ok (Np.sum_axis1 bheight))%res.

Definition resample_bin : M unit :=
  (self <- get ;;
   bwidth <- lift (Py.getitem [1; 7; 30; 365]%Z self.(bwidth_indx)) ;;
   modify (with_bwidth bwidth) ;;
   if (self.(bwidth_indx) =? 0)%Z
   then
     modify (fun h => with_bins self.(TIMEmeteo) h.(bTMAX) h.(bPTOT) h.(bRAIN) h) ;;
     modify (fun h => with_bins h.(bTIME) self.(TMAX) h.(bPTOT) h.(bRAIN) h) ;;
     modify (fun h => with_bins h.(bTIME) h.(bTMAX) self.(PTOT) h.(bRAIN) h) ;;
     modify (fun h => with_bins h.(bTIME) h.(bTMAX) h.(bPTOT) self.(RAIN) h)
   else
     bT <- lift (bin_sum self.(TIMEmeteo) bwidth) ;;
     modify (fun h => with_bins (map (fun v => Np.rdiv v bwidth) bT)
                                h.(bTMAX) h.(bPTOT) h.(bRAIN) h) ;;
     bX <- lift (bin_sum self.(TMAX) bwidth) ;;
     modify (fun h => with_bins h.(bTIME) (map (fun v => Np.rdiv v bwidth) bX)
                                h.(bPTOT) h.(bRAIN) h) ;;
     bP <- lift (bin_sum self.(PTOT) bwidth) ;;
     modify (fun h => with_bins h.(bTIME) h.(bTMAX) bP h.(bRAIN) h) ;;
     bR <- lift (bin_sum self.(RAIN) bwidth) ;;
     modify (fun h => with_bins h.(bTIME) h.(bTMAX) h.(bPTOT) bR h))%method.

(** ** [Hydrograph.set_time_scale] *)

(** The bounds of the time axis before the ticks are made: by year they
    are moved to a 1 January (the calls that draw follow and are not
    modelled). *)
Definition set_time_scale : M unit :=
  (self <- get ;;
   match self.(datemode) with
   | Year =>
       date0 <- lift (Xldate.xldate_as_tuple (inject_Z self.(TIMEmin))) ;;
       let '(year, _, _, _, _, _) := date0 in
       tmin <- lift (Xldate.xldate_from_date_tuple (year, 1%Z, 1%Z)) ;;
       modify (with_TIMEmin tmin) ;;
       date1 <- lift (Xldate.xldate_as_tuple (inject_Z self.(TIMEmax))) ;;
       let '(year, month, day, _, _, _) := date1 in
       let last_month := (month =? 1)%Z in
       let last_day := (day =? 1)%Z in
       if last_month && last_day
       then ret tt
       else
         tmax <- lift (Xldate.xldate_from_date_tuple ((year + 1)%Z, 1%Z, 1%Z)) ;;
         modify (with_TIMEmax tmax)
   | Month => ret tt
   end)%method.

(** ** [LabelDatabase] and [Hydrograph.make_xticks_info] *)

Definition month_names (lang : Language) : list String.string :=
  match lang with
  | english => ["JAN"; "FEB"; "MAR"; "APR"; "MAY"; "JUN";
                "JUL"; "AUG"; "SEP"; "OCT"; "NOV"; "DEC"]%string
  | french => ["JAN"; "FÉV"; "MAR"; "AVR"; "MAI"; "JUN";
               "JUL"; "AOÛ"; "SEP"; "OCT"; "NOV"; "DÉC"]%string
  end.

(** [str(n)] and ["%d" % n] *)
Definition str (n : Z) : String.string := NilZero.string_of_int (Z.to_int n).

(** [s[-2:]] *)
Definition last2 (s : String.string) : String.string :=
  String.substring (String.length s - 2) 2 s.

(** What the renderer measures: height and width of a bounding box. *)
Record Bbox : Type := mkBbox
  { height : Q;
    width : Q }.

Record xticks_info : Type := mk_xticks_info
  { xticks_position : list Z;
    xticks_labels_position : list Q;
    xticks_labels : list String.string;
    xticks_minor_position : list Z }.

Section Ticks.

(** The value of [np.sin(np.radians(45))]. *)
Variable sin_45 : Q.

(** The text box of the dummy label in axes coordinates and the box of
    the time axes in inches, as returned by the renderer. *)
Variable txt_bbox : Bbox.
Variable ax_bbox : Bbox.

(** Lines 1165-1180: the horizontal shift of the labels, in days.  The
    renderer's boxes have a positive width. *)
Definition xticks_labels_offset (self : Hydrograph) : Q :=
  let dx := txt_bbox.(height) * sin_45 in
  let sdx := dx * ax_bbox.(height) / ax_bbox.(width) in
  let sdx := sdx * inject_Z (self.(TIMEmax) - self.(TIMEmin) + 1) in
  sdx.

(** One pass through the body of the [while True] loop appends to the
    four lists; [None] stands for a loop that has not reached its
    [break] within [fuel] passes. *)
Fixpoint xticks_loop (fuel : nat) (self : Hydrograph) (i : Z)
    (next_xtick_pos : Z) (acc : xticks_info)
  : option (result xticks_info) :=
  match fuel with
  | O => None
  | S fuel' =>
      match Xldate.xldate_as_tuple (inject_Z next_xtick_pos) with
      | Raise e => Some (Raise e)
      | Ok (year, month, _, _, _, _) =>
          match Calendar.monthrange year month with
          | Raise e => Some (Raise e)
          | Ok month_range =>
              let minor := acc.(xticks_minor_position) ++ [next_xtick_pos] in
              if (self.(date_labels_pattern) =? 0)%Z
              then Some (Raise ZeroDivisionError)
              else
                let labelled :=
                  if (i mod self.(date_labels_pattern) =? 0)%Z
                  then
                    (label <-
                       match self.(datemode) with
                       | Month =>
                           name <- Py.getitem (month_names self.(language))
                                              (month - 1) ;;
                           Ok (String.append name
                                 (String.append " '" (last2 (str year))))
                       | Year => Ok (str year)
                       end ;;
                     Ok (mk_xticks_info
                           (acc.(xticks_position) ++ [next_xtick_pos])
                           (acc.(xticks_labels_position)
                            ++ [inject_Z next_xtick_pos
                                + xticks_labels_offset self])
                           (acc.(xticks_labels) ++ [label])
                           minor))%res
                  else
                    Ok (mk_xticks_info acc.(xticks_position)
                          acc.(xticks_labels_position)
                          acc.(xticks_labels) minor) in
                match labelled with
                | Raise e => Some (Raise e)
                | Ok acc' =>
                    match
                      match self.(datemode) with
                      | Month => Ok (next_xtick_pos + month_range)%Z
                      | Year =>
                          Xldate.xldate_from_date_tuple
                            ((year + 1)%Z, 1%Z, 1%Z)
                      end
                    with
                    | Raise e => Some (Raise e)
                    | Ok next =>
                        if (next >? self.(TIMEmax))%Z
                        then Some (Ok acc')
                        else xticks_loop fuel' self (i + 1) next acc'
                    end
                end
          end
      end
  end.

Definition make_xticks_info (fuel : nat) (self : Hydrograph)
  : option (result xticks_info) :=
  xticks_loop fuel self 0 self.(TIMEmin) (mk_xticks_info [] [] [] []).

End Ticks.


(** * Further methods *)

(** ** Ticks set by [Hydrograph.setup_waterlvl_scale]

    [np.arange] has [ceil((stop - start) / step)] values also for a
    negative step; the scale is taken to be other than zero (with a zero
    step NumPy fails). *)

(** [self.axLow.set_yticks(np.arange(1, self.NZGrid))] *)
Definition grid_yticks (self : Hydrograph) : list Q :=
  Np.arange 1 (inject_Z self.(NZGrid)) 1.

(** The argument of [self.ax2.set_yticks] in the four branches. *)
Definition waterlvl_yticks (self : Hydrograph) : list Q :=
  let NZGrid' := if self.(meteo_on) then self.(NZGrid) else (self.(NZGrid) - 2)%Z in
  match self.(WLdatum) with
  | masl =>
      let WLmin' := self.(WLmin) in
      let WLscale' := self.(WLscale) in
      let WLmax := WLmin' + (inject_Z NZGrid' * WLscale') in
      if self.(meteo_on)
      then Np.arange WLmin' (WLmax - 1.9 * WLscale') WLscale'
      else Np.arange WLmin' (WLmax + 0.1 * WLscale') WLscale'
  | mbgs =>
      let WLmax := self.(WLmin) in
      let WLscale' := self.(WLscale) in
      let WLmin' := WLmax - (inject_Z NZGrid' * WLscale') in
      if self.(meteo_on)
      then Np.arange WLmax (WLmin' + 1.9 * WLscale') (- WLscale')
      else Np.arange WLmax (WLmin' - 0.1 * WLscale') (- WLscale')
  end.

(** ** Label padding of [Hydrograph.draw_ylabels]

    Lines 658-666: the distance between the tick labels and the axis
    labels, 0.3 cm, as a fraction of the width of the axes. *)
Definition label_padding (self : Hydrograph) : result Q :=
  (let left_margin := 0.85 in
   let right_margin := 0.85 in
   let right_margin := if negb self.(meteo_on) then 0.35 else right_margin in
   let axwidth := self.(fwidth) - left_margin - right_margin in
   let labPad := 0.3 / 2.54 in
   labPad <- Py.truediv labPad axwidth ;;
   Ok labPad)%res.

(** ** The layout panel ([WHAT/HydroPrint.py])

    [HydroprintGUI.layout_changed], branch of the datum widget: the new
    datum is stored and [WLmin] is mirrored about the altitude [ALT] of the
    well, truncated to a multiple of the scale. *)
Definition datum_changed (ALT : Q) (currentIndex : Datum) : M unit :=
  (modify (with_WLdatum currentIndex) ;;
   self <- get ;;
   q <- lift (Py.truediv ALT self.(WLscale)) ;;
   let yoffset := inject_Z (Py.int q) in
   let yoffset := yoffset * self.(WLscale) in
   modify (with_WLmin (yoffset - self.(WLmin))))%method.

(** [HydroprintGUI.update_graph_layout_parameter], "Dates": the bounds of
    the time axis are stored from the year and month of the two date
    widgets. *)
Definition update_graph_layout_dates (date_start date_end : Z * Z) : M unit :=
  (let year := fst date_start in
   let month := snd date_start in
   let day := 1%Z in
   date <- lift (Xldate.xldate_from_date_tuple (year, month, day)) ;;
   modify (with_TIMEmin date) ;;
   let year := fst date_end in
   let month := snd date_end in
   let day := 1%Z in
   date <- lift (Xldate.xldate_from_date_tuple (year, month, day)) ;;
   modify (with_TIMEmax date))%method.

(** [HydroprintGUI.load_graph_layout], "Scales": the dates given to the
    two date widgets for the stored bounds. *)
Definition load_graph_layout_dates : M (Xldate.date * Xldate.date) :=
  (self <- get ;;
   date <- lift (Xldate.xldate_as_tuple (inject_Z self.(TIMEmin))) ;;
   let '(y0, m0, d0, _, _, _) := date in
   date <- lift (Xldate.xldate_as_tuple (inject_Z self.(TIMEmax))) ;;
   let '(y1, m1, d1, _, _, _) := date in
   ret ((y0, m0, d0), (y1, m1, d1)))%method.

(** ** [Hydrograph.update_precip_scale]

    The attribute [RAINscale] and the vertices of the polygons of
    [PTOT_bar] (for each path, the column [vertices[:, 1]]) are arguments.
    The result is the pair given to the precipitation axes: the upper
    bound [ymax] and the ticks; the inner [None] is the early [return]
    without the weather panel, the outer one a [while True] loop that has
    not reached its [break] within [fuel] passes. *)
Fixpoint yticksmax_loop (fuel : nat) (RAINscale top yticksmax : Q) : option Q :=
  match fuel with
  | O => None
  | S fuel' =>
      if Xldate.Qlt_bool top yticksmax then Some yticksmax
      else yticksmax_loop fuel' RAINscale top (yticksmax + RAINscale)
  end.

Definition update_precip_scale (fuel : nat) (RAINscale : Q)
    (paths : list (list Q)) (self : Hydrograph)
  : option (option (Q * list Q)) :=
  if negb self.(meteo_on) then Some None
  else
    let ymax := inject_Z self.(NZGrid) * RAINscale in
    let attempt :=
      match (y <- Py.getitem paths 0 ;; Np.max y)%res with
      | Ok top =>
          match yticksmax_loop fuel RAINscale top 0 with
          | Some yticksmax => Some (Np.Qmin ymax yticksmax + RAINscale / 2)
          | None => None
          end
      | Raise _ => Some (3.9 * RAINscale)
      end in
    match attempt with
    | Some yticksmax => Some (Some (ymax, Np.arange 0 yticksmax RAINscale))
    | None => None
    end.

(** ** [filt_data]

    The trend line of the water levels: the record is resampled on whole
    days by linear interpolation and smoothed by a centred moving average
    of [N] days, computed from cumulated sums. *)

Module Seq.

(** A bound of [l[start:stop]] on a sequence of length [n]: a negative
    index counts from the end, and the result is clamped to [0, n]; a
    missing bound is the given end. *)
Definition bound (n : Z) (i : option Z) (missing : Z) : Z :=
  match i with
  | None => missing
  | Some i => let j := if (i <? 0)%Z then (i + n)%Z else i in
              Z.max 0%Z (Z.min n j)
  end.

(** [l[start:stop]] *)
Definition getslice {A} (l : list A) (start stop : option Z) : list A :=
  let n := Z.of_nat (length l) in
  let a := bound n start 0%Z in
  let b := bound n stop n in
  firstn (Z.to_nat (b - a)%Z) (skipn (Z.to_nat a) l).

(** [np.where(~np.isnan(x))[0]] *)
Fixpoint nonnan_from (i : nat) (x : list reading) : list nat :=
  match x with
  | [] => []
  | Some _ :: r => i :: nonnan_from (S i) r
  | None :: r => nonnan_from (S i) r
  end.

(** [x[index]] for an array of indices. *)
Fixpoint take_at {A} (x : list A) (index : list nat) : result (list A) :=
  match index with
  | [] => Ok []
  | i :: r =>
      match nth_error x i with
      | Some a => rbind (take_at x r) (fun l => Ok (a :: l))
      | None => Raise IndexError
      end
  end.

(** [np.interp(x, xp, fp)] at one point, for increasing sample points
    [(xp, fp)]: the first value on the left of the samples, the last one
    on their right, the chord between two samples in between. *)
Fixpoint interp_at (x : Q) (samples : list (Q * Q)) : Q :=
  match samples with
  | [] => 0
  | (x0, f0) :: rest =>
      if Qle_bool x x0 then f0
      else match rest with
           | [] => f0
           | (x1, f1) :: _ =>
               if Xldate.Qlt_bool x x1
               then f0 + (x - x0) * ((f1 - f0) / (x1 - x0))
               else interp_at x rest
           end
  end.

Definition interp (x xp fp : list Q) : result (list Q) :=
  match xp with
  | [] => Raise ValueError
  | _ => if Nat.eqb (length xp) (length fp)
         then Ok (map (fun v => interp_at v (combine xp fp)) x)
         else Raise ValueError
  end.

(** [np.cumsum] *)
Fixpoint cumsum_from (acc : Q) (x : list Q) : list Q :=
  match x with
  | [] => []
  | a :: r => (acc + a) :: cumsum_from (acc + a) r
  end.

Definition cumsum (x : list Q) : list Q :=
  match x with
  | [] => []
  | a :: r => a :: cumsum_from a r
  end.

(** [a - b] on arrays: equal shapes, or one of a single element. *)
Fixpoint zip_sub (a b : list Q) : list Q :=
  match a, b with
  | x :: a', y :: b' => (x - y) :: zip_sub a' b'
  | _, _ => []
  end.

Definition subtract (a b : list Q) : result (list Q) :=
  if Nat.eqb (length a) (length b) then Ok (zip_sub a b)
  else match a, b with
       | [x], _ => Ok (map (fun y => x - y) b)
       | _, [y] => Ok (map (fun x => x - y) a)
       | _, _ => Raise ValueError
       end.

End Seq.

(** [NaN]-free values of a measured array at the given indices. *)
Definition values_at (x : list reading) (index : list nat) : result (list Q) :=
  (picked <- Seq.take_at x index ;; Ok (Np.dropna picked))%res.

Definition filt_data (time : list Q) (waterlvl : list reading) (N : Z)
  : result (list Q * list Q) :=
  (first <- Py.getitem time 0 ;;
   last <- Py.getitem time (-1) ;;
   let days := Np.arange (inject_Z (Qfloor first)) (inject_Z (Qfloor last) + 1) 1 in
   let index_nonan := Seq.nonnan_from 0 waterlvl in
   xp <- Seq.take_at time index_nonan ;;
   fp <- values_at waterlvl index_nonan ;;
   waterlvl <- Seq.interp days xp fp ;;
   let cumsum := Seq.cumsum (0 :: waterlvl) in
   diff <- Seq.subtract (Seq.getslice cumsum (Some N) None)
                        (Seq.getslice cumsum None (Some (- N)%Z)) ;;
   let wlf := map (fun v => v / inject_Z N) diff in
   let tf := Seq.getslice days (Some (N / 2)%Z) (Some (- N / 2 + 1)%Z) in
   Ok (tf, wlf))%res.

(** ** Bins drawn by [Hydrograph.draw_weather]

    Lines 903-930: "only the data that fit within the limits of the x
    axis limits are plotted". *)

(** [np.where(mask)[0]]: the indices at which the mask holds. *)
Fixpoint where_from (i : nat) (mask : list bool) : list nat :=
  match mask with
  | [] => []
  | true :: r => i :: where_from (S i) r
  | false :: r => where_from (S i) r
  end.

(** [x > c] and [x < c] on a measured array: a comparison with NaN is
    false. *)
Definition greater (x : list reading) (c : Z) : list bool :=
  map (fun v => match v with
                | Some q => Xldate.Qlt_bool (inject_Z c) q
                | None => false
                end) x.

Definition less (x : list reading) (c : Z) : list bool :=
  map (fun v => match v with
                | Some q => Xldate.Qlt_bool q (inject_Z c)
                | None => false
                end) x.

(** The bounds [istart] and [iend] of the slice. *)
Definition subsample_bounds (self : Hydrograph) : Z * Z :=
  let istart := where_from 0 (greater self.(bTIME) self.(TIMEmin)) in
  let istart :=
    match istart with
    | [] => 0%Z
    | i :: _ => let i := Z.of_nat i in if (i >? 0)%Z then (i + -1)%Z else i
    end in
  let iend := where_from 0 (less self.(bTIME) self.(TIMEmax)) in
  let iend :=
    match iend with
    | [] => 0%Z
    | i :: _ =>
        let i := Z.of_nat (List.last iend i) in
        if (i <? Z.of_nat (length self.(bTIME)))%Z then (i + 1)%Z else i
    end in
  (istart, iend).

(** The four slices [time], [Tmax], [Ptot] and [Rain]; nothing is drawn
    without the weather panel. *)
Definition draw_weather_bins (self : Hydrograph)
  : option (list reading * list reading * list reading * list reading) :=
  if negb self.(meteo_on) then None
  else
    let '(istart, iend) := subsample_bounds self in
    let time := Seq.getslice self.(bTIME) (Some istart) (Some iend) in
    let Tmax := Seq.getslice self.(bTMAX) (Some istart) (Some iend) in
    let Ptot := Seq.getslice self.(bPTOT) (Some istart) (Some iend) in
    let Rain := Seq.getslice self.(bRAIN) (Some istart) (Some iend) in
    Some (time, Tmax, Ptot, Rain).

(** * Vocabulary of the statements *)

(** ** Margins in inches *)

(** The condition [isGraphTitle == 1 or isLegend == 1]. *)
Definition title_or_legend (self : Hydrograph) : bool :=
  (self.(isGraphTitle) =? 1)%Z || (self.(isLegend) =? 1)%Z.

(** Right and top margin in inches, as tabulated for the two toggles. *)
Definition right_inches (meteo : bool) : Q := if meteo then 0.85 else 0.15.

Definition top_inches (title meteo : bool) : Q :=
  0.25 + (if title then if meteo then 0.45 else 0.20 else 0).

(** Edges of a placed axes, as fractions of the figure. *)
Definition pos_left (p : position) : Q := let '(l, _, _, _) := p in l.
Definition pos_bottom (p : position) : Q := let '(_, b, _, _) := p in b.
Definition pos_right (p : position) : Q := let '(l, _, w, _) := p in l + w.
Definition pos_top (p : position) : Q := let '(_, b, _, h) := p in b + h.

(** ** Bins *)

(** The [k]-th window of [w] consecutive samples of [x] (from index
    [k * w] up to, but not including, [(k + 1) * w]). *)
Definition window {A} (x : list A) (w k : nat) : list A :=
  firstn w (skipn (k * w) x).

(** The sums of the [length x / w] complete windows of [x]. *)
Definition window_sums (x : list reading) (w : nat) : list reading :=
  map (fun k => Np.sum (window x w k)) (seq 0 (length x / w)).

(** The same, each divided by the window width. *)
Definition window_means (x : list reading) (w : nat) : list reading :=
  map (fun k => Np.rdiv (Np.sum (window x w k)) (Z.of_nat w))
      (seq 0 (length x / w)).

(** ** Fitted water-level scale *)

(** The array the scale is fitted to: the water levels in the chosen
    datum, NaNs discarded. *)
Definition fitted_values (self : Hydrograph) : list Q :=
  Np.dropna
    match self.(WLdatum) with
    | masl => map (option_map (fun w => self.(wldset).(Elevation) - w))
                  self.(wldset).(WL)
    | mbgs => self.(wldset).(WL)
    end.

Definition is_max (hi : Q) (x : list Q) : Prop :=
  In hi x /\ forall v, In v x -> v <= hi.

Definition is_min (lo : Q) (x : list Q) : Prop :=
  In lo x /\ forall v, In v x -> lo <= v.

(** [c], at index [i] of [cands], is nearest to [t], and is the first
    such candidate. *)
Definition nearest_first (cands : list Q) (t : Q) (i : nat) (c : Q) : Prop :=
  nth_error cands i = Some c
  /\ (forall c', In c' cands -> Qabs (c - t) <= Qabs (c' - t))
  /\ (forall j c', (j < i)%nat -> nth_error cands j = Some c' ->
                   Qabs (c - t) < Qabs (c' - t)).

(** The candidate steps as the specification lists them. *)
Definition candidates : list Q :=
  [0.05; 0.10; 0.15; 0.20; 0.25]
  ++ map (fun k => inject_Z k / 10) (map Z.of_nat (seq 3 48)).

Fixpoint ascending (l : list Q) : Prop :=
  match l with
  | a :: (b :: _) as r => a < b /\ ascending r
  | _ => True
  end.

(** The integer [N] of "WL Min Value" and the object after a fit. *)
Definition grid_rank (d : Datum) (hi lo step : Q) : Z :=
  match d with
  | mbgs => Qceiling (hi / step)
  | masl => Qfloor (lo / step)
  end.

Definition fitted (self : Hydrograph) (step origin : Q) : Hydrograph :=
  with_WLmin origin (with_WLscale step self).

(** A record with two water levels, 0 and 10, and a missing value. *)
Definition zero_to_ten : Hydrograph :=
  with_wldset (mkWLDataset [Some 0; None; Some 10] 0) init.

(** Records used as examples: missing values only; the levels 1 and 2 on a
    grid of five divisions; the constant level 1 on the same grid. *)
Definition all_missing : Hydrograph :=
  with_wldset (mkWLDataset [None; None; None] 0) init.

Definition one_two_on_five : Hydrograph :=
  with_NZGrid 5 (with_wldset (mkWLDataset [Some 1; Some 2] 0) init).

Definition constant_on_five : Hydrograph :=
  with_NZGrid 5 (with_wldset (mkWLDataset [Some 1; Some 1] 0) init).

(** ** Calendar months *)

Local Open Scope Z_scope.

(** Gregorian leap years and month lengths. *)
Definition leap_year (y : Z) : bool :=
  (y mod 4 =? 0) && (negb (y mod 100 =? 0) || (y mod 400 =? 0)).

Definition days_in_month (y m : Z) : Z :=
  if m =? 2 then (if leap_year y then 29 else 28)
  else if (m =? 4) || (m =? 6) || (m =? 9) || (m =? 11) then 30
  else 31.

(** The month after month [m] of year [y]: December is followed by
    January of the next year. *)
Definition next_month (ym : Z * Z) : Z * Z :=
  let '(y, m) := ym in if m =? 12 then (y + 1, 1) else (y, m + 1).

(** Day number of the first day of a month. *)
Definition first_day (ym : Z * Z) : Z :=
  let '(y, m) := ym in Xldate.xldays_of_ymd y m 1.

(** Months a day number can fall in: March 1900 to December 9999. *)
Definition valid_month (ym : Z * Z) : Prop :=
  let '(y, m) := ym in
  1 <= m <= 12 /\ 12 * 1900 + 3 <= 12 * y + m <= 12 * 9999 + 12.

(** The instant [t] lies in the month [ym]: on or after its first day and
    before the first day of the next month. *)
Definition in_month (ym : Z * Z) (t : Q) : Prop :=
  (inject_Z (first_day ym) <= t /\ t < inject_Z (first_day (next_month ym)))%Q.

(** The day on which an instant falls once it is rounded to the nearest
    second (half a second is 1/172800 day). *)
Definition rounded_day (t : Q) : Z := Qfloor (t + (1 # 172800)).

Local Close Scope Z_scope.

(** The date tuple of the first day of a month. *)
Definition first_of (ym : Z * Z) : Xldate.date := (fst ym, snd ym, 1%Z).

(** Example sequences: one instant half a second before February 2000;
    the start and end bounds fitted to 15 January 2000 .. 20 December
    2001. *)
Definition before_midnight : list Q := [36556.999995].

Definition fitted_bounds : list Q := [36526; 37257].

(** A record from noon of 15 January 2000 to the morning of 20 December
    2001. *)
Definition two_years : list Q := [36540.5; 36800; 37245.25].

(** The levels 0 and 10 refitted on the bounds of their fitted axis. *)
Definition refit_zero_to_ten : Hydrograph :=
  let fit := snd (best_fit_waterlvl zero_to_ten) in
  let '(ymin, ymax) := waterlvl_axis fit in
  with_wldset (mkWLDataset [Some ymin; Some ymax] 0) fit.

(** Levels whose fitted axis refits to the same scale: 0 and 2.25 on fifty
    grid divisions, and the same record refitted on its axis bounds. *)
Definition fine_grid : Hydrograph :=
  with_NZGrid 50 (with_wldset (mkWLDataset [Some 0; Some 2.25] 0) init).

Definition refit_fine_grid : Hydrograph :=
  let fit := snd (best_fit_waterlvl fine_grid) in
  let '(ymin, ymax) := waterlvl_axis fit in
  with_wldset (mkWLDataset [Some ymin; Some ymax] 0) fit.

(** ** Ticks of the time axis *)

Local Open Scope Z_scope.

(** Months in calendar order. *)
Definition month_index (ym : Z * Z) : Z := 12 * fst ym + snd ym.

(** One step of the walk: to the next month, or to January of the next
    year. *)
Definition tick_step (mode : DateMode) (ym : Z * Z) : Z * Z :=
  match mode with
  | Month => next_month ym
  | Year => (fst ym + 1, 1)
  end.

(** The month reached from [start] after [k] steps. *)
Definition tick_month (mode : DateMode) (start : Z * Z) (k : nat) : Z * Z :=
  Nat.iter k (tick_step mode) start.

(** Number of steps that stay on or before the month [stop]. *)
Definition tick_count (mode : DateMode) (start stop : Z * Z) : nat :=
  match mode with
  | Month => Z.to_nat (month_index stop - month_index start + 1)
  | Year => Z.to_nat (fst stop - fst start + 1)
  end.

Definition digit (d : Z) : ascii := ascii_of_nat (48 + Z.to_nat d).

Definition two_digits (y : Z) : string :=
  String (digit ((y / 10) mod 10)) (String (digit (y mod 10)) EmptyString).

Definition four_digits (y : Z) : string :=
  String (digit ((y / 1000) mod 10))
    (String (digit ((y / 100) mod 10)) (two_digits y)).

Definition month_name (lang : Language) (m : Z) : string :=
  nth (Z.to_nat (m - 1)) (month_names lang) EmptyString.

(** Label of a major tick: short month name, space, apostrophe and the
    last two digits of the year; or the four digits of the year. *)
Definition tick_label (self : Hydrograph) (ym : Z * Z) : string :=
  match self.(datemode) with
  | Month => String.append (month_name self.(language) (snd ym))
               (String.append " '" (two_digits (fst ym)))
  | Year => four_digits (fst ym)
  end.

(** Steps that carry a label: every [date_labels_pattern]-th, from the
    first. *)
Definition is_major (self : Hydrograph) (k : nat) : bool :=
  Z.of_nat k mod self.(date_labels_pattern) =? 0.

(** The four lists after the pass for the [i]-th tick, at month [ym]. *)
Definition after_pass (offset : Q) (self : Hydrograph) (i : Z) (ym : Z * Z)
    (acc : xticks_info) : xticks_info :=
  if i mod self.(date_labels_pattern) =? 0
  then mk_xticks_info
         (acc.(xticks_position) ++ [first_day ym])
         (acc.(xticks_labels_position) ++ [(inject_Z (first_day ym) + offset)%Q])
         (acc.(xticks_labels) ++ [tick_label self ym])
         (acc.(xticks_minor_position) ++ [first_day ym])
  else mk_xticks_info acc.(xticks_position) acc.(xticks_labels_position)
         acc.(xticks_labels) (acc.(xticks_minor_position) ++ [first_day ym]).

(** The ticks of the first [n] steps from [start]. *)
Definition ticks_of (offset : Q) (self : Hydrograph) (start : Z * Z) (n : nat)
  : xticks_info :=
  let minor := map (tick_month self.(datemode) start) (seq 0 n) in
  let major := map (tick_month self.(datemode) start)
                   (filter (is_major self) (seq 0 n)) in
  mk_xticks_info
    (map first_day major)
    (map (fun ym => (inject_Z (first_day ym) + offset)%Q) major)
    (map (tick_label self) major)
    (map first_day minor).

Local Close Scope Z_scope.

(** Example axes: January 2000 to January 2001 by month with a label on
    every second tick; March 2000 to January 2002 by year. *)
Definition by_month_2000 : Hydrograph := with_TIMEmax 36892 init.

Definition by_year_from_march : Hydrograph :=
  with_datemode Year (with_TIMEmax 37257 (with_TIMEmin 36586 init)).

Definition sample_text : Bbox := mkBbox 0.03 0.2.
Definition sample_axes : Bbox := mkBbox 5 9.3.

(** A ten-day weather record, the same for the four series. *)
Definition ten_days : Hydrograph :=
  let days := map (fun v => Some (inject_Z v)) [1; 2; 3; 4; 5; 6; 7; 8; 9; 10]%Z in
  with_weather days days days days init.

(** The time axis over January 2000. *)
Definition january_2000 : Hydrograph := with_TIMEmax 36557 init.

(** A single instant on 10 January 1900. *)
Definition january_1900 : list Q := [10].

(** The time axis over the year 9999, by year. *)
Definition by_year_9999 : Hydrograph :=
  with_datemode Year (with_TIMEmax 2958435 (with_TIMEmin 2958101 init)).

(** The levels 2, NaN and 12 below a ground surface at 100, read in the
    masl datum; the month axis of [by_month_2000] with French labels. *)
Definition masl_record : Hydrograph :=
  with_WLdatum masl (with_wldset (mkWLDataset [Some 2; None; Some 12] 100) init).

Definition french_2000 : Hydrograph := with_language french by_month_2000.

(** The ten-day record in monthly bins; the month axis of [by_month_2000]
    with a label on every third tick. *)
Definition ten_days_monthly : Hydrograph := with_bwidth_indx 2 ten_days.

Definition every_third : Hydrograph := with_date_labels_pattern 3 by_month_2000.

(** ** Years of the time axis *)

Local Open Scope Z_scope.

(** The year in which a day number falls, the first day of that year, and
    the first 1 January on or after the day. *)
Definition year_of (x : Z) : Z :=
  let '(y, _, _) := Xldate.ymd_of_xldays x in y.

Definition year_start (x : Z) : Z := first_day (year_of x, 1).

Definition year_end (x : Z) : Z :=
  if x =? year_start x then x else first_day (year_of x + 1, 1).

Local Close Scope Z_scope.

(** Example axes by year: 15 June 2000 to 20 March 2003, and a start on
    1 July 1900. *)
Definition june_to_march : Hydrograph :=
  with_datemode Year (with_TIMEmax 37700 (with_TIMEmin 36692 init)).

Definition from_july_1900 : Hydrograph :=
  with_datemode Year (with_TIMEmax 37700 (with_TIMEmin 183 init)).

(** ** Records in time *)

(** A record whose last instant is in December 9999. *)
Definition until_december_9999 : list Q := [36540.5; 2958440].

(** ** Records of water levels *)

(** The levels 1.2, NaN, 7.9 and 3.4 on the default grid, without the
    weather panel. *)
Definition three_levels : Hydrograph :=
  with_meteo_on false
    (with_wldset (mkWLDataset [Some 1.2; None; Some 7.9; Some 3.4] 0) init).

(** ** Ticks of the water-level axis *)

(** The step from one tick to the next: up by the scale in the masl
    datum, down in the mbgs datum. *)
Definition tick_stride (self : Hydrograph) : Q :=
  match self.(WLdatum) with
  | masl => self.(WLscale)
  | mbgs => - self.(WLscale)
  end.

(** The levels 1.2 .. 7.9 with their fitted scale and origin. *)
Definition three_levels_fitted : Hydrograph := snd (best_fit_waterlvl three_levels).

(** ** Totals of bins *)

(** Two measured values are the same: both NaN, or equal numbers. *)
Definition same_reading (a b : reading) : Prop :=
  match a, b with
  | Some x, Some y => x == y
  | None, None => True
  | _, _ => False
  end.

(** Nine days of precipitation, one of them missing. *)
Definition nine_days : list reading :=
  [Some 1.5; Some 0; Some 2; None; Some 4; Some 0.5; Some 3; Some 1; Some 2].

(** ** Panels of the figure *)

(** Height and width of a placed axes. *)
Definition pos_height (p : position) : Q := pos_top p - pos_bottom p.
Definition pos_width (p : position) : Q := pos_right p - pos_left p.

(** The share of the frame given to the temperature panel. *)
Definition upper_share (self : Hydrograph) : Q :=
  if self.(meteo_on) then self.(va_ratio) else 0.

(** A figure as wide as its two side margins with the weather panel. *)
Definition narrow_figure : Hydrograph :=
  mkHydrograph 1.7 7 8%Z 0.2 english 0 0 36526%Z 36526%Z 1%Z 1%Z mbgs true
    Month 2%Z (mkWLDataset [] 0) [] [] [] [] [] [] [] [] 1%Z 7%Z
    (repeat (0, 0, 1, 1) 5).

(** ** Change of datum *)

(** A depth axis from 4.4 to 11 m below the surface, in steps of 2.2. *)
Definition depth_axis : Hydrograph :=
  with_meteo_on false (with_NZGrid 5 (with_WLmin 11 (with_WLscale 2.2 init))).

(** The part of the altitude [ALT] that the change of datum leaves out:
    what remains of [ALT] after the whole steps of the scale. *)
Definition altitude_rest (ALT : Q) (self : Hydrograph) : Q :=
  ALT - inject_Z (Py.int (ALT / self.(WLscale))) * self.(WLscale).

Definition other_datum (d : Datum) : Datum :=
  match d with mbgs => masl | masl => mbgs end.

(** ** Precipitation axis *)

(** The vertices of bars of 12, 47 and 30 mm. *)
Definition three_bars : list (list Q) := [[0; 0; 12; 12; 0; 0; 47; 47; 0; 0; 30; 30; 0]].

(** ** Ticks from any day *)

Local Open Scope Z_scope.

(** The elements of a list at the indices divisible by [p]. *)
Definition every_nth {A} (p : Z) (l : list A) : list A :=
  map snd (filter (fun ip => Z.of_nat (fst ip) mod p =? 0)
                  (combine (seq 0 (length l)) l)).

(** The number of days of the month in which a day number falls. *)
Definition month_length_at (x : Z) : Z :=
  let '(y, m, _) := Xldate.ymd_of_xldays x in days_in_month y m.

(** Each element follows the one before by the length of the month in
    which that one falls. *)
Fixpoint month_steps (l : list Z) : Prop :=
  match l with
  | a :: ((b :: _) as r) => b = a + month_length_at a /\ month_steps r
  | _ => True
  end.

Local Close Scope Z_scope.

(** The time axis from 31 January 2000 to 15 June 2000, by month. *)
Definition from_end_of_january : Hydrograph :=
  with_TIMEmax 36692 (with_TIMEmin 36556 init).

(** ** Smoothed water levels *)

(** Sum of a list of numbers, and the mean of the [N] values of [w] from
    index [i] on. *)
Definition Qsum (l : list Q) : Q := fold_right Qplus 0 l.

Definition window_mean (w : list Q) (i : nat) (N : Z) : Q :=
  Qsum (firstn (Z.to_nat N) (skipn i w)) / inject_Z N.

(** Six daily water levels with one missing value. *)
Definition six_days_time : list Q := [36526; 36527; 36528; 36529; 36530; 36531].

Definition six_days_levels : list reading :=
  [Some 5; Some 6; None; Some 10; Some 8; Some 9].

(** ** Bins on the time axis *)

(** The times of the bins are in ascending order (NaNs apart). *)
Definition ascending_times (x : list reading) : Prop :=
  forall i j ti tj,
    (i < j)%nat -> nth_error x i = Some (Some ti) -> nth_error x j = Some (Some tj) ->
    ti < tj.

(** Six weekly bins, the axis spanning the third to the fifth. *)
Definition six_weeks : Hydrograph :=
  let t := map (fun v => Some (inject_Z v)) [36500; 36507; 36514; 36521; 36528; 36535]%Z in
  let p := map (fun v => Some (inject_Z v)) [1; 2; 3; 4; 5; 6]%Z in
  with_TIMEmax 36530
    (with_TIMEmin 36510
       (mkHydrograph 11 7 8%Z 0.2 english 0 0 36526%Z 36526%Z 1%Z 1%Z mbgs true
          Month 2%Z (mkWLDataset [] 0) [] [] [] [] t p p p 1%Z 7%Z
          (repeat (0, 0, 1, 1) 5))).

(** * Properties *)

(** ** Margins *)

Section Margins.

Lemma truediv_ok (a b : Q) : ~ b == 0 -> Py.truediv a b = Ok (a / b).
Proof.
  intros Hb. unfold Py.truediv.
  destruct (Qeq_bool b 0) eqn:E; [ | reflexivity ].
  apply Qeq_bool_iff in E. contradiction.
Qed.

Lemma margins_value (self : Hydrograph) :
  0 < self.(fwidth) -> 0 < self.(fheight) ->
  exists l r b t,
    margins self = Ok (l, r, b, t)
    /\ l * self.(fwidth) == 0.85
    /\ r * self.(fwidth) == right_inches self.(meteo_on)
    /\ b * self.(fheight) == 0.6
    /\ t * self.(fheight) == top_inches (title_or_legend self) self.(meteo_on).
Proof.
  intros Hw Hh.
  assert (Hw0 : ~ self.(fwidth) == 0) by lra.
  assert (Hh0 : ~ self.(fheight) == 0) by lra.
  unfold margins, title_or_legend, right_inches, top_inches.
  destruct (meteo_on self);
    destruct ((isGraphTitle self =? 1)%Z || (isLegend self =? 1)%Z);
    cbn [negb rbind]; rewrite !truediv_ok by assumption; cbn [rbind];
    do 4 eexists; (split; [ reflexivity | ]);
    repeat split; field; assumption.
Qed.

Lemma place_axes_length i axes l b w ht hp hl :
  length (place_axes i axes l b w ht hp hl) = length axes.
Proof.
  revert i. induction axes as [ | a rest IH ]; intros i; cbn; [ reflexivity | ].
  now rewrite IH.
Qed.

Lemma place_axes_nth (axes : list position) l b w ht hp hl :
  forall i k p,
    nth_error (place_axes i axes l b w ht hp hl) k = Some p ->
    p = if Nat.eqb (i + k) 4 then (l, b + hl, w, hp)
        else if Nat.eqb (i + k) 0 || Nat.eqb (i + k) 1 then (l, b, w, ht)
             else (l, b, w, hl).
Proof.
  induction axes as [ | a rest IH ]; intros i k p H.
  - destruct k; discriminate.
  - destruct k as [ | k ]; cbn in H.
    + rewrite Nat.add_0_r. now injection H as <-.
    + apply IH in H. now rewrite Nat.add_succ_r.
Qed.

Lemma set_margins_run (self : Hydrograph) l r b t :
  margins self = Ok (l, r, b, t) ->
  set_margins self =
    (Ok tt,
     with_axes
       (place_axes 0 self.(axes) l b (1 - (l + r)) (1 - (b + t))
          ((1 - (b + t)) * (if self.(meteo_on) then self.(va_ratio) else 0))
          ((1 - (b + t))
           * (1 - (if self.(meteo_on) then self.(va_ratio) else 0))))
       self).
Proof.
  intros H. unfold set_margins, bind, get, lift, modify. now rewrite H.
Qed.

End Margins.

(** C4.  For a figure of positive width and height, [set_margins] uses a
    left margin of 0.85 in, a bottom margin of 0.6 in, a right margin of
    0.85 in with the weather panel and 0.15 in without, and a top margin of
    0.25 in plus 0.45 in (title or legend, with the panel) or 0.20 in
    (title or legend, without it); every axes is placed inside these
    margins, and switching the panel off strictly shrinks the right
    margin. *)
Theorem set_margins_in_inches (self : Hydrograph) :
  0 < self.(fwidth) -> 0 < self.(fheight) ->
  (exists l r b t,
      margins self = Ok (l, r, b, t)
      /\ l * self.(fwidth) == 0.85
      /\ b * self.(fheight) == 0.6
      /\ r * self.(fwidth) == right_inches self.(meteo_on)
      /\ t * self.(fheight)
         == top_inches (title_or_legend self) self.(meteo_on)
      /\ fst (set_margins self) = Ok tt
      /\ length (snd (set_margins self)).(axes) = length self.(axes)
      /\ forall i p,
           nth_error (snd (set_margins self)).(axes) i = Some p ->
           pos_left p == l
           /\ pos_right p == 1 - r
           /\ (i <> 4%nat -> pos_bottom p == b)
           /\ (i = 0%nat \/ i = 1%nat \/ i = 4%nat -> pos_top p == 1 - t))
  /\ (exists l r_on r_off b t_on t_off,
        margins (with_meteo_on true self) = Ok (l, r_on, b, t_on)
        /\ margins (with_meteo_on false self) = Ok (l, r_off, b, t_off)
        /\ r_off < r_on
        /\ r_off * self.(fwidth) < r_on * self.(fwidth)).
Proof.
  intros Hw Hh. split.
  - destruct (margins_value self Hw Hh) as (l & r & b & t & Hm & Hl & Hr & Hb & Ht).
    exists l, r, b, t. rewrite (set_margins_run self l r b t Hm). cbn [fst snd axes with_axes].
    repeat (split; [ assumption || reflexivity || apply place_axes_length | ]).
    intros i p Hp. apply place_axes_nth in Hp. cbn [Nat.add] in Hp.
    destruct (Nat.eqb_spec i 4) as [ -> | Hi4 ].
    + subst p. cbn. repeat split; try (intros; ring). intros E. now elim E.
    + destruct (Nat.eqb_spec i 0) as [ -> | Hi0 ];
        [ | destruct (Nat.eqb_spec i 1) as [ -> | Hi1 ] ];
        subst p; cbn; repeat split; intros; try ring;
        destruct H as [ E | [ E | E ] ]; congruence.
  - assert (Hw0 : ~ self.(fwidth) == 0) by lra.
    assert (Hh0 : ~ self.(fheight) == 0) by lra.
    unfold margins. cbn [fwidth fheight meteo_on isGraphTitle isLegend with_meteo_on negb].
    rewrite !truediv_ok by assumption. cbn [rbind].
    destruct ((isGraphTitle self =? 1)%Z || (isLegend self =? 1)%Z);
      rewrite ?truediv_ok by assumption; cbn [rbind];
      do 6 eexists; (split; [ reflexivity | ]); (split; [ reflexivity | ]).
    all: assert (E : 0.15 / fwidth self < 0.85 / fwidth self)
        by (apply Qmult_lt_r; [ now apply Qinv_lt_0_compat | reflexivity ]).
    all: split; [ exact E | ].
    all: apply Qmult_lt_r; assumption.
Qed.

(** The statement of C4 at an 11 in by 7 in figure with five axes. *)
Lemma set_margins_in_inches_witness :
  0 < init.(fwidth) /\ 0 < init.(fheight)
  /\ exists l r b t, margins init = Ok (l, r, b, t)
                     /\ l * init.(fwidth) == 0.85.
Proof.
  assert (Hw : 0 < init.(fwidth)) by reflexivity.
  assert (Hh : 0 < init.(fheight)) by reflexivity.
  split; [ exact Hw | split; [ exact Hh | ] ].
  destruct (set_margins_in_inches init Hw Hh) as [ (l & r & b & t & Hm & Hl & _) _ ].
  exists l, r, b, t. split; assumption.
Defined.

(** ** Binning *)

Section Binning.

Context {A : Type}.

Lemma rows_windows (n c : nat) :
  forall x : list A, Np.rows n c x = map (window x c) (seq 0 n).
Proof.
  induction n as [ | n IH ]; intros x; [ reflexivity | ].
  cbn [Np.rows seq map]. f_equal.
  rewrite IH, <- seq_shift, map_map. apply map_ext. intros k.
  unfold window. now rewrite skipn_skipn, Nat.mul_succ_l.
Qed.

Lemma window_firstn (x : list A) (n c k : nat) :
  (k < n)%nat -> window (firstn (n * c) x) c k = window x c k.
Proof.
  intros Hk. unfold window.
  rewrite skipn_firstn_comm, firstn_firstn. f_equal.
  apply Nat.min_l. rewrite <- Nat.mul_sub_distr_r.
  replace c with (1 * c)%nat at 1 by apply Nat.mul_1_l.
  apply Nat.mul_le_mono_r. lia.
Qed.

End Binning.

Lemma bin_sum_windows (x : list reading) (bwidth : Z) :
  (0 < bwidth)%Z ->
  bin_sum x bwidth = Ok (window_sums x (Z.to_nat bwidth)).
Proof.
  intros Hw. unfold bin_sum, window_sums.
  destruct (Z.eqb_spec bwidth 0) as [ E | _ ]; [ lia | ].
  set (w := Z.to_nat bwidth). set (L := length x).
  assert (Hw' : (0 < w)%nat) by (subst w; lia).
  assert (Hn : (Z.of_nat L / bwidth)%Z = Z.of_nat (L / w)).
  { replace bwidth with (Z.of_nat w) by (subst w; lia).
    symmetry. apply Nat2Z.inj_div. }
  rewrite Hn. unfold Np.reshape, Np.take.
  assert (Hm : Z.to_nat (Z.of_nat (L / w) * bwidth) = (L / w * w)%nat)
    by (subst w; lia).
  rewrite Hm.
  assert (Hle : (L / w * w <= L)%nat).
  { rewrite Nat.mul_comm. apply Nat.Div0.mul_div_le. }
  rewrite length_firstn, Nat.min_l by exact Hle.
  replace (Z.of_nat (L / w * w) =? Z.of_nat (L / w) * bwidth)%Z with true
    by (symmetry; apply Z.eqb_eq; subst w; lia).
  replace (0 <=? Z.of_nat (L / w))%Z with true by (symmetry; apply Z.leb_le; lia).
  replace (0 <=? bwidth)%Z with true by (symmetry; apply Z.leb_le; lia).
  cbn [andb rbind]. f_equal. unfold Np.sum_axis1.
  rewrite Nat2Z.id, rows_windows, map_map. apply map_ext_in.
  intros k Hk. apply in_seq in Hk. fold w.
  rewrite window_firstn by lia. reflexivity.
Qed.

Lemma window_length {A} (x : list A) (w k : nat) :
  (k < length x / w)%nat -> length (window x w k) = w.
Proof.
  intros Hk. unfold window. rewrite length_firstn, length_skipn.
  apply Nat.min_l.
  destruct w as [ | w ]; [ lia | ].
  assert (H := Nat.Div0.mul_div_le (length x) (S w)).
  assert (S k * S w <= length x / S w * S w)%nat by (apply Nat.mul_le_mono_r; lia).
  lia.
Qed.

Lemma window_sums_length (x : list reading) (w : nat) :
  length (window_sums x w) = (length x / w)%nat.
Proof. unfold window_sums. now rewrite length_map, length_seq. Qed.

Lemma window_sums_firstn (x : list reading) (w : nat) :
  window_sums (firstn (length x / w * w) x) w = window_sums x w.
Proof.
  unfold window_sums.
  destruct w as [ | w ]; [ now rewrite Nat.mul_0_r | ].
  assert (Hle : (length x / S w * S w <= length x)%nat).
  { rewrite Nat.mul_comm. apply Nat.Div0.mul_div_le. }
  rewrite length_firstn, Nat.min_l by exact Hle.
  rewrite Nat.div_mul by discriminate.
  apply map_ext_in. intros k Hk. apply in_seq in Hk.
  rewrite window_firstn by lia. reflexivity.
Qed.

(** C3.  With a bin width of 7, 30 or 365 days [resample_bin] succeeds
    and stores, for each series of length [L], one value per complete
    window of [w] consecutive samples ([L / w] values, the trailing
    [L mod w] samples being left out): the window sum for precipitation
    and rain, the window sum divided by [w] for time and maximum
    temperature.  An empty series gives an empty result. *)
Theorem resample_bin_windows (self : Hydrograph) (w : Z) :
  In (self.(bwidth_indx), w) [(1, 7); (2, 30); (3, 365)]%Z ->
  let n := Z.to_nat w in
  let self' := snd (resample_bin self) in
  fst (resample_bin self) = Ok tt
  /\ self'.(bwidth) = w
  /\ self'.(bPTOT) = window_sums self.(PTOT) n
  /\ self'.(bRAIN) = window_sums self.(RAIN) n
  /\ self'.(bTIME) = window_means self.(TIMEmeteo) n
  /\ self'.(bTMAX) = window_means self.(TMAX) n
  /\ (forall x, length (window_sums x n) = (length x / n)%nat
                /\ length (window_means x n) = (length x / n)%nat
                /\ window_sums (firstn (length x / n * n) x) n = window_sums x n
                /\ forall k, (k < length x / n)%nat -> length (window x n k) = n)
  /\ window_sums [] n = [] /\ window_means [] n = [].
Proof.
  intros Hin n self'.
  assert (Hw : (0 < w)%Z).
  { cbn in Hin. destruct Hin as [ E | [ E | [ E | [] ] ] ]; injection E; lia. }
  assert (Hrun : resample_bin self =
            (Ok tt,
             with_bins (window_means self.(TIMEmeteo) n)
               (window_means self.(TMAX) n) (window_sums self.(PTOT) n)
               (window_sums self.(RAIN) n) (with_bwidth w self))).
  { unfold resample_bin, bind, get, lift, modify.
    assert (Hget : Py.getitem [1; 7; 30; 365]%Z self.(bwidth_indx) = Ok w
                   /\ (self.(bwidth_indx) =? 0)%Z = false).
    { cbn in Hin. destruct Hin as [ E | [ E | [ E | [] ] ] ];
        injection E as E1 E2; rewrite <- E1, <- E2; split; reflexivity. }
    destruct Hget as [ -> -> ].
    rewrite !bin_sum_windows by exact Hw. cbn.
    unfold window_means, window_sums. rewrite !map_map.
    fold n. replace (Z.of_nat n) with w by (subst n; lia). reflexivity. }
  subst self'. rewrite Hrun. cbn.
  repeat (split; [ reflexivity | ]).
  split.
  - intros x. split; [ apply window_sums_length | ].
    split; [ unfold window_means; now rewrite length_map, length_seq | ].
    split; [ apply window_sums_firstn | ].
    intros k. apply window_length.
  - split; unfold window_sums, window_means; cbn [length];
      now rewrite Nat.Div0.div_0_l.
Qed.

(** The statement of C3 for weekly bins of a ten-day record. *)
Lemma resample_bin_windows_witness :
  In (ten_days.(bwidth_indx), 7%Z) [(1, 7); (2, 30); (3, 365)]%Z
  /\ fst (resample_bin ten_days) = Ok tt
  /\ (snd (resample_bin ten_days)).(bPTOT) = window_sums ten_days.(PTOT) 7.
Proof.
  assert (Hin : In (ten_days.(bwidth_indx), 7%Z) [(1, 7); (2, 30); (3, 365)]%Z)
    by (left; reflexivity).
  split; [ exact Hin | ].
  destruct (resample_bin_windows ten_days 7%Z Hin) as (H1 & _ & H2 & _).
  split; [ exact H1 | exact H2 ].
Defined.

(** ** Label offset *)

Section LabelOffset.

Variable sin_45 : Q.
Variables txt_bbox ax_bbox : Bbox.

Let offset := xticks_labels_offset sin_45 txt_bbox ax_bbox.

(** Every label is drawn at its tick position plus the one offset. *)
Lemma xticks_loop_labels_position (fuel : nat) :
  forall self i pos acc out,
    xticks_loop sin_45 txt_bbox ax_bbox fuel self i pos acc = Some (Ok out) ->
    acc.(xticks_labels_position)
    = map (fun p => inject_Z p + offset self) acc.(xticks_position) ->
    out.(xticks_labels_position)
    = map (fun p => inject_Z p + offset self) out.(xticks_position).
Proof.
  induction fuel as [ | fuel IH ]; intros self i pos acc out Hrun Hacc;
    [ discriminate | ].
  cbn [xticks_loop] in Hrun.
  destruct (Xldate.xldate_as_tuple (inject_Z pos))
    as [ [ [ [ [ [ y m ] d ] hh ] mm ] ss ] | e ]; [ | discriminate ].
  destruct (Calendar.monthrange y m) as [ mr | e ]; [ | discriminate ].
  destruct (date_labels_pattern self =? 0)%Z; [ discriminate | ].
  match type of Hrun with
  | match ?lab with _ => _ end = _ =>
      destruct lab as [ acc' | e ] eqn:Hlab; [ | discriminate ]
  end.
  assert (Hacc' : acc'.(xticks_labels_position)
                  = map (fun p => inject_Z p + offset self)
                        acc'.(xticks_position)).
  { destruct (i mod date_labels_pattern self =? 0)%Z.
    - match type of Hlab with
      | rbind ?lbl _ = _ => destruct lbl as [ label | e ]; [ | discriminate ]
      end.
      cbn [rbind] in Hlab. injection Hlab as <-.
      cbn [xticks_labels_position xticks_position].
      rewrite map_app, Hacc. reflexivity.
    - injection Hlab as <-. exact Hacc. }
  match type of Hrun with
  | match ?nxt with _ => _ end = _ =>
      destruct nxt as [ next | e ]; [ | discriminate ]
  end.
  destruct (next >? TIMEmax self)%Z.
  - injection Hrun as <-. exact Hacc'.
  - eapply IH; eassumption.
Qed.

End LabelOffset.

(** C9 (amended).  The label offset is the height of the measured text
    box times [sin 45 deg], times the height-to-width ratio of the time
    axes, times the number of days from [TIMEmin] to [TIMEmax] plus one;
    every label of [make_xticks_info] sits at its tick position plus this
    one offset, whatever its text. *)
Theorem xticks_labels_offset_formula
    (sin_45 : Q) (txt_bbox ax_bbox : Bbox) (self : Hydrograph) :
  0 < ax_bbox.(width) ->
  xticks_labels_offset sin_45 txt_bbox ax_bbox self
  == txt_bbox.(height) * sin_45 * (ax_bbox.(height) / ax_bbox.(width))
     * (inject_Z (self.(TIMEmax) - self.(TIMEmin)) + 1)
  /\ forall fuel out,
       make_xticks_info sin_45 txt_bbox ax_bbox fuel self = Some (Ok out) ->
       out.(xticks_labels_position)
       = map (fun p => inject_Z p
                       + xticks_labels_offset sin_45 txt_bbox ax_bbox self)
             out.(xticks_position).
Proof.
  intros Hw. split.
  - unfold xticks_labels_offset.
    rewrite inject_Z_plus. change (inject_Z 1) with 1. field. lra.
  - intros fuel out Hrun. unfold make_xticks_info in Hrun.
    eapply xticks_loop_labels_position; [ exact Hrun | reflexivity ].
Qed.

(** The statement of C9 (amended) for a 0.03-high text box on a 9.3 in by
    5 in axes spanning January 2000. *)
Lemma xticks_labels_offset_formula_witness :
  0 < sample_axes.(width)
  /\ xticks_labels_offset 0.7071 sample_text sample_axes january_2000
     == 0.03 * 0.7071 * (5 / 9.3) * (inject_Z (36557 - 36526) + 1).
Proof.
  assert (Hw : 0 < sample_axes.(width)) by reflexivity.
  split; [ exact Hw | ].
  exact (proj1 (xticks_labels_offset_formula
                  0.7071 sample_text sample_axes january_2000 Hw)).
Defined.

(** C9 as stated fails: over January 2000 ([TIMEmin] = 36526, [TIMEmax] =
    36557) the offset is scaled by 32 days, not by the 31 days between the
    two bounds. *)
Lemma xticks_labels_offset_not_span :
  january_2000.(TIMEmin) = 36526%Z
  /\ january_2000.(TIMEmax) = 36557%Z
  /\ xticks_labels_offset 0.7071 sample_text sample_axes january_2000
     == 0.03 * 0.7071 * (5 / 9.3) * 32
  /\ ~ xticks_labels_offset 0.7071 sample_text sample_axes january_2000
       == 0.03 * 0.7071 * (5 / 9.3)
          * inject_Z (january_2000.(TIMEmax) - january_2000.(TIMEmin)).
Proof.
  split; [ reflexivity | ]. split; [ reflexivity | ].
  split; [ reflexivity | ]. vm_compute. discriminate.
Qed.

(** ** Value scale *)

Section Scale.

Lemma SCALE_candidates : Forall2 Qeq SCALE candidates.
Proof.
  vm_compute. repeat (constructor; [ reflexivity | ]). constructor.
Qed.

Lemma SCALE_ascending : ascending SCALE.
Proof. vm_compute. repeat (split; [ reflexivity | ]). exact I. Qed.

Lemma SCALE_bounds : forall c, In c SCALE -> 0.05 <= c /\ c <= 5.
Proof.
  apply Forall_forall. vm_compute.
  repeat (constructor; [ split; discriminate | ]). constructor.
Qed.

Lemma Qle_bool_false (a b : Q) : Qle_bool a b = false -> b < a.
Proof.
  intros H. apply Qnot_le_lt. intros Hle.
  apply Qle_bool_iff in Hle. congruence.
Qed.

Lemma Qmin_cases (a b : Q) :
  (Np.Qmin a b = a \/ Np.Qmin a b = b) /\ Np.Qmin a b <= a /\ Np.Qmin a b <= b.
Proof.
  unfold Np.Qmin. destruct (Qle_bool a b) eqn:E.
  - apply Qle_bool_iff in E. repeat split; [ now left | lra | lra ].
  - apply Qle_bool_false in E. repeat split; [ now right | lra | lra ].
Qed.

Lemma Qmax_cases (a b : Q) :
  (Np.Qmax a b = a \/ Np.Qmax a b = b) /\ a <= Np.Qmax a b /\ b <= Np.Qmax a b.
Proof.
  unfold Np.Qmax. destruct (Qle_bool a b) eqn:E.
  - apply Qle_bool_iff in E. repeat split; [ now right | lra | lra ].
  - apply Qle_bool_false in E. repeat split; [ now left | lra | lra ].
Qed.

Lemma fold_Qmin_spec (r : list Q) :
  forall a, is_min (fold_left Np.Qmin r a) (a :: r).
Proof.
  induction r as [ | b r IH ]; intros a; cbn [fold_left].
  - split; [ now left | ]. intros v [ <- | [] ]. apply Qle_refl.
  - destruct (IH (Np.Qmin a b)) as [ Hin Hle ].
    destruct (Qmin_cases a b) as (Hc & Ha & Hb).
    assert (Hm : fold_left Np.Qmin r (Np.Qmin a b) <= Np.Qmin a b)
      by (apply Hle; now left).
    split.
    + destruct Hin as [ Hin | Hin ]; [ | now right; right ].
      rewrite <- Hin. destruct Hc as [ -> | -> ]; [ now left | now right; left ].
    + intros v [ <- | [ <- | Hv ] ]; [ lra | lra | ]. apply Hle. now right.
Qed.

Lemma fold_Qmax_spec (r : list Q) :
  forall a, is_max (fold_left Np.Qmax r a) (a :: r).
Proof.
  induction r as [ | b r IH ]; intros a; cbn [fold_left].
  - split; [ now left | ]. intros v [ <- | [] ]. apply Qle_refl.
  - destruct (IH (Np.Qmax a b)) as [ Hin Hle ].
    destruct (Qmax_cases a b) as (Hc & Ha & Hb).
    assert (Hm : Np.Qmax a b <= fold_left Np.Qmax r (Np.Qmax a b))
      by (apply Hle; now left).
    split.
    + destruct Hin as [ Hin | Hin ]; [ | now right; right ].
      rewrite <- Hin. destruct Hc as [ -> | -> ]; [ now left | now right; left ].
    + intros v [ <- | [ <- | Hv ] ]; [ lra | lra | ]. apply Hle. now right.
Qed.

Lemma np_max_spec (x : list Q) :
  x <> [] -> exists hi, Np.max x = Ok hi /\ is_max hi x.
Proof.
  destruct x as [ | a r ]; [ congruence | ]. intros _.
  eexists. split; [ reflexivity | apply fold_Qmax_spec ].
Qed.

Lemma np_min_spec (x : list Q) :
  x <> [] -> exists lo, Np.min x = Ok lo /\ is_min lo x.
Proof.
  destruct x as [ | a r ]; [ congruence | ]. intros _.
  eexists. split; [ reflexivity | apply fold_Qmin_spec ].
Qed.

(** The minimum of finite scalars is the rational minimum. *)
Lemma fold_minimum_fin (r : list Q) :
  forall a, fold_left Np.minimum (map fin r) (fin a)
            = fin (fold_left Np.Qmin r a).
Proof.
  induction r as [ | b r IH ]; intros a; [ reflexivity | ].
  cbn [map fold_left]. unfold Np.minimum at 2, Np.less_equal, Np.Qmin at 2.
  destruct (Qle_bool a b); apply IH.
Qed.

Lemma where_first_spec (mask : list bool) :
  In true mask ->
  exists i, Np.where_first mask = Ok i
            /\ nth_error mask i = Some true
            /\ forall j, (j < i)%nat -> nth_error mask j = Some false.
Proof.
  induction mask as [ | b mask IH ]; intros Hin; [ destruct Hin | ].
  destruct b.
  - exists 0%nat. repeat split. intros j Hj. lia.
  - destruct Hin as [ Hin | Hin ]; [ discriminate | ].
    destruct (IH Hin) as (i & Hw & Hi & Hlt).
    exists (S i). cbn [Np.where_first]. rewrite Hw. repeat split; [ exact Hi | ].
    intros [ | j ] Hj; [ reflexivity | ]. apply Hlt. lia.
Qed.

(** The two lines that pick the index, for a finite target. *)
Lemma nearest_index (l : list Q) (t : Q) :
  l <> [] ->
  let d := map (fun c => Np.abs (Np.subtract (fin c) (fin t))) l in
  exists m i c,
    Np.fmin d = Ok m
    /\ Np.where_first (map (fun x => Np.equal x m) d) = Ok i
    /\ nearest_first l t i c.
Proof.
  intros Hl d.
  set (ds := map (fun c => Qabs (c - t)) l).
  assert (Hd : d = map fin ds) by (subst d ds; now rewrite map_map).
  destruct ds as [ | a r ] eqn:Hds.
  { destruct l; [ congruence | discriminate ]. }
  destruct (fold_Qmin_spec r a) as [ Hin Hle ].
  set (m := fold_left Np.Qmin r a) in *.
  exists (fin m).
  assert (Hfmin : Np.fmin d = Ok (fin m)).
  { rewrite Hd. cbn [map Np.fmin]. now rewrite fold_minimum_fin. }
  assert (Hmask : map (fun x => Np.equal x (fin m)) d
                  = map (fun q => Qeq_bool q m) (a :: r)).
  { rewrite Hd, map_map. reflexivity. }
  destruct (where_first_spec (map (fun q => Qeq_bool q m) (a :: r)))
    as (i & Hw & Hi & Hlt).
  { apply in_map_iff. exists m. split; [ | exact Hin ].
    apply Qeq_bool_iff. reflexivity. }
  rewrite <- Hds in *.
  rewrite nth_error_map in Hi.
  destruct (nth_error ds i) as [ q | ] eqn:Hq; [ | discriminate ].
  injection Hi as Hi. apply Qeq_bool_iff in Hi.
  subst ds. rewrite nth_error_map in Hq.
  destruct (nth_error l i) as [ c | ] eqn:Hc; [ | discriminate ].
  cbn [option_map] in Hq.
  assert (Hq' : q = Qabs (c - t)) by congruence. clear Hq. subst q.
  exists i, c. split; [ exact Hfmin | ]. split; [ now rewrite Hmask | ].
  split; [ exact Hc | ]. split.
  - intros c' Hc'.
    assert (Hge : m <= Qabs (c' - t)).
    { apply Hle. apply in_map_iff. now exists c'. }
    apply Qle_trans with m; [ | exact Hge ].
    apply Qle_lteq. now right.
  - intros j c' Hj Hc'. specialize (Hlt j Hj).
    rewrite !nth_error_map, Hc' in Hlt. cbn [option_map] in Hlt.
    assert (Hb : Qeq_bool (Qabs (c' - t)) m = false) by congruence.
    assert (Hne : ~ Qabs (c' - t) == m).
    { intros E. apply Qeq_bool_iff in E. congruence. }
    assert (Hge : m <= Qabs (c' - t)).
    { apply Hle. apply in_map_iff. exists c'. split; [ reflexivity | ].
      eapply nth_error_In; eassumption. }
    apply Qle_lt_trans with m; [ apply Qle_lteq; now right | ].
    apply Qle_lteq in Hge. destruct Hge as [ Hlt' | E ];
      [ exact Hlt' | ]. elim Hne. symmetry. exact E.
Qed.

Lemma SCALE_nonempty : SCALE <> [].
Proof. discriminate. Qed.

(** What a call does once the extremes of the array are known and the
    target is finite. *)
Lemma best_fit_waterlvl_fin (self : Hydrograph) (hi lo : Q) :
  Np.max (fitted_values self) = Ok hi ->
  Np.min (fitted_values self) = Ok lo ->
  (self.(NZGrid) - 5 <> 0)%Z ->
  exists i step,
    nearest_first SCALE ((hi - lo) / inject_Z (self.(NZGrid) - 5)) i step
    /\ best_fit_waterlvl self
       = (Ok (step, step * inject_Z (grid_rank self.(WLdatum) hi lo step)),
          fitted self step
            (step * inject_Z (grid_rank self.(WLdatum) hi lo step))).
Proof.
  intros Hhi Hlo Hy.
  destruct (nearest_index SCALE ((hi - lo) / inject_Z (self.(NZGrid) - 5))
              SCALE_nonempty) as (m & i & step & Hm & Hw & Hn).
  exists i, step. split; [ exact Hn | ].
  unfold best_fit_waterlvl, bind, get, lift, modify, ret.
  fold (fitted_values self). rewrite Hhi, Hlo.
  unfold Np.true_divide.
  destruct (Z.eqb_spec (self.(NZGrid) - 5) 0) as [ E | _ ]; [ contradiction | ].
  rewrite Hm, Hw.
  destruct Hn as (Hnth & _).
  rewrite (nth_error_nth _ _ 0 Hnth).
  unfold fitted, grid_rank. destruct (WLdatum self); reflexivity.
Qed.

End Scale.

Lemma nearest_to_ten_thirds (t : Q) (i : nat) (step : Q) :
  t == 10 # 3 -> nearest_first SCALE t i step -> step == 3.3.
Proof.
  intros Ht (Hnth & Hmin & _).
  assert (Hall : forall c, In c SCALE ->
                           Qabs (c - (10 # 3)) <= 1 # 30 -> c == 3.3).
  { assert (Hb : forallb (fun c => negb (Qle_bool (Qabs (c - (10 # 3))) (1 # 30))
                                   || Qeq_bool c 3.3) SCALE = true)
      by (vm_compute; reflexivity).
    intros c Hc Hle.
    rewrite forallb_forall in Hb. specialize (Hb c Hc).
    apply orb_true_iff in Hb. destruct Hb as [ Hb | Hb ].
    - apply negb_true_iff in Hb. apply Qle_bool_iff in Hle. congruence.
    - now apply Qeq_bool_iff. }
  apply Hall; [ eapply nth_error_In; eassumption | ].
  assert (H35 : In (nth 35 SCALE 0) SCALE) by (apply nth_In; vm_compute; lia).
  specialize (Hmin _ H35).
  assert (E1 : Qabs (step - (10 # 3)) == Qabs (step - t)).
  { apply Qabs_wd. rewrite Ht. reflexivity. }
  assert (E2 : Qabs (nth 35 SCALE 0 - t) == 1 # 30).
  { assert (E : nth 35 SCALE 0 - t == -(1 # 30)).
    { rewrite Ht. vm_compute. reflexivity. }
    rewrite (Qabs_wd _ _ E). reflexivity. }
  rewrite E1. rewrite <- E2. exact Hmin.
Qed.

(** C1.  For water levels that are not all NaN and at least six grid
    divisions, [best_fit_waterlvl] returns as scale the entry of [SCALE]
    nearest to [(max - min) / (NZGrid - 5)], the first one in case of a
    tie; [SCALE] lists 0.05, 0.10, ..., 0.25, 0.3, 0.4, ..., 5.0 in
    ascending order; for levels spanning 0 to 10 and [NZGrid = 8] the scale
    is 3.3. *)
Theorem best_fit_waterlvl_step (self : Hydrograph) :
  fitted_values self <> [] ->
  (1 <= self.(NZGrid) - 5)%Z ->
  exists hi lo i step origin,
    is_max hi (fitted_values self)
    /\ is_min lo (fitted_values self)
    /\ fst (best_fit_waterlvl self) = Ok (step, origin)
    /\ (snd (best_fit_waterlvl self)).(WLscale) = step
    /\ nearest_first SCALE ((hi - lo) / inject_Z (self.(NZGrid) - 5)) i step
    /\ Forall2 Qeq SCALE candidates
    /\ ascending SCALE
    /\ (hi == 10 -> lo == 0 -> self.(NZGrid) = 8%Z -> step == 3.3).
Proof.
  intros Hne Hgrid.
  destruct (np_max_spec _ Hne) as (hi & Hhi & Hmax).
  destruct (np_min_spec _ Hne) as (lo & Hlo & Hmin).
  destruct (best_fit_waterlvl_fin self hi lo Hhi Hlo) as (i & step & Hn & Hrun);
    [ lia | ].
  exists hi, lo, i, step. eexists. rewrite Hrun. cbn [fst snd].
  repeat (split; [ eassumption || reflexivity || apply SCALE_candidates
                   || apply SCALE_ascending | ]).
  intros H10 H0 H8. eapply nearest_to_ten_thirds; [ | exact Hn ].
  rewrite H8, H10, H0. reflexivity.
Qed.

(** The statement of C1 for the levels 0, NaN, 10 on the default grid of
    eight divisions. *)
Lemma best_fit_waterlvl_step_witness :
  fitted_values zero_to_ten <> []
  /\ (1 <= zero_to_ten.(NZGrid) - 5)%Z
  /\ exists step origin,
       fst (best_fit_waterlvl zero_to_ten) = Ok (step, origin) /\ step == 3.3.
Proof.
  assert (Hne : fitted_values zero_to_ten <> []) by discriminate.
  assert (Hgrid : (1 <= zero_to_ten.(NZGrid) - 5)%Z) by (vm_compute; discriminate).
  split; [ exact Hne | split; [ exact Hgrid | ] ].
  destruct (best_fit_waterlvl_step zero_to_ten Hne Hgrid)
    as (hi & lo & i & step & origin & _ & _ & Hrun & _).
  exists step, origin. split; [ exact Hrun | ].
  vm_compute in Hrun. injection Hrun as <- _. reflexivity.
Defined.

Lemma dropna_all_nan (x : list reading) :
  (forall v, In v x -> v = None) -> Np.dropna x = [].
Proof.
  induction x as [ | a x IH ]; intros H; [ reflexivity | ].
  rewrite (H a (or_introl eq_refl)). cbn. apply IH.
  intros v Hv. apply H. now right.
Qed.

Lemma fitted_values_all_nan (self : Hydrograph) :
  (forall v, In v self.(wldset).(WL) -> v = None) -> fitted_values self = [].
Proof.
  intros H. unfold fitted_values. apply dropna_all_nan.
  destruct (WLdatum self); [ exact H | ].
  intros v Hv. apply in_map_iff in Hv. destruct Hv as (w & <- & Hw).
  now rewrite (H w Hw).
Qed.

(** C7.  When the water-level array is empty or holds NaN only,
    [best_fit_waterlvl] raises the error of the reduction of an empty
    array and leaves the object, in particular [WLscale] and [WLmin],
    as it was: no scale is returned or stored. *)
Theorem best_fit_waterlvl_no_data (self : Hydrograph) :
  (forall v, In v self.(wldset).(WL) -> v = None) ->
  best_fit_waterlvl self = (Raise ValueError, self)
  /\ forall step origin, fst (best_fit_waterlvl self) <> Ok (step, origin).
Proof.
  intros H. apply fitted_values_all_nan in H.
  assert (Hrun : best_fit_waterlvl self = (Raise ValueError, self)).
  { unfold best_fit_waterlvl, bind, get, lift.
    fold (fitted_values self). now rewrite H. }
  split; [ exact Hrun | ]. intros step origin. rewrite Hrun. discriminate.
Qed.

(** The statement of C7 for an array of three NaNs. *)
Lemma best_fit_waterlvl_no_data_witness :
  (forall v, In v all_missing.(wldset).(WL) -> v = None)
  /\ best_fit_waterlvl all_missing = (Raise ValueError, all_missing).
Proof.
  assert (H : forall v, In v all_missing.(wldset).(WL) -> v = None).
  { intros v Hv. cbn in Hv. destruct Hv as [ E | [ E | [ E | [] ] ] ]; now subst v. }
  split; [ exact H | ].
  exact (proj1 (best_fit_waterlvl_no_data all_missing H)).
Defined.

Lemma where_first_lt (mask : list bool) :
  forall i, Np.where_first mask = Ok i -> (i < length mask)%nat.
Proof.
  induction mask as [ | b mask IH ]; intros i H; [ discriminate | ].
  destruct b; cbn in H.
  - injection H as <-. cbn. lia.
  - destruct (Np.where_first mask) as [ k | e ]; [ | discriminate ].
    injection H as <-. specialize (IH k eq_refl). cbn. lia.
Qed.

(** Whatever the grid, a returned scale is an entry of [SCALE] and the
    returned origin is this scale times an integer. *)
Lemma best_fit_waterlvl_inv (self : Hydrograph) (step origin : Q) :
  fst (best_fit_waterlvl self) = Ok (step, origin) ->
  exists hi lo,
    Np.max (fitted_values self) = Ok hi
    /\ Np.min (fitted_values self) = Ok lo
    /\ In step SCALE
    /\ origin = step * inject_Z (grid_rank self.(WLdatum) hi lo step)
    /\ snd (best_fit_waterlvl self) = fitted self step origin.
Proof.
  unfold best_fit_waterlvl, bind, get, lift, modify, ret.
  fold (fitted_values self).
  destruct (Np.max (fitted_values self)) as [ hi | e ]; [ | discriminate ].
  destruct (Np.min (fitted_values self)) as [ lo | e ]; [ | discriminate ].
  match goal with
  | |- context [ Np.fmin ?d ] => set (dSCALE := d)
  end.
  destruct (Np.fmin dSCALE) as [ lowest | e ]; [ | discriminate ].
  destruct (Np.where_first (map (fun d => Np.equal d lowest) dSCALE))
    as [ indx | e ] eqn:Hw; [ | discriminate ].
  cbn [fst snd]. intros H.
  assert (Hstep : step = nth indx SCALE 0) by congruence.
  assert (Horigin : origin = step * inject_Z (grid_rank self.(WLdatum) hi lo step)).
  { rewrite Hstep. unfold grid_rank. destruct (WLdatum self); congruence. }
  clear H.
  exists hi, lo. repeat (split; [ reflexivity | ]).
  split.
  - rewrite Hstep. apply nth_In. apply where_first_lt in Hw.
    subst dSCALE. now rewrite !length_map in Hw.
  - split; [ exact Horigin | ].
    rewrite Horigin, Hstep. unfold fitted, grid_rank.
    destruct (WLdatum self); reflexivity.
Qed.

Lemma np_max_ok (x : list Q) (hi : Q) : Np.max x = Ok hi -> is_max hi x.
Proof.
  destruct x as [ | a r ]; [ discriminate | ].
  intros H. injection H as <-. apply fold_Qmax_spec.
Qed.

Lemma np_min_ok (x : list Q) (lo : Q) : Np.min x = Ok lo -> is_min lo x.
Proof.
  destruct x as [ | a r ]; [ discriminate | ].
  intros H. injection H as <-. apply fold_Qmin_spec.
Qed.

(** C5.  A fit of an array that is not all NaN returns a scale (with any
    number of grid divisions other than five), and every scale it returns
    comes with the origin [ceil(max / scale) * scale] in the mbgs datum and
    [floor(min / scale) * scale] in the masl datum, an integer multiple of
    the scale, which is also what is stored in [WLmin]. *)
Theorem best_fit_waterlvl_origin (self : Hydrograph) :
  fitted_values self <> [] ->
  (self.(NZGrid) <> 5%Z ->
   exists step origin, fst (best_fit_waterlvl self) = Ok (step, origin))
  /\ forall step origin,
       fst (best_fit_waterlvl self) = Ok (step, origin) ->
       exists hi lo,
         is_max hi (fitted_values self)
         /\ is_min lo (fitted_values self)
         /\ 0 < step
         /\ (snd (best_fit_waterlvl self)).(WLmin) = origin
         /\ match self.(WLdatum) with
            | mbgs => origin == inject_Z (Qceiling (hi / step)) * step
            | masl => origin == inject_Z (Qfloor (lo / step)) * step
            end
         /\ exists N : Z, origin == inject_Z N * step.
Proof.
  intros Hne. split.
  - intros Hgrid.
    destruct (np_max_spec _ Hne) as (hi & Hhi & _).
    destruct (np_min_spec _ Hne) as (lo & Hlo & _).
    destruct (best_fit_waterlvl_fin self hi lo Hhi Hlo) as (i & step & _ & Hrun);
      [ lia | ].
    do 2 eexists. rewrite Hrun. reflexivity.
  - intros step origin Hrun.
    destruct (best_fit_waterlvl_inv self step origin Hrun)
      as (hi & lo & Hhi & Hlo & Hin & Horigin & Hself).
    exists hi, lo.
    split; [ now apply np_max_ok | ]. split; [ now apply np_min_ok | ].
    split; [ destruct (SCALE_bounds step Hin); lra | ].
    split; [ now rewrite Hself | ].
    split.
    + rewrite Horigin. unfold grid_rank. destruct (WLdatum self); ring.
    + exists (grid_rank self.(WLdatum) hi lo step). rewrite Horigin. ring.
Qed.

(** The statement of C5 for the levels 0, NaN, 10 on eight divisions:
    the scale is 3.3 and the origin 4 * 3.3. *)
Lemma best_fit_waterlvl_origin_witness :
  fitted_values zero_to_ten <> []
  /\ fst (best_fit_waterlvl zero_to_ten) = Ok (3.30, 13.20)
  /\ exists N : Z, 13.20 == inject_Z N * 3.30.
Proof.
  assert (Hne : fitted_values zero_to_ten <> []) by discriminate.
  assert (Hrun : fst (best_fit_waterlvl zero_to_ten) = Ok (3.30, 13.20))
    by (vm_compute; reflexivity).
  split; [ exact Hne | split; [ exact Hrun | ] ].
  destruct (proj2 (best_fit_waterlvl_origin zero_to_ten Hne) _ _ Hrun)
    as (hi & lo & _ & _ & _ & _ & _ & HN).
  exact HN.
Defined.

Lemma nearest_saturates_high (t : Q) (i : nat) (step : Q) :
  5 <= t -> nearest_first SCALE t i step -> step == 5.
Proof.
  intros Ht (Hnth & Hmin & _).
  assert (Hin : In step SCALE) by (eapply nth_error_In; eassumption).
  destruct (SCALE_bounds step Hin) as [ _ Hle ].
  assert (H52 : In (nth 52 SCALE 0) SCALE) by (apply nth_In; vm_compute; lia).
  specialize (Hmin _ H52).
  assert (E : nth 52 SCALE 0 == 5) by reflexivity.
  rewrite (Qabs_neg (step - t)) in Hmin by lra.
  rewrite (Qabs_neg (nth 52 SCALE 0 - t)) in Hmin by lra.
  lra.
Qed.

Lemma nearest_saturates_low (t : Q) (i : nat) (step : Q) :
  t <= 0.05 -> nearest_first SCALE t i step -> step == 0.05.
Proof.
  intros Ht (Hnth & Hmin & _).
  assert (Hin : In step SCALE) by (eapply nth_error_In; eassumption).
  destruct (SCALE_bounds step Hin) as [ Hge _ ].
  assert (H0 : In (nth 0 SCALE 0) SCALE) by (apply nth_In; vm_compute; lia).
  specialize (Hmin _ H0).
  assert (E : nth 0 SCALE 0 == 0.05) by reflexivity.
  rewrite (Qabs_pos (step - t)) in Hmin by lra.
  rewrite (Qabs_pos (nth 0 SCALE 0 - t)) in Hmin by lra.
  lra.
Qed.

Lemma index_pinf :
  Np.fmin (map (fun c => Np.abs (Np.subtract (fin c) pinf)) SCALE) = Ok pinf
  /\ Np.where_first
       (map (fun d => Np.equal d pinf)
            (map (fun c => Np.abs (Np.subtract (fin c) pinf)) SCALE))
     = Ok 0%nat.
Proof. split; vm_compute; reflexivity. Qed.

Lemma index_nan :
  Np.fmin (map (fun c => Np.abs (Np.subtract (fin c) nan)) SCALE) = Ok nan
  /\ Np.where_first
       (map (fun d => Np.equal d nan)
            (map (fun c => Np.abs (Np.subtract (fin c) nan)) SCALE))
     = Raise IndexError.
Proof. split; vm_compute; reflexivity. Qed.

(** With five grid divisions the target is the quotient of a division by
    zero: positive infinity picks the first entry of [SCALE], NaN picks
    none. *)
Lemma best_fit_waterlvl_zero_grid (self : Hydrograph) (hi lo : Q) :
  Np.max (fitted_values self) = Ok hi ->
  Np.min (fitted_values self) = Ok lo ->
  (self.(NZGrid) - 5 = 0)%Z ->
  (lo < hi ->
   exists step origin,
     fst (best_fit_waterlvl self) = Ok (step, origin) /\ step == 0.05)
  /\ (hi == lo -> best_fit_waterlvl self = (Raise IndexError, self)).
Proof.
  intros Hhi Hlo Hy.
  unfold best_fit_waterlvl, bind, get, lift, modify, ret.
  fold (fitted_values self). rewrite Hhi, Hlo, Hy.
  unfold Np.true_divide. cbn [Z.eqb].
  split.
  - intros Hlt.
    assert (E : (hi - lo ?= 0) = Gt) by (apply Qgt_alt; lra).
    rewrite E. cbv iota.
    destruct index_pinf as [ H1 H2 ]. rewrite H1, H2.
    do 2 eexists. split; [ reflexivity | ]. reflexivity.
  - intros Heq.
    assert (E : (hi - lo ?= 0) = Eq) by (apply Qeq_alt; lra).
    rewrite E. cbv iota.
    destruct index_nan as [ H1 H2 ]. rewrite H1, H2. reflexivity.
Qed.

(** C10 (amended).  A returned scale always lies between 0.05 and 5.  With
    a number of grid divisions other than five a scale is returned, and it
    is 5 when [(max - min) / (NZGrid - 5)] is 5 or more and 0.05 when the
    quotient is 0.05 or less.  With five divisions the division is by
    zero: a varying array gets the scale 0.05 and a constant array raises
    [IndexError]. *)
Theorem best_fit_waterlvl_step_bounds (self : Hydrograph) :
  fitted_values self <> [] ->
  (forall step origin,
      fst (best_fit_waterlvl self) = Ok (step, origin) ->
      0.05 <= step /\ step <= 5)
  /\ exists hi lo,
       is_max hi (fitted_values self)
       /\ is_min lo (fitted_values self)
       /\ (self.(NZGrid) <> 5%Z ->
           exists step origin,
             fst (best_fit_waterlvl self) = Ok (step, origin)
             /\ (5 <= (hi - lo) / inject_Z (self.(NZGrid) - 5) -> step == 5)
             /\ ((hi - lo) / inject_Z (self.(NZGrid) - 5) <= 0.05 ->
                 step == 0.05))
       /\ (self.(NZGrid) = 5%Z ->
           (lo < hi ->
            exists step origin,
              fst (best_fit_waterlvl self) = Ok (step, origin)
              /\ step == 0.05)
           /\ (hi == lo ->
               best_fit_waterlvl self = (Raise IndexError, self))).
Proof.
  intros Hne. split.
  - intros step origin Hrun.
    destruct (best_fit_waterlvl_inv self step origin Hrun)
      as (_ & _ & _ & _ & Hin & _).
    now apply SCALE_bounds.
  - destruct (np_max_spec _ Hne) as (hi & Hhi & Hmax).
    destruct (np_min_spec _ Hne) as (lo & Hlo & Hmin).
    exists hi, lo. split; [ exact Hmax | ]. split; [ exact Hmin | ]. split.
    + intros Hgrid.
      destruct (best_fit_waterlvl_fin self hi lo Hhi Hlo)
        as (i & step & Hn & Hrun); [ lia | ].
      exists step. eexists. rewrite Hrun. split; [ reflexivity | ]. split.
      * intros Ht. eapply nearest_saturates_high; eassumption.
      * intros Ht. eapply nearest_saturates_low; eassumption.
    + intros Hgrid. apply best_fit_waterlvl_zero_grid; try assumption. lia.
Qed.

(** The statement of C10 (amended) for the levels 0, NaN, 10. *)
Lemma best_fit_waterlvl_step_bounds_witness :
  fitted_values zero_to_ten <> []
  /\ fst (best_fit_waterlvl zero_to_ten) = Ok (3.30, 13.20)
  /\ 0.05 <= 3.30 /\ 3.30 <= 5.
Proof.
  assert (Hne : fitted_values zero_to_ten <> []) by discriminate.
  assert (Hrun : fst (best_fit_waterlvl zero_to_ten) = Ok (3.30, 13.20))
    by (vm_compute; reflexivity).
  split; [ exact Hne | split; [ exact Hrun | ] ].
  exact (proj1 (best_fit_waterlvl_step_bounds zero_to_ten Hne) _ _ Hrun).
Defined.

(** C10 as stated fails with five grid divisions.  For the levels 1 and 2
    the quotient [(2 - 1) / (5 - 5)] is positive infinity, which exceeds 5,
    and the scale returned is 0.05, not 5; for a constant level no scale is
    returned at all. *)
Lemma best_fit_waterlvl_five_divisions :
  Np.true_divide (2 - 1) (one_two_on_five.(NZGrid) - 5) = pinf
  /\ Np.less_equal (Np.true_divide (2 - 1) (one_two_on_five.(NZGrid) - 5))
                   (fin 5) = false
  /\ (exists step origin,
        fst (best_fit_waterlvl one_two_on_five) = Ok (step, origin)
        /\ step == 0.05 /\ ~ step == 5)
  /\ fst (best_fit_waterlvl constant_on_five) = Raise IndexError.
Proof.
  split; [ reflexivity | ]. split; [ reflexivity | ]. split.
  - do 2 eexists. split; [ vm_compute; reflexivity | ].
    split; [ reflexivity | discriminate ].
  - vm_compute. reflexivity.
Qed.

(** ** Calendar *)

Section CalendarFacts.

Local Open Scope Z_scope.

Ltac divmod := Z.div_mod_to_equations; lia.

Ltac each_month m :=
  let H := fresh in
  assert (H : m = 1 \/ m = 2 \/ m = 3 \/ m = 4 \/ m = 5 \/ m = 6 \/ m = 7
              \/ m = 8 \/ m = 9 \/ m = 10 \/ m = 11 \/ m = 12) by lia;
  destruct H as [ H | [ H | [ H | [ H | [ H | [ H | [ H | [ H | [ H | [ H
                | [ H | H ] ] ] ] ] ] ] ] ] ] ]; subst m.

Lemma monthrange_days (y m : Z) :
  1 <= m <= 12 -> Calendar.monthrange y m = Ok (days_in_month y m).
Proof.
  intros Hm. unfold Calendar.monthrange, days_in_month.
  replace ((1 <=? m) && (m <=? 12)) with true by (symmetry; apply andb_true_iff; lia).
  cbn [negb]. f_equal. change (Calendar.isleap y) with (leap_year y).
  each_month m; try reflexivity.
  change ((2 =? 2) && leap_year y)%bool with (leap_year y).
  destruct (leap_year y); reflexivity.
Qed.

(** [xldate_as_tuple] decodes a day number into the month it falls in. *)
Lemma ymd_of_xldays_roundtrip (x : Z) :
  61 <= x < 2958466 ->
  let '(y, m, d) := Xldate.ymd_of_xldays x in
  Xldate.xldays_of_ymd y m d = x
  /\ 1 <= m <= 12 /\ 1 <= d <= 31 /\ 1900 <= y <= 9999.
Proof.
  intros Hx. unfold Xldate.ymd_of_xldays, Xldate.xldays_of_ymd, Xldate._JDN_delta.
  rewrite Z.shiftr_div_pow2 by lia. change (2 ^ 14) with 16384.
  cbv zeta. rewrite Z.geb_leb.
  match goal with
  | |- context [ if (10 <=? ?e) then _ else _ ] =>
      destruct (Z.leb_spec 10 e) as [ H | H ]
  end;
    match goal with
    | |- context [ if ?b then _ else _ ] => destruct b eqn:E
    end;
    first [ apply Z.leb_le in E | apply Z.leb_gt in E ]; divmod.
Qed.

Lemma ymd_of_xldays_day (x : Z) :
  61 <= x < 2958466 ->
  let '(y, m, d) := Xldate.ymd_of_xldays x in d <= days_in_month y m.
Proof.
  intros Hx. unfold Xldate.ymd_of_xldays, Xldate._JDN_delta, days_in_month.
  rewrite Z.shiftr_div_pow2 by lia. change (2 ^ 14) with 16384.
  cbv zeta. rewrite Z.geb_leb.
  match goal with
  | |- context [ if (10 <=? ?e) then _ else _ ] =>
      destruct (Z.leb_spec 10 e) as [ H | H ]
  end.
  - match goal with |- context [ ?e =? 2 ] => destruct (Z.eqb_spec e 2) end.
    + unfold leap_year.
      match goal with
      | |- context [ ?e mod 4 =? 0 ] =>
          destruct (Z.eqb_spec (e mod 4) 0), (Z.eqb_spec (e mod 100) 0),
            (Z.eqb_spec (e mod 400) 0)
      end; cbn [andb orb negb]; divmod.
    + match goal with
      | |- context [ orb (?e =? 4) _ ] =>
          destruct (Z.eqb_spec e 4), (Z.eqb_spec e 6), (Z.eqb_spec e 9),
            (Z.eqb_spec e 11)
      end; cbn [orb]; divmod.
  - match goal with |- context [ ?e =? 2 ] => destruct (Z.eqb_spec e 2) end.
    + exfalso. divmod.
    + match goal with
      | |- context [ orb (?e =? 4) _ ] =>
          destruct (Z.eqb_spec e 4), (Z.eqb_spec e 6), (Z.eqb_spec e 9),
            (Z.eqb_spec e 11)
      end; cbn [orb]; divmod.
Qed.

(** The months follow each other without gap: the encoding is the
    Gregorian calendar. *)
Lemma first_day_next_month (y m : Z) :
  1 <= m <= 12 ->
  first_day (next_month (y, m)) = first_day (y, m) + days_in_month y m.
Proof.
  intros Hm.
  unfold first_day, next_month, Xldate.xldays_of_ymd, days_in_month, leap_year,
    Xldate._JDN_delta.
  destruct (Z.eqb_spec m 12) as [ -> | H12 ]; [ cbn [Z.leb Z.eqb Z.compare Pos.compare Pos.compare_cont Pos.eqb orb]; divmod | ].
  destruct (Z.eqb_spec m 2) as [ -> | H2 ].
  - cbn [Z.leb Z.add Z.compare Pos.compare Pos.compare_cont Pos.add Pos.succ].
    destruct (Z.eqb_spec (y mod 4) 0), (Z.eqb_spec (y mod 100) 0),
      (Z.eqb_spec (y mod 400) 0); cbn [andb orb negb]; divmod.
  - each_month m; try lia; cbn [Z.leb Z.eqb Z.add Z.compare Pos.compare Pos.compare_cont Pos.eqb Pos.add Pos.succ orb]; divmod.
Qed.

Lemma first_day_mono (y1 m1 y2 m2 : Z) :
  1 <= m1 <= 12 -> 1 <= m2 <= 12 ->
  12 * y1 + m1 < 12 * y2 + m2 ->
  first_day (y1, m1) < first_day (y2, m2).
Proof.
  intros H1 H2 Hlt. unfold first_day, Xldate.xldays_of_ymd, Xldate._JDN_delta.
  destruct (Z.leb_spec m1 2), (Z.leb_spec m2 2); cbv zeta beta iota; divmod.
Qed.

Lemma first_day_bounds (y m : Z) :
  valid_month (y, m) -> 61 <= first_day (y, m) <= 2958435.
Proof.
  intros [ H1 H2 ]. unfold first_day, Xldate.xldays_of_ymd, Xldate._JDN_delta.
  destruct (Z.leb_spec m 2); cbv zeta beta iota; divmod.
Qed.

Lemma xldays_of_ymd_day (y m d : Z) :
  Xldate.xldays_of_ymd y m d = first_day (y, m) + d - 1.
Proof.
  unfold first_day, Xldate.xldays_of_ymd.
  destruct (m <=? 2); cbv zeta beta iota; lia.
Qed.

Lemma next_month_index (y m : Z) :
  1 <= m <= 12 ->
  let '(y', m') := next_month (y, m) in
  1 <= m' <= 12 /\ 12 * y' + m' = 12 * y + m + 1.
Proof.
  intros Hm. unfold next_month. destruct (Z.eqb_spec m 12); lia.
Qed.

(** A day number falls in the month [xldate_as_tuple] reports for it. *)
Lemma day_in_month (x : Z) :
  61 <= x < 2958466 ->
  let '(y, m, d) := Xldate.ymd_of_xldays x in
  valid_month (y, m)
  /\ first_day (y, m) <= x < first_day (next_month (y, m))
  /\ d = x - first_day (y, m) + 1.
Proof.
  intros Hx.
  assert (Hr := ymd_of_xldays_roundtrip x Hx).
  assert (Hd := ymd_of_xldays_day x Hx).
  destruct (Xldate.ymd_of_xldays x) as [ [ y m ] d ].
  destruct Hr as (Hr & Hm & Hd1 & Hy).
  rewrite xldays_of_ymd_day in Hr.
  assert (Hn := first_day_next_month y m Hm).
  assert (Hi := next_month_index y m Hm).
  destruct (next_month (y, m)) as [ y' m' ] eqn:En.
  destruct Hi as [ Hm' Hi ].
  assert (Hin : first_day (y, m) <= x < first_day (y', m')) by lia.
  split; [ | split; [ exact Hin | lia ] ].
  split; [ exact Hm | ]. split; [ | lia ].
  destruct (Z.lt_ge_cases (12 * y + m) (12 * 1900 + 3)) as [ Hlt | Hge ];
    [ exfalso | exact Hge ].
  assert (H61 : first_day (1900, 3) = 61) by reflexivity.
  destruct (Z.eq_dec (12 * y' + m') (12 * 1900 + 3)) as [ E | NE ].
  - assert (y' = 1900 /\ m' = 3) as [ -> -> ] by lia. lia.
  - assert (first_day (y', m') < first_day (1900, 3))
      by (apply first_day_mono; lia).
    lia.
Qed.

(** The first day of a month decodes to that month. *)
Lemma first_day_roundtrip (y m : Z) :
  valid_month (y, m) -> Xldate.ymd_of_xldays (first_day (y, m)) = (y, m, 1).
Proof.
  intros Hv. assert (Hb := first_day_bounds y m Hv).
  assert (Hx : 61 <= first_day (y, m) < 2958466) by lia.
  assert (Hd := day_in_month (first_day (y, m)) Hx).
  destruct (Xldate.ymd_of_xldays (first_day (y, m))) as [ [ y1 m1 ] d1 ].
  destruct Hd as ([ Hm1 Hi1 ] & Hin & Hd).
  destruct Hv as [ Hm Hi ].
  assert (Hnext := next_month_index y1 m1 Hm1).
  destruct (next_month (y1, m1)) as [ y2 m2 ].
  destruct Hnext as [ Hm2 Hi2 ].
  assert (E : 12 * y1 + m1 = 12 * y + m).
  { destruct (Z.lt_trichotomy (12 * y1 + m1) (12 * y + m)) as [ Hlt | [ E | Hgt ] ];
      [ exfalso | exact E | exfalso ].
    - destruct (Z.eq_dec (12 * y2 + m2) (12 * y + m)) as [ E | NE ].
      + assert (y2 = y /\ m2 = m) as [ -> -> ] by lia. lia.
      + assert (first_day (y2, m2) < first_day (y, m))
          by (apply first_day_mono; lia).
        lia.
    - assert (first_day (y, m) < first_day (y1, m1))
        by (apply first_day_mono; lia).
      lia. }
  assert (y1 = y /\ m1 = m) as [ -> -> ] by lia.
  f_equal. lia.
Qed.

Lemma xldate_from_first_day (y m : Z) :
  valid_month (y, m) ->
  Xldate.xldate_from_date_tuple (y, m, 1) = Ok (first_day (y, m)).
Proof.
  intros Hv. assert (Hb := first_day_bounds y m Hv). destruct Hv as [ Hm Hi ].
  unfold Xldate.xldate_from_date_tuple.
  replace (1 =? 0) with false by reflexivity. rewrite !andb_false_r.
  replace ((1900 <=? y) && (y <=? 9999))%bool with true
    by (symmetry; apply andb_true_iff; lia).
  replace ((1 <=? m) && (m <=? 12))%bool with true
    by (symmetry; apply andb_true_iff; lia).
  replace (1 >? Xldate._days_in_month m) with false
    by (symmetry; unfold Xldate._days_in_month; each_month m; reflexivity).
  cbn [negb andb orb Z.ltb Z.compare Pos.compare].
  fold (first_day (y, m)).
  replace (first_day (y, m) <=? 0) with false by (symmetry; apply Z.leb_gt; lia).
  replace (first_day (y, m) <? 61) with false by (symmetry; apply Z.ltb_ge; lia).
  reflexivity.
Qed.

End CalendarFacts.

Section Rounding.

Lemma Qfloor_unique (z : Q) (k : Z) :
  inject_Z k <= z -> z < inject_Z k + 1 -> Qfloor z = k.
Proof.
  intros Hle Hlt.
  assert (H1 := Qfloor_le z). assert (H2 := Qlt_floor z).
  rewrite inject_Z_plus in H2. change (inject_Z 1) with 1 in H2.
  assert (Ha : inject_Z (Qfloor z) < inject_Z (k + 1)).
  { rewrite inject_Z_plus. change (inject_Z 1) with 1. lra. }
  assert (Hb : inject_Z k < inject_Z (Qfloor z + 1)).
  { rewrite inject_Z_plus. change (inject_Z 1) with 1. lra. }
  rewrite <- Zlt_Qlt in Ha, Hb. lia.
Qed.

Lemma py_int_floor (t : Q) : 0 <= t -> Py.int t = Qfloor t.
Proof.
  destruct t as [ n d ]. unfold Qle, Py.int, Qfloor. cbn.
  intros H. apply Z.quot_div_nonneg; lia.
Qed.

(** A number of seconds below 86400 rounds to 86400 exactly from 86399.5
    on. *)
Lemma py_round_seconds (u : Q) :
  0 <= u -> u < 86400 ->
  (u < 86399.5 -> Py.round u <> 86400%Z)
  /\ (86399.5 <= u -> Py.round u = 86400%Z).
Proof.
  intros H0 H1.
  assert (Hf := Qfloor_le u). assert (Hc := Qlt_floor u).
  rewrite inject_Z_plus in Hc. change (inject_Z 1) with 1 in Hc.
  assert (Hg : (Qfloor u <= 86399)%Z).
  { assert (H : inject_Z (Qfloor u) < inject_Z 86400)
      by (change (inject_Z 86400) with 86400; lra).
    rewrite <- Zlt_Qlt in H. lia. }
  unfold Py.round. set (g := Qfloor u) in *.
  split.
  - intros Hlt.
    destruct (Z.eq_dec g 86399) as [ E | NE ].
    + assert (Hcmp : (u - inject_Z g ?= 1 # 2) = Lt).
      { rewrite <- Qlt_alt, E. change (inject_Z 86399) with 86399. lra. }
      rewrite Hcmp. lia.
    + destruct (u - inject_Z g ?= 1 # 2); [ destruct (Z.even g) | | ]; lia.
  - intros Hge.
    assert (E : g = 86399%Z).
    { subst g. apply Qfloor_unique; change (inject_Z 86399) with 86399; lra. }
    rewrite E. change (inject_Z 86399) with 86399.
    destruct (u - 86399 ?= 1 # 2) eqn:Hcmp; [ reflexivity | | reflexivity ].
    rewrite <- Qlt_alt in Hcmp. lra.
Qed.

(** [xldate_as_tuple] reports the date of the day on which the instant
    falls once rounded to the nearest second. *)
Lemma xldate_as_tuple_rounded (t : Q) :
  (61 <= rounded_day t < 2958466)%Z ->
  exists y m d hh mm ss,
    Xldate.ymd_of_xldays (rounded_day t) = (y, m, d)
    /\ Xldate.xldate_as_tuple t = Ok (y, m, d, hh, mm, ss).
Proof.
  intros Hd. unfold rounded_day in *.
  assert (Hfl := Qfloor_le (t + (1 # 172800))).
  assert (H61 : inject_Z 61 <= inject_Z (Qfloor (t + (1 # 172800))))
    by (rewrite <- Zle_Qle; lia).
  change (inject_Z 61) with 61 in H61.
  assert (Hpos : 0 < t) by lra.
  unfold Xldate.xldate_as_tuple, Xldate.Qlt_bool.
  replace (Qeq_bool t 0) with false.
  2:{ symmetry. destruct (Qeq_bool t 0) eqn:E; [ | reflexivity ].
      apply Qeq_bool_iff in E. lra. }
  replace (Qle_bool 0 t) with true by (symmetry; apply Qle_bool_iff; lra).
  cbn [negb]. rewrite py_int_floor by lra.
  set (f := Qfloor t) in *.
  assert (Hf1 := Qfloor_le t). assert (Hf2 := Qlt_floor t).
  rewrite inject_Z_plus in Hf2. change (inject_Z 1) with 1 in Hf2. fold f in Hf1, Hf2.
  set (u := (t - inject_Z f) * 86400).
  assert (Hu0 : 0 <= u) by (subst u; lra).
  assert (Hu1 : u < 86400) by (subst u; lra).
  destruct (py_round_seconds u Hu0 Hu1) as [ Hlow Hhigh ].
  destruct (Qlt_le_dec u 86399.5) as [ Hlt | Hge ].
  - specialize (Hlow Hlt).
    replace (Py.round u =? 86400)%Z with false
      by (symmetry; apply Z.eqb_neq; exact Hlow).
    assert (Hday : Qfloor (t + (1 # 172800)) = f).
    { apply Qfloor_unique; subst u; lra. }
    rewrite Hday in Hd.
    destruct (Py.divmod (Py.round u) 60) as [ minutes second ].
    destruct (Py.divmod minutes 60) as [ hour minute ].
    replace (f >=? Xldate._XLDAYS_TOO_LARGE)%Z with false
      by (symmetry; unfold Xldate._XLDAYS_TOO_LARGE; rewrite Z.geb_leb; apply Z.leb_gt; lia).
    replace (f =? 0)%Z with false by (symmetry; apply Z.eqb_neq; lia).
    replace (f <? 61)%Z with false by (symmetry; apply Z.ltb_ge; lia).
    rewrite Hday.
    destruct (Xldate.ymd_of_xldays f) as [ [ y m ] d ].
    exists y, m, d, hour, minute, second. split; reflexivity.
  - specialize (Hhigh Hge). rewrite Hhigh. cbn [Z.eqb Pos.eqb].
    assert (Hday : Qfloor (t + (1 # 172800)) = (f + 1)%Z).
    { apply Qfloor_unique; rewrite inject_Z_plus; change (inject_Z 1) with 1;
        subst u; lra. }
    rewrite Hday in Hd.
    replace (f + 1 >=? Xldate._XLDAYS_TOO_LARGE)%Z with false
      by (symmetry; unfold Xldate._XLDAYS_TOO_LARGE; rewrite Z.geb_leb; apply Z.leb_gt; lia).
    replace (f + 1 =? 0)%Z with false by (symmetry; apply Z.eqb_neq; lia).
    replace (f + 1 <? 61)%Z with false by (symmetry; apply Z.ltb_ge; lia).
    rewrite Hday.
    destruct (Xldate.ymd_of_xldays (f + 1)) as [ [ y m ] d ].
    exists y, m, d, 0%Z, 0%Z, 0%Z. split; reflexivity.
Qed.

End Rounding.

(** ** Time range *)

Section TimeRange.

Local Open Scope Z_scope.

Lemma getitem_first {A} (a : A) (r : list A) : Py.getitem (a :: r) 0%Z = Ok a.
Proof.
  unfold Py.getitem. cbn [Z.ltb Z.compare].
  replace (0 <? Z.of_nat (length (a :: r)))%Z with true
    by (symmetry; apply Z.ltb_lt; cbn [length]; lia).
  reflexivity.
Qed.

Lemma nth_error_last {A} (d : A) (l : list A) :
  l <> [] -> nth_error l (length l - 1) = Some (last l d).
Proof.
  induction l as [ | a l IH ]; [ congruence | ]. intros _.
  destruct l as [ | b l ]; [ reflexivity | ].
  specialize (IH ltac:(discriminate)).
  cbn [length] in *. replace (S (S (length l)) - 1)%nat with (S (length l)) by lia.
  replace (S (length l) - 1)%nat with (length l) in IH by lia.
  cbn [nth_error]. rewrite IH. reflexivity.
Qed.

Lemma getitem_last {A} (a : A) (r : list A) :
  Py.getitem (a :: r) (-1)%Z = Ok (last (a :: r) a).
Proof.
  unfold Py.getitem. cbn [Z.ltb Z.compare].
  set (l := a :: r).
  assert (Hn : (1 <= Z.of_nat (length l))%Z)
    by (subst l; cbn [length]; generalize (length r); intros n; lia).
  revert Hn. generalize (nth_error_last a l). generalize (length l).
  intros n Hlast Hn.
  replace (0 <=? -1 + Z.of_nat n)%Z with true by (symmetry; apply Z.leb_le; lia).
  replace (-1 + Z.of_nat n <? Z.of_nat n)%Z with true
    by (symmetry; apply Z.ltb_lt; lia).
  cbn [andb].
  replace (Z.to_nat (-1 + Z.of_nat n)%Z) with (n - 1)%nat by lia.
  rewrite Hlast by (subst l; discriminate). reflexivity.
Qed.

(** The date of an instant: a valid month containing its rounded day. *)
Lemma xldate_as_tuple_month (t : Q) :
  (61 <= rounded_day t < 2958466)%Z ->
  exists y m d hh mm ss,
    Xldate.ymd_of_xldays (rounded_day t) = (y, m, d)
    /\ Xldate.xldate_as_tuple t = Ok (y, m, d, hh, mm, ss)
    /\ valid_month (y, m)
    /\ in_month (y, m) (inject_Z (rounded_day t)).
Proof.
  intros Hd.
  destruct (xldate_as_tuple_rounded t Hd) as (y & m & d & hh & mm & ss & Hymd & Hx).
  exists y, m, d, hh, mm, ss.
  assert (Hin := day_in_month (rounded_day t) Hd). rewrite Hymd in Hin.
  destruct Hin as (Hv & Hin & _).
  repeat (split; [ assumption | ]).
  unfold in_month. rewrite <- Zle_Qle, <- Zlt_Qlt. exact Hin.
Qed.

Lemma next_month_valid (y m : Z) :
  valid_month (y, m) -> (first_day (y, m) < first_day (9999, 12))%Z ->
  valid_month (next_month (y, m)).
Proof.
  intros [ Hm Hi ] Hlt.
  assert (Hn := next_month_index y m Hm).
  destruct (next_month (y, m)) as [ y' m' ]. destruct Hn as [ Hm' Hi' ].
  split; [ exact Hm' | ]. split; [ lia | ].
  destruct (Z.eq_dec (12 * y + m) (12 * 9999 + 12)) as [ E | NE ]; [ | lia ].
  assert (y = 9999 /\ m = 12)%Z as [ -> -> ] by lia. lia.
Qed.

(** What a call does for a sequence whose end points can be dated. *)
Lemma best_fit_time_run (self : Hydrograph) (t0 : Q) (rest : list Q) :
  (61 <= rounded_day t0 < 2958466)%Z ->
  (61 <= rounded_day (last (t0 :: rest) t0) < first_day (9999, 12))%Z ->
  exists y0 m0 d0 y1 m1 d1,
    Xldate.ymd_of_xldays (rounded_day t0) = (y0, m0, d0)
    /\ Xldate.ymd_of_xldays (rounded_day (last (t0 :: rest) t0)) = (y1, m1, d1)
    /\ valid_month (y0, m0)
    /\ valid_month (y1, m1)
    /\ valid_month (next_month (y1, m1))
    /\ best_fit_time (t0 :: rest) self
       = (Ok (first_of (y0, m0), first_of (next_month (y1, m1))),
          with_TIMEmax (first_day (next_month (y1, m1)))
            (with_TIMEmin (first_day (y0, m0)) self)).
Proof.
  intros H0 H1.
  assert (H1' : (61 <= rounded_day (last (t0 :: rest) t0) < 2958466)%Z).
  { assert (first_day (9999, 12) = 2958435%Z) by reflexivity. lia. }
  destruct (xldate_as_tuple_month t0 H0)
    as (y0 & m0 & d0 & hh0 & mm0 & ss0 & Hymd0 & Hx0 & Hv0 & _).
  destruct (xldate_as_tuple_month _ H1')
    as (y1 & m1 & d1 & hh1 & mm1 & ss1 & Hymd1 & Hx1 & Hv1 & Hin1).
  exists y0, m0, d0, y1, m1, d1.
  assert (Hv1' : valid_month (next_month (y1, m1))).
  { apply next_month_valid; [ exact Hv1 | ].
    destruct Hin1 as [ Hle _ ]. rewrite <- Zle_Qle in Hle. lia. }
  repeat (split; [ assumption | ]).
  unfold best_fit_time, bind, lift, modify, ret.
  rewrite getitem_first, Hx0, (xldate_from_first_day y0 m0 Hv0).
  rewrite getitem_last, Hx1.
  assert (Hnext : (if (m1 + 1 >? 12)%Z then ((y1 + 1)%Z, 1%Z) else (y1, (m1 + 1)%Z))
                  = next_month (y1, m1)).
  { unfold next_month. destruct Hv1 as [ Hm1 _ ].
    destruct (Z.eqb_spec m1 12) as [ -> | NE ]; [ reflexivity | ].
    replace (m1 + 1 >? 12)%Z with false; [ reflexivity | ].
    symmetry. rewrite Z.gtb_ltb. apply Z.ltb_ge. lia. }
  rewrite Hnext.
  destruct (next_month (y1, m1)) as [ y2 m2 ].
  rewrite (xldate_from_first_day y2 m2 Hv1'). reflexivity.
Qed.

Lemma rounded_day_cases (t : Q) (k : Z) :
  (inject_Z k <= t)%Q -> (t < inject_Z k + 1)%Q ->
  rounded_day t = k \/ rounded_day t = k + 1.
Proof.
  intros Hle Hlt. unfold rounded_day.
  destruct (Qlt_le_dec (t + (1 # 172800)) (inject_Z k + 1)) as [ H | H ].
  - left. apply Qfloor_unique; lra.
  - right. apply Qfloor_unique; rewrite inject_Z_plus;
      change (inject_Z 1) with 1%Q; lra.
Qed.

End TimeRange.

(** C2 (amended).  For a sequence whose first and last instants, rounded
    to the nearest second, fall on days from 1 March 1900 on and before
    1 December 9999, [best_fit_time] returns as start the first day of the
    month containing the rounded first instant and as end the first day of
    the month after the one containing the rounded last instant (January
    of the next year after a December), and stores their day numbers in
    [TIMEmin] and [TIMEmax]; a sequence from 15 January 2000 to 20 December
    2001 gives 1 January 2000 and 1 January 2002. *)
Theorem best_fit_time_months (self : Hydrograph) (t0 : Q) (rest : list Q) :
  let TIME := t0 :: rest in
  let t1 := last TIME t0 in
  (61 <= rounded_day t0 < 2958466)%Z ->
  (61 <= rounded_day t1 < first_day (9999, 12)%Z)%Z ->
  exists ym0 ym1,
    valid_month ym0 /\ valid_month ym1
    /\ in_month ym0 (inject_Z (rounded_day t0))
    /\ in_month ym1 (inject_Z (rounded_day t1))
    /\ fst (best_fit_time TIME self)
       = Ok (first_of ym0, first_of (next_month ym1))
    /\ (snd (best_fit_time TIME self)).(TIMEmin) = first_day ym0
    /\ (snd (best_fit_time TIME self)).(TIMEmax) = first_day (next_month ym1)
    /\ (36540 <= t0 -> t0 < 36541 -> 37245 <= t1 -> t1 < 37246 ->
        first_of ym0 = (2000, 1, 1)%Z
        /\ first_of (next_month ym1) = (2002, 1, 1)%Z).
Proof.
  intros TIME t1 H0 H1.
  destruct (best_fit_time_run self t0 rest H0 H1)
    as (y0 & m0 & d0 & y1 & m1 & d1 & Hymd0 & Hymd1 & Hv0 & Hv1 & Hv1' & Hrun).
  exists (y0, m0), (y1, m1).
  assert (H1' : (61 <= rounded_day t1 < 2958466)%Z).
  { assert (first_day (9999, 12)%Z = 2958435%Z) by reflexivity. lia. }
  assert (Hin0 := day_in_month (rounded_day t0) H0).
  assert (Hin1 := day_in_month (rounded_day t1) H1').
  rewrite Hymd0 in Hin0. fold TIME t1 in Hymd1. rewrite Hymd1 in Hin1.
  destruct Hin0 as (_ & Hin0 & _). destruct Hin1 as (_ & Hin1 & _).
  split; [ exact Hv0 | ]. split; [ exact Hv1 | ].
  split; [ unfold in_month; rewrite <- Zle_Qle, <- Zlt_Qlt; exact Hin0 | ].
  split; [ unfold in_month; rewrite <- Zle_Qle, <- Zlt_Qlt; exact Hin1 | ].
  fold TIME in Hrun. rewrite Hrun. cbn [fst snd].
  split; [ reflexivity | ]. split; [ reflexivity | ]. split; [ reflexivity | ].
  intros Ha Hb Hc Hd.
  destruct (rounded_day_cases t0 36540 Ha Hb) as [ E0 | E0 ];
    destruct (rounded_day_cases t1 37245 Hc Hd) as [ E1 | E1 ];
    rewrite E0 in Hymd0; rewrite E1 in Hymd1;
    vm_compute in Hymd0; vm_compute in Hymd1;
    injection Hymd0 as <- <- _; injection Hymd1 as <- <- _;
    split; reflexivity.
Qed.

(** The statement of C2 (amended) for a record from 15 January 2000 to
    20 December 2001. *)
Lemma best_fit_time_months_witness :
  (61 <= rounded_day 36540.5%Q < 2958466)%Z
  /\ (61 <= rounded_day (last two_years 36540.5%Q) < first_day (9999, 12)%Z)%Z
  /\ fst (best_fit_time two_years init) = Ok ((2000, 1, 1)%Z, (2002, 1, 1)%Z).
Proof.
  assert (H0 : (61 <= rounded_day 36540.5%Q < 2958466)%Z) by (vm_compute; split; [ discriminate | reflexivity ]).
  assert (H1 : (61 <= rounded_day (last two_years 36540.5%Q)
                < first_day (9999, 12)%Z)%Z) by (vm_compute; split; [ discriminate | reflexivity ]).
  split; [ exact H0 | split; [ exact H1 | ] ].
  destruct (best_fit_time_months init 36540.5 [36800; 37245.25] H0 H1)
    as (ym0 & ym1 & _ & _ & _ & _ & Hrun & _ & _ & Hex).
  change (36540.5 :: [36800; 37245.25]) with two_years in Hrun.
  rewrite Hrun.
  destruct Hex as [ E0 E1 ];
    [ vm_compute; discriminate | reflexivity
    | vm_compute; discriminate | reflexivity | ].
  now rewrite E0, E1.
Defined.

(** C2 as stated fails for an instant in the last half second of a month:
    36556.999995 is 31 January 2000, 23:59:59.568, an instant of January,
    and the start returned is 1 February 2000.  It also fails before March
    1900, where no date is returned. *)
Lemma best_fit_time_rounds_up :
  in_month (2000, 1)%Z 36556.999995
  /\ ~ in_month (2000, 2)%Z 36556.999995
  /\ fst (best_fit_time before_midnight init)
     = Ok ((2000, 2, 1)%Z, (2000, 3, 1)%Z)
  /\ fst (best_fit_time january_1900 init) = Raise XLDateAmbiguous.
Proof.
  split; [ split; vm_compute; [ discriminate | reflexivity ] | ].
  split; [ | split; vm_compute; reflexivity ].
  intros [ H _ ]. vm_compute in H. apply H. reflexivity.
Qed.

(** ** Refitting on fitted bounds *)

Section Refit.

Lemma rounded_day_integer (x : Z) : rounded_day (inject_Z x) = x.
Proof.
  unfold rounded_day. apply Qfloor_unique; lra.
Qed.

(** Refitting the time range on a fitted pair of bounds keeps the start
    and moves the end to the next month. *)
Lemma best_fit_time_refit (self : Hydrograph) (ym0 ym1 : Z * Z) (rest : list Q) :
  valid_month ym0 -> valid_month ym1 ->
  (first_day ym1 < first_day (9999, 12)%Z)%Z ->
  last (inject_Z (first_day ym0) :: rest) (inject_Z (first_day ym0))
  = inject_Z (first_day ym1) ->
  fst (best_fit_time (inject_Z (first_day ym0) :: rest) self)
  = Ok (first_of ym0, first_of (next_month ym1)).
Proof.
  intros Hv0 Hv1 Hlt Hlast.
  destruct ym0 as [ y0 m0 ], ym1 as [ y1 m1 ].
  assert (Hb0 := first_day_bounds y0 m0 Hv0).
  assert (Hb1 := first_day_bounds y1 m1 Hv1).
  destruct (best_fit_time_run self (inject_Z (first_day (y0, m0))) rest)
    as (a0 & b0 & c0 & a1 & b1 & c1 & Hymd0 & Hymd1 & _ & _ & _ & Hrun).
  { rewrite rounded_day_integer. lia. }
  { rewrite Hlast, rounded_day_integer. lia. }
  rewrite Hlast in Hymd1. rewrite rounded_day_integer in Hymd0, Hymd1.
  rewrite first_day_roundtrip in Hymd0, Hymd1 by assumption.
  injection Hymd0 as <- <- _. injection Hymd1 as <- <- _.
  rewrite Hrun. reflexivity.
Qed.

Lemma is_max_pair (hi a b a' b' : Q) :
  a' == a -> b' == b -> a <= b -> is_max hi [a'; b'] -> hi == b.
Proof.
  intros Ea Eb Hab [ Hin Hle ].
  assert (Hb' : b' <= hi) by (apply Hle; right; left; reflexivity).
  destruct Hin as [ <- | [ <- | [] ] ]; lra.
Qed.

Lemma is_min_pair (lo a b a' b' : Q) :
  a' == a -> b' == b -> a <= b -> is_min lo [a'; b'] -> lo == a.
Proof.
  intros Ea Eb Hab [ Hin Hle ].
  assert (Ha' : lo <= a') by (apply Hle; left; reflexivity).
  destruct Hin as [ <- | [ <- | [] ] ]; lra.
Qed.

End Refit.

Lemma refit_origin (self self' : Hydrograph) (step origin step' origin' : Q) :
  fst (best_fit_waterlvl self) = Ok (step, origin) ->
  (0 <= if self.(meteo_on) then self.(NZGrid) else self.(NZGrid) - 2)%Z ->
  self'.(WLdatum) = self.(WLdatum) ->
  Forall2 Qeq (fitted_values self')
    [fst (waterlvl_axis (snd (best_fit_waterlvl self)));
     snd (waterlvl_axis (snd (best_fit_waterlvl self)))] ->
  fst (best_fit_waterlvl self') = Ok (step', origin') ->
  step' == step -> origin' == origin.
Proof.
  intros Hfit Hn Hdatum Hvals Hrefit Hstep.
  destruct (best_fit_waterlvl_inv self step origin Hfit)
    as (hi & lo & _ & _ & Hin & Horigin & Hself).
  destruct (best_fit_waterlvl_inv self' step' origin' Hrefit)
    as (hi' & lo' & Hhi' & Hlo' & Hin' & Horigin' & _).
  apply np_max_ok in Hhi'. apply np_min_ok in Hlo'.
  assert (Hpos : 0 < step) by (destruct (SCALE_bounds step Hin); lra).
  rewrite Hself in Hvals. unfold waterlvl_axis, fitted in Hvals.
  cbn [meteo_on NZGrid WLdatum WLmin WLscale with_WLmin with_WLscale] in Hvals.
  set (n := if meteo_on self then NZGrid self else (NZGrid self - 2)%Z) in *.
  assert (Hn' : 0 <= inject_Z n).
  { change 0 with (inject_Z 0). rewrite <- Zle_Qle. exact Hn. }
  assert (Hspan : 0 <= inject_Z n * step) by (apply Qmult_le_0_compat; lra).
  set (N := grid_rank (WLdatum self) hi lo step) in *.
  assert (Hquot : origin / step == inject_Z N).
  { rewrite Horigin. field. lra. }
  rewrite Horigin', Hdatum. unfold grid_rank.
  destruct (fitted_values self') as [ | a' [ | b' [ | c' r' ] ] ];
    try (exfalso; inversion Hvals as [ | ? ? ? ? ? Hr ]; inversion Hr as [ | ? ? ? ? ? Hr' ];
         inversion Hr'; fail).
  apply Forall2_cons_iff in Hvals. destruct Hvals as [ Ea Hr ].
  apply Forall2_cons_iff in Hr. destruct Hr as [ Eb _ ].
  destruct (WLdatum self) eqn:Hd; cbn [fst snd] in Ea, Eb.
  - assert (E : hi' == origin).
    { eapply is_max_pair; [ exact Ea | exact Eb | lra | exact Hhi' ]. }
    assert (EN : Qceiling (hi' / step') = N).
    { rewrite (Qceiling_comp (hi' / step') (inject_Z N)); [ apply Qceiling_Z | ].
      rewrite E, Hstep. exact Hquot. }
    rewrite EN, Hstep, Horigin. reflexivity.
  - assert (E : lo' == origin).
    { eapply is_min_pair; [ exact Ea | exact Eb | lra | exact Hlo' ]. }
    assert (EN : Qfloor (lo' / step') = N).
    { rewrite (Qfloor_comp (lo' / step') (inject_Z N)); [ apply Qfloor_Z | ].
      rewrite E, Hstep. exact Hquot. }
    rewrite EN, Hstep, Horigin. reflexivity.
Qed.

(** C8 (amended).  Refitting the time range on a fitted pair of bounds
    returns the same start and, as end, the month after the fitted end;
    refitting the water-level scale on the two bounds of the fitted axis
    returns the same origin whenever it returns the same scale. *)
Theorem refit_on_fitted_bounds :
  (forall (self : Hydrograph) (ym0 ym1 : Z * Z) (rest : list Q),
      valid_month ym0 -> valid_month ym1 ->
      (first_day ym1 < first_day (9999, 12)%Z)%Z ->
      last (inject_Z (first_day ym0) :: rest) (inject_Z (first_day ym0))
      = inject_Z (first_day ym1) ->
      fst (best_fit_time (inject_Z (first_day ym0) :: rest) self)
      = Ok (first_of ym0, first_of (next_month ym1))
      /\ (first_day ym1 < first_day (next_month ym1))%Z)
  /\ (forall (self self' : Hydrograph) (step origin step' origin' : Q),
        fst (best_fit_waterlvl self) = Ok (step, origin) ->
        (0 <= if self.(meteo_on) then self.(NZGrid) else self.(NZGrid) - 2)%Z ->
        self'.(WLdatum) = self.(WLdatum) ->
        Forall2 Qeq (fitted_values self')
          [fst (waterlvl_axis (snd (best_fit_waterlvl self)));
           snd (waterlvl_axis (snd (best_fit_waterlvl self)))] ->
        fst (best_fit_waterlvl self') = Ok (step', origin') ->
        step' == step -> origin' == origin).
Proof.
  split.
  - intros self ym0 ym1 rest Hv0 Hv1 Hlt Hlast. split.
    + now apply best_fit_time_refit.
    + destruct ym1 as [ y1 m1 ]. destruct Hv1 as [ Hm1 _ ].
      rewrite first_day_next_month by exact Hm1.
      unfold days_in_month.
      destruct (m1 =? 2)%Z; [ destruct (leap_year y1); lia | ].
      destruct ((m1 =? 4)%Z || (m1 =? 6)%Z || (m1 =? 9)%Z || (m1 =? 11)%Z); lia.
  - intros. eapply refit_origin; eassumption.
Qed.

(** The statement of C8 (amended) on the bounds fitted to 15 January 2000
    .. 20 December 2001 and on a water-level axis of fifty divisions. *)
Lemma refit_on_fitted_bounds_witness :
  (valid_month (2000, 1)%Z /\ valid_month (2002, 1)%Z
   /\ fst (best_fit_time fitted_bounds init)
      = Ok ((2000, 1, 1)%Z, (2002, 2, 1)%Z))
  /\ (fst (best_fit_waterlvl fine_grid) = Ok (0.0500, 2.2500)
      /\ fst (best_fit_waterlvl refit_fine_grid) = Ok (0.0500, 2.2500)
      /\ 2.2500 == 2.2500).
Proof.
  assert (Hv0 : valid_month (2000, 1)%Z) by (cbn; lia).
  assert (Hv1 : valid_month (2002, 1)%Z) by (cbn; lia).
  assert (Hfit : fst (best_fit_waterlvl fine_grid) = Ok (0.0500, 2.2500))
    by (vm_compute; reflexivity).
  assert (Hrefit : fst (best_fit_waterlvl refit_fine_grid) = Ok (0.0500, 2.2500))
    by (vm_compute; reflexivity).
  destruct refit_on_fitted_bounds as [ Htime Hvalue ].
  split.
  - split; [ exact Hv0 | split; [ exact Hv1 | ] ].
    exact (proj1 (Htime init (2000, 1)%Z (2002, 1)%Z [37257] Hv0 Hv1
                    eq_refl eq_refl)).
  - split; [ exact Hfit | split; [ exact Hrefit | ] ].
    apply (Hvalue fine_grid refit_fine_grid 0.0500 2.2500 0.0500 2.2500
             Hfit); [ vm_compute; discriminate | reflexivity | | exact Hrefit
                    | reflexivity ].
    vm_compute. repeat constructor.
Defined.

(** C8 as stated fails for both fits.  The bounds fitted to 15 January
    2000 .. 20 December 2001 are 1 January 2000 and 1 January 2002, and
    refitting on them moves the end to 1 February 2002; the levels 0 and 10
    get the scale 3.3 from the origin 13.2, and refitting on the bounds of
    that axis gives the scale 5 from the origin 15. *)
Lemma refit_changes_bounds :
  (fst (best_fit_time two_years init) = Ok ((2000, 1, 1)%Z, (2002, 1, 1)%Z)
   /\ (snd (best_fit_time two_years init)).(TIMEmin) = 36526%Z
   /\ (snd (best_fit_time two_years init)).(TIMEmax) = 37257%Z
   /\ fst (best_fit_time fitted_bounds init)
      = Ok ((2000, 1, 1)%Z, (2002, 2, 1)%Z))
  /\ (fst (best_fit_waterlvl zero_to_ten) = Ok (3.30, 13.20)
      /\ fitted_values refit_zero_to_ten = [-13.2000; 13.20]
      /\ exists step origin,
           fst (best_fit_waterlvl refit_zero_to_ten) = Ok (step, origin)
           /\ step == 5 /\ origin == 15).
Proof.
  split.
  - repeat split; vm_compute; reflexivity.
  - split; [ vm_compute; reflexivity | ]. split.
    + vm_compute. reflexivity.
    + do 2 eexists. split; [ vm_compute; reflexivity | ]. split; reflexivity.
Qed.

(** ** Ticks *)

Section TickWalk.

Local Open Scope Z_scope.

Variable sin_45 : Q.
Variables txt_bbox ax_bbox : Bbox.

Let offset := xticks_labels_offset sin_45 txt_bbox ax_bbox.
Let loop := xticks_loop sin_45 txt_bbox ax_bbox.

Lemma year_digits (y : Z) :
  1900 <= y <= 9999 -> last2 (str y) = two_digits y /\ str y = four_digits y.
Proof.
  intros Hy.
  assert (Hall : forallb (fun k => let y := 1900 + Z.of_nat k in
                                   String.eqb (last2 (str y)) (two_digits y)
                                   && String.eqb (str y) (four_digits y))
                         (seq 0 (Z.to_nat 8100)) = true)
    by (vm_compute; reflexivity).
  rewrite forallb_forall in Hall.
  specialize (Hall (Z.to_nat (y - 1900))).
  cbv zeta in Hall. rewrite Z2Nat.id in Hall by lia.
  replace (1900 + (y - 1900)) with y in Hall by lia.
  apply andb_true_iff in Hall; [ | apply in_seq; lia ].
  destruct Hall as [ H2 H4 ].
  apply String.eqb_eq in H2, H4. now split.
Qed.

Lemma month_name_getitem (lang : Language) (m : Z) :
  1 <= m <= 12 -> Py.getitem (month_names lang) (m - 1) = Ok (month_name lang m).
Proof.
  intros Hm.
  assert (H : m = 1 \/ m = 2 \/ m = 3 \/ m = 4 \/ m = 5 \/ m = 6 \/ m = 7
              \/ m = 8 \/ m = 9 \/ m = 10 \/ m = 11 \/ m = 12) by lia.
  destruct lang;
    destruct H as [ H | [ H | [ H | [ H | [ H | [ H | [ H | [ H | [ H | [ H
                  | [ H | H ] ] ] ] ] ] ] ] ] ] ]; subst m; reflexivity.
Qed.

Lemma xldate_as_tuple_first_day (ym : Z * Z) :
  valid_month ym ->
  exists hh mm ss,
    Xldate.xldate_as_tuple (inject_Z (first_day ym))
    = Ok (fst ym, snd ym, 1, hh, mm, ss).
Proof.
  destruct ym as [ y m ]. intros Hv.
  assert (Hb := first_day_bounds y m Hv).
  destruct (xldate_as_tuple_rounded (inject_Z (first_day (y, m))))
    as (y' & m' & d' & hh & mm & ss & Hymd & Hx).
  { rewrite rounded_day_integer. lia. }
  rewrite rounded_day_integer, first_day_roundtrip in Hymd by exact Hv.
  injection Hymd as <- <- <-. now exists hh, mm, ss.
Qed.

(** One pass of the loop at the first day of a valid month. *)
Lemma xticks_loop_pass (fuel : nat) (self : Hydrograph) (i : Z) (ym : Z * Z)
    (acc : xticks_info) :
  valid_month ym ->
  self.(date_labels_pattern) <> 0 ->
  (self.(datemode) = Year -> valid_month (tick_step Year ym)) ->
  loop (S fuel) self i (first_day ym) acc
  = if first_day (tick_step self.(datemode) ym) >? self.(TIMEmax)
    then Some (Ok (after_pass (offset self) self i ym acc))
    else loop fuel self (i + 1) (first_day (tick_step self.(datemode) ym))
           (after_pass (offset self) self i ym acc).
Proof.
  intros Hv Hp Hy.
  destruct (xldate_as_tuple_first_day ym Hv) as (hh & mm & ss & Hx).
  destruct ym as [ y m ]. cbn [fst snd] in Hx.
  assert (Hm : 1 <= m <= 12) by (destruct Hv; assumption).
  assert (Hyr : 1900 <= y <= 9999) by (destruct Hv; lia).
  destruct (year_digits y Hyr) as [ H2 H4 ].
  subst loop. cbn [xticks_loop]. rewrite Hx, (monthrange_days y m Hm).
  destruct (Z.eqb_spec (date_labels_pattern self) 0) as [ E | _ ];
    [ contradiction | ].
  unfold after_pass, tick_label. fold offset. cbn [fst snd].
  rewrite H2, H4, month_name_getitem by exact Hm.
  destruct (datemode self) eqn:Hmode.
  - cbn [tick_step rbind]. rewrite first_day_next_month by exact Hm.
    destruct (i mod date_labels_pattern self =? 0); reflexivity.
  - cbn [tick_step rbind fst].
    specialize (Hy eq_refl). cbn [tick_step fst] in Hy.
    rewrite (xldate_from_first_day (y + 1) 1 Hy).
    destruct (i mod date_labels_pattern self =? 0); reflexivity.
Qed.

Lemma ticks_of_succ (self : Hydrograph) (start : Z * Z) (j : nat) :
  ticks_of (offset self) self start (S j)
  = after_pass (offset self) self (Z.of_nat j)
      (tick_month self.(datemode) start j)
      (ticks_of (offset self) self start j).
Proof.
  unfold ticks_of, after_pass. rewrite seq_S, filter_app, !map_app.
  cbn [Nat.add filter].
  change (Z.of_nat j mod date_labels_pattern self =? 0) with (is_major self j).
  destruct (is_major self j);
    cbn [map xticks_position xticks_labels_position xticks_labels
         xticks_minor_position];
    rewrite ?app_nil_r; reflexivity.
Qed.

(** The loop from the [j]-th tick on, when [n] ticks fit. *)
Lemma xticks_loop_walk (self : Hydrograph) (start : Z * Z) (n : nat) :
  self.(date_labels_pattern) <> 0 ->
  (forall k, (k < n)%nat -> valid_month (tick_month self.(datemode) start k)) ->
  (forall k, (S k < n)%nat ->
             first_day (tick_month self.(datemode) start (S k)) <= self.(TIMEmax)) ->
  self.(TIMEmax) < first_day (tick_month self.(datemode) start n) ->
  (self.(datemode) = Year -> valid_month (tick_month Year start n)) ->
  forall r j fuel,
    (j + S r = n)%nat -> (S r <= fuel)%nat ->
    loop fuel self (Z.of_nat j) (first_day (tick_month self.(datemode) start j))
      (ticks_of (offset self) self start j)
    = Some (Ok (ticks_of (offset self) self start n)).
Proof.
  intros Hp Hvalid Hcont Hstop Hlast.
  induction r as [ | r IH ]; intros j fuel Hj Hfuel;
    (destruct fuel as [ | fuel ]; [ lia | ]).
  - rewrite xticks_loop_pass; [ | apply Hvalid; lia | exact Hp | ].
    + change (tick_step (datemode self) (tick_month (datemode self) start j))
        with (tick_month (datemode self) start (S j)).
      replace (S j) with n by lia.
      replace (first_day (tick_month (datemode self) start n) >? TIMEmax self)
        with true by (symmetry; rewrite Z.gtb_ltb; apply Z.ltb_lt; exact Hstop).
      replace n with (S j) by lia. now rewrite ticks_of_succ.
    + intros Hy. rewrite Hy in *.
      change (tick_step Year (tick_month Year start j))
        with (tick_month Year start (S j)).
      replace (S j) with n by lia. now apply Hlast.
  - rewrite xticks_loop_pass; [ | apply Hvalid; lia | exact Hp | ].
    + change (tick_step (datemode self) (tick_month (datemode self) start j))
        with (tick_month (datemode self) start (S j)).
      replace (first_day (tick_month (datemode self) start (S j)) >? TIMEmax self)
        with false
        by (symmetry; rewrite Z.gtb_ltb; apply Z.ltb_ge; apply Hcont; lia).
      rewrite <- ticks_of_succ.
      replace (Z.of_nat j + 1) with (Z.of_nat (S j)) by lia.
      apply IH; lia.
    + intros Hy. rewrite Hy in *.
      change (tick_step Year (tick_month Year start j))
        with (tick_month Year start (S j)).
      apply Hvalid. lia.
Qed.

Lemma first_day_mono_le (a b : Z * Z) :
  1 <= snd a <= 12 -> 1 <= snd b <= 12 ->
  month_index a <= month_index b -> first_day a <= first_day b.
Proof.
  destruct a as [ y1 m1 ], b as [ y2 m2 ]. unfold month_index. cbn [fst snd].
  intros H1 H2 Hle.
  destruct (Z.eq_dec (12 * y1 + m1) (12 * y2 + m2)) as [ E | NE ].
  - assert (y1 = y2 /\ m1 = m2) as [ -> -> ] by lia. lia.
  - apply Z.lt_le_incl. apply first_day_mono; lia.
Qed.

Lemma tick_month_by_month (start : Z * Z) (k : nat) :
  1 <= snd start <= 12 ->
  1 <= snd (tick_month Month start k) <= 12
  /\ month_index (tick_month Month start k) = month_index start + Z.of_nat k.
Proof.
  intros Hs. induction k as [ | k IH ]; [ cbn; lia | ].
  change (tick_month Month start (S k))
    with (next_month (tick_month Month start k)).
  destruct (tick_month Month start k) as [ y m ]. cbn [fst snd] in IH.
  destruct IH as [ Hm Hi ].
  assert (Hn := next_month_index y m Hm).
  destruct (next_month (y, m)) as [ y' m' ].
  unfold month_index in *. cbn [fst snd] in *. lia.
Qed.

Lemma tick_month_by_year (start : Z * Z) (k : nat) :
  tick_month Year start (S k) = (fst start + Z.of_nat (S k), 1).
Proof.
  induction k as [ | k IH ]; [ reflexivity | ].
  change (tick_month Year start (S (S k)))
    with (tick_step Year (tick_month Year start (S k))).
  rewrite IH. unfold tick_step. cbn [fst]. f_equal. lia.
Qed.

Lemma valid_month_index (ym : Z * Z) :
  valid_month ym
  <-> 1 <= snd ym <= 12 /\ 12 * 1900 + 3 <= month_index ym <= 12 * 9999 + 12.
Proof. destruct ym as [ y m ]. reflexivity. Qed.

End TickWalk.

(** C6 (amended).  Let the bounds of the time axis be the first days of
    two months, [start] on or before [stop], between March 1900 and December
    9999, with a label pattern of at least one (and, by year, a last year
    before 9999).  [make_xticks_info] walks from [start] a month at a time
    or, by year, to each following 1 January (a year at a time when [start]
    is a January); it emits a minor tick at every step on or before [stop]
    (one per month from [start] to [stop], or one per year from the year of
    [start] to the year of [stop]) and a major tick with its label at every
    [date_labels_pattern]-th step, the first included: the short month
    name, a space, an apostrophe and the two last digits of the year, or
    the four digits of the year. *)
Theorem make_xticks_info_ticks
    (sin_45 : Q) (txt_bbox ax_bbox : Bbox) (self : Hydrograph)
    (start stop : Z * Z) :
  valid_month start -> valid_month stop ->
  (month_index start <= month_index stop)%Z ->
  self.(TIMEmin) = first_day start ->
  self.(TIMEmax) = first_day stop ->
  (1 <= self.(date_labels_pattern))%Z ->
  (self.(datemode) = Year -> fst stop <= 9998)%Z ->
  let n := tick_count self.(datemode) start stop in
  let tick := tick_month self.(datemode) start in
  (1 <= n)%nat
  /\ (forall fuel, (n <= fuel)%nat ->
                   make_xticks_info sin_45 txt_bbox ax_bbox fuel self
                   = Some (Ok (ticks_of
                                 (xticks_labels_offset sin_45 txt_bbox ax_bbox self)
                                 self start n)))
  /\ (first_day (tick (n - 1)%nat) <= self.(TIMEmax) < first_day (tick n))%Z
  /\ (self.(datemode) = Month ->
      forall k, month_index (tick k) = (month_index start + Z.of_nat k)%Z
                /\ (1 <= snd (tick k) <= 12)%Z)
  /\ (self.(datemode) = Year ->
      (forall k, tick (S k) = ((fst start + Z.of_nat (S k))%Z, 1%Z))
      /\ (snd start = 1%Z ->
          forall k, tick k = ((fst start + Z.of_nat k)%Z, 1%Z))).
Proof.
  intros Hv0 Hv1 Hle Hmin Hmax Hp Hy n tick.
  apply valid_month_index in Hv0, Hv1.
  destruct Hv0 as [ Hm0 Hi0 ], Hv1 as [ Hm1 Hi1 ].
  assert (Hmonth : forall k, (1 <= snd (tick_month Month start k) <= 12)%Z
                             /\ month_index (tick_month Month start k)
                                = (month_index start + Z.of_nat k)%Z)
    by (intros k; now apply tick_month_by_month).
  assert (Hyear := tick_month_by_year start).
  assert (Hys : (fst start <= fst stop)%Z) by (unfold month_index in *; lia).
  assert (Hn : (1 <= n)%nat) by (subst n; unfold tick_count; destruct (datemode self); lia).
  assert (Hvalid : forall k, (k < n)%nat -> valid_month (tick k)).
  { intros k Hk. apply valid_month_index. subst n tick. unfold tick_count in Hk.
    destruct (datemode self).
    - destruct (Hmonth k) as [ Hm Hi ]. split; [ exact Hm | ]. lia.
    - destruct k as [ | k ]; [ cbn; lia | ].
      rewrite Hyear. unfold month_index in *. cbn [fst snd]. lia. }
  assert (Hcont : forall k, (S k < n)%nat -> (first_day (tick (S k)) <= TIMEmax self)%Z).
  { intros k Hk. rewrite Hmax. subst n tick. unfold tick_count in Hk.
    destruct (datemode self).
    - destruct (Hmonth (S k)) as [ Hm Hi ].
      apply first_day_mono_le; [ exact Hm | exact Hm1 | lia ].
    - rewrite Hyear. apply first_day_mono_le; [ cbn; lia | exact Hm1 | ].
      unfold month_index in *. cbn [fst snd]. lia. }
  assert (Hstop : (TIMEmax self < first_day (tick n))%Z).
  { rewrite Hmax. subst n tick. unfold tick_count.
    destruct stop as [ ye me ]. cbn [fst snd] in *.
    destruct (datemode self).
    - destruct (Hmonth (Z.to_nat (month_index (ye, me) - month_index start + 1)))
        as [ Hm Hi ].
      destruct (tick_month Month start _) as [ y m ].
      unfold month_index in *. cbn [fst snd] in *.
      apply first_day_mono; lia.
    - destruct (Z.to_nat (ye - fst start + 1)) as [ | k ] eqn:Ek; [ lia | ].
      rewrite Hyear. apply first_day_mono; lia. }
  assert (Hlast : datemode self = Year -> valid_month (tick_month Year start n)).
  { intros E. specialize (Hy E). subst n. rewrite E. unfold tick_count.
    destruct (Z.to_nat (fst stop - fst start + 1)) as [ | k ] eqn:Ek; [ lia | ].
    rewrite Hyear. apply valid_month_index.
    unfold month_index in *. cbn [fst snd]. lia. }
  split; [ exact Hn | ]. split; [ | split; [ | split ] ].
  - intros fuel Hfuel. unfold make_xticks_info. rewrite Hmin.
    destruct n as [ | r ] eqn:En; [ lia | ].
    apply (xticks_loop_walk sin_45 txt_bbox ax_bbox self start (S r)
             ltac:(lia) Hvalid Hcont Hstop Hlast r 0%nat fuel);
      [ reflexivity | exact Hfuel ].
  - split; [ | exact Hstop ].
    destruct n as [ | r ] eqn:En; [ lia | ].
    replace (S r - 1)%nat with r by lia.
    destruct r as [ | r ].
    + subst tick. cbn [tick_month Nat.iter]. rewrite Hmax.
      apply first_day_mono_le; assumption.
    + apply Hcont. lia.
  - intros E k. subst tick. rewrite E. destruct (Hmonth k). now split.
  - intros E. subst tick. rewrite E. split; [ exact Hyear | ].
    intros Hjan [ | k ]; [ | apply Hyear ].
    destruct start as [ ys ms ]. cbn [fst snd] in *. subst ms.
    unfold tick_month. cbn [Nat.iter nat_rect Z.of_nat]. now rewrite Z.add_0_r.
Qed.

(** The statement of C6 (amended) from January 2000 to January 2001 by
    month: thirteen minor ticks, seven of them labelled. *)
Lemma make_xticks_info_ticks_witness :
  valid_month (2000, 1)%Z /\ valid_month (2001, 1)%Z
  /\ (month_index (2000, 1) <= month_index (2001, 1))%Z
  /\ by_month_2000.(TIMEmin) = first_day (2000, 1)%Z
  /\ by_month_2000.(TIMEmax) = first_day (2001, 1)%Z
  /\ (1 <= by_month_2000.(date_labels_pattern))%Z
  /\ exists out,
       make_xticks_info 0.7071 sample_text sample_axes 13 by_month_2000
       = Some (Ok out)
       /\ length out.(xticks_minor_position) = 13%nat
       /\ out.(xticks_labels)
          = ["JAN '00"; "MAR '00"; "MAY '00"; "JUL '00"; "SEP '00"; "NOV '00";
             "JAN '01"]%string.
Proof.
  assert (Hv0 : valid_month (2000, 1)%Z) by (cbn; lia).
  assert (Hv1 : valid_month (2001, 1)%Z) by (cbn; lia).
  assert (Hle : (month_index (2000, 1) <= month_index (2001, 1))%Z)
    by (vm_compute; discriminate).
  assert (Hp : (1 <= by_month_2000.(date_labels_pattern))%Z)
    by (vm_compute; discriminate).
  assert (Hy : (by_month_2000.(datemode) = Year -> fst (2001, 1) <= 9998)%Z)
    by (intros _; vm_compute; discriminate).
  repeat (split; [ assumption || reflexivity | ]).
  destruct (make_xticks_info_ticks 0.7071 sample_text sample_axes by_month_2000
              (2000, 1)%Z (2001, 1)%Z Hv0 Hv1 Hle eq_refl eq_refl Hp Hy)
    as (_ & Hrun & _).
  eexists. split; [ apply Hrun; vm_compute; lia | ].
  split; vm_compute; reflexivity.
Defined.

(** C6 as stated fails by year when the start is not a 1 January.  From
    1 March 2000 to 1 January 2002 the minor ticks are 1 March 2000,
    1 January 2001 and 1 January 2002: the first step is ten months long,
    and there are three ticks where steps of one year from the start give
    two (1 March 2000 and 1 March 2001).  By year over 9999 the walk raises
    an error at the step to the year 10000. *)
Lemma make_xticks_info_year_from_march :
  by_year_from_march.(TIMEmin) = first_day (2000, 3)%Z
  /\ by_year_from_march.(TIMEmax) = first_day (2002, 1)%Z
  /\ (exists out,
        make_xticks_info 0.7071 sample_text sample_axes 3 by_year_from_march
        = Some (Ok out)
        /\ out.(xticks_minor_position)
           = [first_day (2000, 3); first_day (2001, 1); first_day (2002, 1)]%Z
        /\ out.(xticks_labels) = ["2000"; "2002"]%string)
  /\ first_day (2001, 1)%Z <> first_day (2001, 3)%Z
  /\ (by_year_from_march.(TIMEmax) < first_day (2002, 3))%Z
  /\ make_xticks_info 0.7071 sample_text sample_axes 3 by_year_9999
     = Some (Raise XLDateBadTuple).
Proof.
  split; [ reflexivity | ]. split; [ reflexivity | ]. split.
  - eexists. split; [ vm_compute; reflexivity | ]. split; reflexivity.
  - split; [ vm_compute; discriminate | ].
    split; [ reflexivity | vm_compute; reflexivity ].
Qed.

(** ** Worked examples *)

(** Seven samples in bins of two: the seventh is left out. *)
Example bin_sum_seven :
  bin_sum (map (fun v => Some (inject_Z v)) [1; 2; 3; 4; 5; 6; 7]%Z) 2
  = Ok [Some 3; Some 7; Some 11].
Proof. vm_compute. reflexivity. Qed.

(** A NaN poisons the sum of its bin only. *)
Example bin_sum_nan :
  bin_sum [Some 1; None; Some 3; Some 4] 2 = Ok [None; Some 7].
Proof. vm_compute. reflexivity. Qed.

(** In the masl datum the levels 2 and 12 below a surface at 100 are the
    elevations 98 and 88: the scale is 3.3 and the origin
    [floor (88 / 3.3) * 3.3 = 26 * 3.3]. *)
Example best_fit_waterlvl_masl :
  fitted_values masl_record = [100 - 2; 100 - 12]
  /\ exists step origin,
       fst (best_fit_waterlvl masl_record) = Ok (step, origin)
       /\ step == 3.3 /\ origin == 26 * 3.3.
Proof.
  split; [ reflexivity | ].
  do 2 eexists. split; [ vm_compute; reflexivity | ]. split; reflexivity.
Qed.

(** French month names on the labels. *)
Example make_xticks_info_french :
  exists out,
    make_xticks_info 0.7071 sample_text sample_axes 13 french_2000 = Some (Ok out)
    /\ out.(xticks_labels)
       = ["JAN '00"; "MAR '00"; "MAI '00"; "JUL '00"; "SEP '00"; "NOV '00";
          "JAN '01"]%string.
Proof. eexists. split; vm_compute; reflexivity. Qed.

(** Without enough passes the loop has not reached its [break]. *)
Example make_xticks_info_out_of_fuel :
  make_xticks_info 0.7071 sample_text sample_axes 12 by_month_2000 = None.
Proof. vm_compute. reflexivity. Qed.

(** A record shorter than the bin width leaves no bin. *)
Example resample_bin_short :
  fst (resample_bin ten_days_monthly) = Ok tt
  /\ (snd (resample_bin ten_days_monthly)).(bwidth) = 30%Z
  /\ (snd (resample_bin ten_days_monthly)).(bPTOT) = [].
Proof.
  split; [ vm_compute; reflexivity | ].
  split; vm_compute; reflexivity.
Qed.

(** A label on every third tick. *)
Example make_xticks_info_every_third :
  exists out,
    make_xticks_info 0.7071 sample_text sample_axes 13 every_third = Some (Ok out)
    /\ out.(xticks_position) = [36526; 36617; 36708; 36800; 36892]%Z
    /\ out.(xticks_labels)
       = ["JAN '00"; "APR '00"; "JUL '00"; "OCT '00"; "JAN '01"]%string.
Proof.
  eexists. split; [ vm_compute; reflexivity | ].
  split; vm_compute; reflexivity.
Qed.

(** * Further properties *)

(** ** The time axis by year *)

Section YearScale.

Local Open Scope Z_scope.

(** An integral day number is dated as the day itself. *)
Lemma xldate_as_tuple_day (x : Z) :
  61 <= x < 2958466 ->
  exists y m d hh mm ss,
    Xldate.ymd_of_xldays x = (y, m, d)
    /\ Xldate.xldate_as_tuple (inject_Z x) = Ok (y, m, d, hh, mm, ss).
Proof.
  intros Hx.
  destruct (xldate_as_tuple_rounded (inject_Z x))
    as (y & m & d & hh & mm & ss & Hymd & Hrun).
  { rewrite rounded_day_integer. exact Hx. }
  rewrite rounded_day_integer in Hymd.
  exists y, m, d, hh, mm, ss. now split.
Qed.

(** A day falls between the 1 January of its year and the next one, and
    is that 1 January exactly when its month and day are both 1. *)
Lemma day_in_year (x y m d : Z) :
  61 <= x < 2958466 ->
  Xldate.ymd_of_xldays x = (y, m, d) ->
  1900 <= y <= 9999
  /\ first_day (y, 1) <= x < first_day (y + 1, 1)
  /\ ((m =? 1) && (d =? 1) = (x =? first_day (y, 1))).
Proof.
  intros Hx Hymd.
  assert (Hr := ymd_of_xldays_roundtrip x Hx).
  assert (Hd := day_in_month x Hx).
  rewrite Hymd in Hr, Hd.
  destruct Hr as (_ & Hm & _ & Hy).
  destruct Hd as (_ & Hin & Hday).
  assert (Hn := next_month_index y m Hm).
  destruct (next_month (y, m)) as [ y' m' ]. destruct Hn as [ Hm' Hi' ].
  assert (Hlo : first_day (y, 1) <= first_day (y, m))
    by (apply first_day_mono_le; unfold month_index; cbn [fst snd]; lia).
  assert (Hhi : first_day (y', m') <= first_day (y + 1, 1))
    by (apply first_day_mono_le; unfold month_index; cbn [fst snd]; lia).
  split; [ exact Hy | ]. split; [ lia | ].
  destruct (Z.eqb_spec m 1) as [ -> | Hm1 ]; cbn [andb].
  - destruct (Z.eqb_spec d 1), (Z.eqb_spec x (first_day (y, 1))); try reflexivity; lia.
  - assert (first_day (y, 1) < first_day (y, m)) by (apply first_day_mono; lia).
    symmetry. apply Z.eqb_neq. lia.
Qed.

Lemma year_of_bounds (x : Z) :
  61 <= x < 2958466 ->
  1900 <= year_of x <= 9999 /\ year_start x <= x < first_day (year_of x + 1, 1).
Proof.
  intros Hx. unfold year_start, year_of.
  destruct (Xldate.ymd_of_xldays x) as [ [ y m ] d ] eqn:Hymd.
  destruct (day_in_year x y m d Hx Hymd) as (Hy & Hin & _). now split.
Qed.

Lemma year_of_new_year (y : Z) :
  1901 <= y <= 9999 -> year_of (first_day (y, 1)) = y.
Proof.
  intros Hy. unfold year_of. rewrite first_day_roundtrip; [ reflexivity | ].
  apply valid_month_index. unfold month_index. cbn [fst snd]. lia.
Qed.

Lemma new_year_mono (y1 y2 : Z) :
  y1 <= y2 <-> first_day (y1, 1) <= first_day (y2, 1).
Proof.
  split; intros H.
  - apply first_day_mono_le; unfold month_index; cbn [fst snd]; lia.
  - destruct (Z.le_gt_cases y1 y2) as [ Hle | Hgt ]; [ exact Hle | ].
    assert (first_day (y2, 1) < first_day (y1, 1)) by (apply first_day_mono; lia).
    lia.
Qed.

(** The first 1 January on or after a day. *)
Lemma year_end_spec (x : Z) :
  61 <= x < 2958466 ->
  exists y, year_end x = first_day (y, 1)
            /\ 1901 <= y <= 10000
            /\ first_day (y - 1, 1) < x <= first_day (y, 1).
Proof.
  intros Hx. destruct (year_of_bounds x Hx) as (Hy & Hlo & Hhi).
  unfold year_end. destruct (Z.eqb_spec x (year_start x)) as [ E | NE ].
  - exists (year_of x). unfold year_start in *.
    assert (H1 : first_day (1900, 1) = 2) by reflexivity.
    assert (year_of x <> 1900) by (intros E'; rewrite E' in E; lia).
    assert (first_day (year_of x - 1, 1) < first_day (year_of x, 1))
      by (apply first_day_mono; lia).
    repeat split; lia.
  - exists (year_of x + 1). replace (year_of x + 1 - 1) with (year_of x) by lia.
    unfold year_start in *. repeat split; lia.
Qed.

(** What [set_time_scale] does by year to bounds that can be dated. *)
Lemma set_time_scale_run (self : Hydrograph) :
  self.(datemode) = Year ->
  367 <= self.(TIMEmin) < 2958466 ->
  61 <= self.(TIMEmax) <= 2958101 ->
  set_time_scale self
  = (Ok tt, with_TIMEmax (year_end self.(TIMEmax))
              (with_TIMEmin (year_start self.(TIMEmin)) self)).
Proof.
  intros Hmode Hmin Hmax.
  assert (Hmin' : 61 <= TIMEmin self < 2958466) by lia.
  assert (Hmax' : 61 <= TIMEmax self < 2958466) by lia.
  destruct (xldate_as_tuple_day _ Hmin') as (y0 & m0 & d0 & hh0 & mm0 & ss0 & Hymd0 & Hx0).
  destruct (xldate_as_tuple_day _ Hmax') as (y1 & m1 & d1 & hh1 & mm1 & ss1 & Hymd1 & Hx1).
  destruct (day_in_year _ _ _ _ Hmin' Hymd0) as (Hy0 & Hin0 & _).
  destruct (day_in_year _ _ _ _ Hmax' Hymd1) as (Hy1 & Hin1 & Hjan1).
  assert (H1901 : first_day (1901, 1) = 367) by reflexivity.
  assert (H9999 : first_day (9999, 1) = 2958101) by reflexivity.
  assert (Hy0' : 1901 <= y0).
  { destruct (Z.le_gt_cases 1901 y0) as [ H | H ]; [ exact H | ].
    assert (first_day (y0 + 1, 1) <= first_day (1901, 1))
      by (apply (proj1 (new_year_mono _ _)); lia).
    lia. }
  assert (Hv0 : valid_month (y0, 1))
    by (apply valid_month_index; unfold month_index; cbn [fst snd]; lia).
  unfold set_time_scale, bind, get, lift, modify, ret.
  rewrite Hmode, Hx0, (xldate_from_first_day y0 1 Hv0), Hx1, Hjan1.
  unfold year_end, year_start, year_of. rewrite Hymd0, Hymd1.
  destruct (Z.eqb_spec (TIMEmax self) (first_day (y1, 1))) as [ E | NE ].
  - reflexivity.
  - assert (Hy1' : y1 + 1 <= 9999).
    { destruct (Z.le_gt_cases (y1 + 1) 9999) as [ H | H ]; [ exact H | ].
      assert (first_day (9999, 1) <= first_day (y1, 1))
        by (apply (proj1 (new_year_mono _ _)); lia).
      lia. }
    assert (Hv1 : valid_month (y1 + 1, 1))
      by (apply valid_month_index; unfold month_index; cbn [fst snd]; lia).
    rewrite (xldate_from_first_day (y1 + 1) 1 Hv1). reflexivity.
Qed.

End YearScale.

(** X1.  [set_time_scale] leaves the bounds of the axis alone by month.
    By year it moves the start back to the 1 January of its year and the
    end forward to the first 1 January on or after it, and changes nothing
    else; a start in 1900 cannot be moved and raises the error of the
    ambiguous dates before March 1900, the object being left as it was. *)
Theorem set_time_scale_whole_years (self : Hydrograph) :
  (self.(datemode) = Month -> set_time_scale self = (Ok tt, self))
  /\ (self.(datemode) = Year ->
      (367 <= self.(TIMEmin) < 2958466)%Z ->
      (61 <= self.(TIMEmax) <= 2958101)%Z ->
      exists y0 y1 : Z,
        set_time_scale self
        = (Ok tt, with_TIMEmax (first_day (y1, 1%Z))
                    (with_TIMEmin (first_day (y0, 1%Z)) self))
        /\ (first_day (y0, 1) <= self.(TIMEmin) < first_day (y0 + 1, 1))%Z
        /\ (first_day (y1 - 1, 1) < self.(TIMEmax) <= first_day (y1, 1))%Z)
  /\ (self.(datemode) = Year ->
      (61 <= self.(TIMEmin) < 367)%Z ->
      set_time_scale self = (Raise XLDateAmbiguous, self)).
Proof.
  split; [ | split ].
  - intros Hmode. unfold set_time_scale, bind, get, ret. now rewrite Hmode.
  - intros Hmode Hmin Hmax.
    rewrite (set_time_scale_run self Hmode Hmin Hmax).
    destruct (year_of_bounds (TIMEmin self)) as (_ & Hin); [ lia | ].
    destruct (year_end_spec (TIMEmax self)) as (y1 & E1 & _ & Hin1); [ lia | ].
    exists (year_of (TIMEmin self)), y1. rewrite E1.
    split; [ reflexivity | ]. split; [ exact Hin | exact Hin1 ].
  - intros Hmode Hmin.
    assert (Hmin' : (61 <= TIMEmin self < 2958466)%Z) by lia.
    destruct (xldate_as_tuple_day _ Hmin')
      as (y0 & m0 & d0 & hh0 & mm0 & ss0 & Hymd0 & Hx0).
    destruct (day_in_year _ _ _ _ Hmin' Hymd0) as (Hy0 & Hin0 & _).
    assert (H1901 : first_day (1901, 1)%Z = 367%Z) by reflexivity.
    assert (E : y0 = 1900%Z).
    { destruct (Z.le_gt_cases 1901 y0) as [ H | H ]; [ | lia ].
      apply new_year_mono in H. lia. }
    subst y0.
    unfold set_time_scale, bind, get, lift. rewrite Hmode, Hx0. reflexivity.
Qed.

(** The statement of X1 for an axis from 15 June 2000 to 20 March 2003 by
    year, which becomes 1 January 2000 to 1 January 2004, and for a start
    on 1 July 1900. *)
Lemma set_time_scale_whole_years_witness :
  (snd (set_time_scale june_to_march)).(TIMEmin) = first_day (2000, 1)%Z
  /\ (snd (set_time_scale june_to_march)).(TIMEmax) = first_day (2004, 1)%Z
  /\ set_time_scale from_july_1900 = (Raise XLDateAmbiguous, from_july_1900).
Proof.
  destruct (set_time_scale_whole_years june_to_march) as (_ & Hyear & _).
  destruct (Hyear eq_refl) as (y0 & y1 & Hrun & Hin0 & Hin1);
    [ vm_compute; split; [ discriminate | reflexivity ]
    | vm_compute; split; discriminate | ].
  split; [ vm_compute; reflexivity | ]. split; [ vm_compute; reflexivity | ].
  destruct (set_time_scale_whole_years from_july_1900) as (_ & _ & H1900).
  apply H1900; [ reflexivity | vm_compute; split; [ discriminate | reflexivity ] ].
Defined.



Lemma tick_month_from_january (y0 : Z) (k : nat) :
  tick_month Year (y0, 1%Z) k = ((y0 + Z.of_nat k)%Z, 1%Z).
Proof.
  destruct k as [ | k ]; [ | apply tick_month_by_year ].
  cbn [tick_month Nat.iter nat_rect Z.of_nat]. now rewrite Z.add_0_r.
Qed.

(** X3.  By year, the ticks made after [set_time_scale] are the
    1 Januaries from the start of the axis to its end, both included: one
    minor tick per year, [TIMEmin] the first and [TIMEmax] the last, and
    the four digits of the year on every [date_labels_pattern]-th of
    them. *)
Theorem set_time_scale_year_ticks
    (sin_45 : Q) (txt_bbox ax_bbox : Bbox) (self : Hydrograph) :
  self.(datemode) = Year ->
  (367 <= self.(TIMEmin))%Z ->
  (self.(TIMEmin) <= self.(TIMEmax))%Z ->
  (self.(TIMEmax) <= 2957736)%Z ->
  self.(date_labels_pattern) <> 0%Z ->
  let self' := snd (set_time_scale self) in
  exists (y0 : Z) (n : nat) (out : xticks_info),
    fst (set_time_scale self) = Ok tt
    /\ (1 <= n)%nat
    /\ self'.(TIMEmin) = first_day (y0, 1%Z)
    /\ self'.(TIMEmax) = first_day ((y0 + Z.of_nat n - 1)%Z, 1%Z)
    /\ (forall fuel, (n <= fuel)%nat ->
          make_xticks_info sin_45 txt_bbox ax_bbox fuel self' = Some (Ok out))
    /\ out.(xticks_minor_position)
       = map (fun k => first_day ((y0 + Z.of_nat k)%Z, 1%Z)) (seq 0 n)
    /\ out.(xticks_position)
       = map (fun k => first_day ((y0 + Z.of_nat k)%Z, 1%Z))
             (filter (is_major self) (seq 0 n))
    /\ out.(xticks_labels)
       = map (fun k => four_digits (y0 + Z.of_nat k))
             (filter (is_major self) (seq 0 n)).
Proof.
  intros Hmode Hmin Hle Hmax Hp self'.
  assert (H9998 : first_day (9998, 1)%Z = 2957736%Z) by reflexivity.
  assert (H1901 : first_day (1901, 1)%Z = 367%Z) by reflexivity.
  destruct (set_time_scale_whole_years self) as (_ & Hyear & _).
  destruct (Hyear Hmode) as (y0 & y1 & Hrun & Hin0 & Hin1); [ lia | lia | ].
  assert (Hy0 : (1901 <= y0)%Z).
  { destruct (Z.le_gt_cases 1901 y0) as [ H | H ]; [ exact H | ].
    assert (first_day (y0 + 1, 1) <= first_day (1901, 1))%Z
      by (apply (proj1 (new_year_mono _ _)); lia).
    lia. }
  assert (Hy1 : (y1 <= 9998)%Z).
  { destruct (Z.le_gt_cases y1 9998) as [ H | H ]; [ exact H | ].
    assert (first_day (9998, 1) <= first_day (y1 - 1, 1))%Z
      by (apply (proj1 (new_year_mono _ _)); lia).
    lia. }
  assert (Hy01 : (y0 <= y1)%Z) by (apply new_year_mono; lia).
  set (n := Z.to_nat (y1 - y0 + 1)).
  subst self'. rewrite Hrun. cbn [fst snd].
  set (self' := with_TIMEmax _ _).
  assert (Hmode' : datemode self' = Year) by exact Hmode.
  exists y0, n,
    (ticks_of (xticks_labels_offset sin_45 txt_bbox ax_bbox self') self' (y0, 1%Z) n).
  split; [ reflexivity | ]. split; [ subst n; lia | ].
  split; [ reflexivity | ].
  split.
  { change (TIMEmax self') with (first_day (y1, 1%Z)).
    replace (y0 + Z.of_nat n - 1)%Z with y1 by (subst n; lia). reflexivity. }
  split.
  - intros fuel Hfuel. unfold make_xticks_info.
    assert (Hn : (1 <= n)%nat) by (subst n; lia).
    apply (xticks_loop_walk sin_45 txt_bbox ax_bbox self' (y0, 1%Z) n Hp)
      with (r := (n - 1)%nat) (j := 0%nat); try rewrite Hmode'; try lia.
    + intros k Hk. rewrite tick_month_from_january.
      apply valid_month_index. unfold month_index. cbn [fst snd]. lia.
    + intros k Hk. rewrite tick_month_from_january.
      change (TIMEmax self') with (first_day (y1, 1%Z)).
      apply (proj1 (new_year_mono _ _)). lia.
    + rewrite tick_month_from_january.
      change (TIMEmax self') with (first_day (y1, 1%Z)).
      apply first_day_mono; lia.
    + intros _. rewrite tick_month_from_january.
      apply valid_month_index. unfold month_index. cbn [fst snd]. lia.
  - unfold ticks_of. rewrite Hmode'.
    cbn [xticks_minor_position xticks_position xticks_labels].
    rewrite !map_map.
    split; [ | split ]; apply map_ext; intros k;
      rewrite tick_month_from_january; try reflexivity.
    unfold tick_label. now rewrite Hmode'.
Qed.

(** The statement of X3 for the axis from 15 June 2000 to 20 March 2003:
    five ticks, 1 January 2000 to 1 January 2004. *)
Lemma set_time_scale_year_ticks_witness :
  exists (y0 : Z) (n : nat) (out : xticks_info),
    fst (set_time_scale june_to_march) = Ok tt
    /\ (1 <= n)%nat
    /\ (snd (set_time_scale june_to_march)).(TIMEmin) = first_day (y0, 1%Z)
    /\ (forall fuel, (n <= fuel)%nat ->
          make_xticks_info 0.7071 sample_text sample_axes fuel
            (snd (set_time_scale june_to_march)) = Some (Ok out))
    /\ out.(xticks_minor_position)
       = map (fun k => first_day ((y0 + Z.of_nat k)%Z, 1%Z)) (seq 0 n).
Proof.
  destruct (set_time_scale_year_ticks 0.7071 sample_text sample_axes june_to_march)
    as (y0 & n & out & H1 & H2 & H3 & _ & H4 & H5 & _);
    [ reflexivity | vm_compute; discriminate | vm_compute; discriminate
    | vm_compute; discriminate | vm_compute; discriminate | ].
  exists y0, n, out. repeat (split; [ assumption | ]). exact H5.
Defined.

(** ** The fitted time range *)

Section TimeCover.

(** The date of a positive instant, whatever its day. *)
Lemma xldate_as_tuple_cases (t : Q) :
  0 < t ->
  exists hh mm ss,
    Xldate.xldate_as_tuple t
    = let xldays := rounded_day t in
      if (xldays >=? Xldate._XLDAYS_TOO_LARGE)%Z then Raise XLDateTooLarge
      else if (xldays =? 0)%Z then Ok (0, 0, 0, hh, mm, ss)%Z
      else if (xldays <? 61)%Z then Raise XLDateAmbiguous
      else let '(y, m, d) := Xldate.ymd_of_xldays xldays in
           Ok (y, m, d, hh, mm, ss).
Proof.
  intros Hpos. unfold rounded_day.
  unfold Xldate.xldate_as_tuple, Xldate.Qlt_bool.
  replace (Qeq_bool t 0) with false.
  2:{ symmetry. destruct (Qeq_bool t 0) eqn:E; [ | reflexivity ].
      apply Qeq_bool_iff in E. lra. }
  replace (Qle_bool 0 t) with true by (symmetry; apply Qle_bool_iff; lra).
  cbn [negb]. rewrite py_int_floor by lra.
  set (f := Qfloor t) in *.
  assert (Hf1 := Qfloor_le t). assert (Hf2 := Qlt_floor t).
  rewrite inject_Z_plus in Hf2. change (inject_Z 1) with 1 in Hf2. fold f in Hf1, Hf2.
  set (u := (t - inject_Z f) * 86400).
  assert (Hu0 : 0 <= u) by (subst u; lra).
  assert (Hu1 : u < 86400) by (subst u; lra).
  destruct (py_round_seconds u Hu0 Hu1) as [ Hlow Hhigh ].
  destruct (Qlt_le_dec u 86399.5) as [ Hlt | Hge ].
  - specialize (Hlow Hlt).
    replace (Py.round u =? 86400)%Z with false
      by (symmetry; apply Z.eqb_neq; exact Hlow).
    assert (Hday : Qfloor (t + (1 # 172800)) = f).
    { apply Qfloor_unique; subst u; lra. }
    rewrite Hday.
    destruct (Py.divmod (Py.round u) 60) as [ minutes second ].
    destruct (Py.divmod minutes 60) as [ hour minute ].
    exists hour, minute, second. cbv zeta. reflexivity.
  - specialize (Hhigh Hge). rewrite Hhigh. cbn [Z.eqb Pos.eqb].
    assert (Hday : Qfloor (t + (1 # 172800)) = (f + 1)%Z).
    { apply Qfloor_unique; rewrite inject_Z_plus; change (inject_Z 1) with 1;
        subst u; lra. }
    rewrite Hday. exists 0%Z, 0%Z, 0%Z. cbv zeta. reflexivity.
Qed.

(** The day of an instant rounded to the second is at most half a second
    ahead of it. *)
Lemma rounded_day_bounds (t : Q) :
  inject_Z (rounded_day t) <= t + (1 # 172800)
  /\ t + (1 # 172800) < inject_Z (rounded_day t) + 1.
Proof.
  unfold rounded_day. split; [ apply Qfloor_le | ].
  assert (H := Qlt_floor (t + (1 # 172800))).
  rewrite inject_Z_plus in H. exact H.
Qed.

Lemma rounded_day_mono (t0 t1 : Q) :
  t0 <= t1 -> (rounded_day t0 <= rounded_day t1)%Z.
Proof. intros H. unfold rounded_day. apply Qfloor_resp_le. lra. Qed.

Lemma days_in_month_bounds (y m : Z) : (28 <= days_in_month y m <= 31)%Z.
Proof.
  unfold days_in_month.
  destruct (m =? 2)%Z; [ destruct (leap_year y); lia | ].
  destruct ((m =? 4)%Z || (m =? 6)%Z || (m =? 9)%Z || (m =? 11)%Z); lia.
Qed.

End TimeCover.

(** X4.  The range fitted by [best_fit_time] covers the record: [TIMEmin]
    is a first day of month at most half a second after the first instant
    and less than 32 days before it, [TIMEmax] is a first day of month
    strictly after the last instant and at most 32 days after it, and for a
    record in time order the axis spans at least 28 days. *)
Theorem best_fit_time_covers (self : Hydrograph) (t0 : Q) (rest : list Q) :
  let TIME := t0 :: rest in
  let t1 := last TIME t0 in
  (61 <= rounded_day t0 < 2958466)%Z ->
  (61 <= rounded_day t1 < first_day (9999, 12)%Z)%Z ->
  let self' := snd (best_fit_time TIME self) in
  inject_Z self'.(TIMEmin) <= t0 + (1 # 172800)
  /\ t0 - 32 < inject_Z self'.(TIMEmin)
  /\ t1 < inject_Z self'.(TIMEmax)
  /\ inject_Z self'.(TIMEmax) < t1 + 32
  /\ (t0 <= t1 -> (self'.(TIMEmin) + 28 <= self'.(TIMEmax))%Z).
Proof.
  intros TIME t1 H0 H1 self'.
  destruct (best_fit_time_run self t0 rest H0 H1)
    as (y0 & m0 & d0 & y1 & m1 & d1 & Hymd0 & Hymd1 & Hv0 & Hv1 & Hv1' & Hrun).
  assert (H1' : (61 <= rounded_day t1 < 2958466)%Z).
  { assert (first_day (9999, 12)%Z = 2958435%Z) by reflexivity. lia. }
  assert (Hin0 := day_in_month (rounded_day t0) H0).
  assert (Hin1 := day_in_month (rounded_day t1) H1').
  rewrite Hymd0 in Hin0. fold TIME t1 in Hymd1. rewrite Hymd1 in Hin1.
  destruct Hin0 as (_ & Hin0 & _). destruct Hin1 as (_ & Hin1 & _).
  assert (Hm0 : (1 <= m0 <= 12)%Z) by (destruct Hv0; assumption).
  assert (Hm1 : (1 <= m1 <= 12)%Z) by (destruct Hv1; assumption).
  rewrite first_day_next_month in Hin0, Hin1 by assumption.
  assert (Hd0 := days_in_month_bounds y0 m0).
  assert (Hd1 := days_in_month_bounds y1 m1).
  destruct (rounded_day_bounds t0) as [ Ha0 Hb0 ].
  destruct (rounded_day_bounds t1) as [ Ha1 Hb1 ].
  subst self'. fold TIME in Hrun. rewrite Hrun.
  cbn [snd TIMEmin TIMEmax with_TIMEmin with_TIMEmax].
  rewrite first_day_next_month by assumption.
  assert (Q0 : inject_Z (first_day (y0, m0)) <= inject_Z (rounded_day t0))
    by (rewrite <- Zle_Qle; lia).
  assert (Q0' : inject_Z (rounded_day t0) - 31 < inject_Z (first_day (y0, m0))).
  { assert (H : (rounded_day t0 < first_day (y0, m0) + 31)%Z) by lia.
    rewrite Zlt_Qlt, (inject_Z_plus (first_day (y0, m0)) 31) in H.
    change (inject_Z 31) with 31 in H. lra. }
  assert (Q1 : inject_Z (rounded_day t1) + 1
               <= inject_Z (first_day (y1, m1) + days_in_month y1 m1)).
  { assert (H : (rounded_day t1 + 1 <= first_day (y1, m1) + days_in_month y1 m1)%Z)
      by lia.
    rewrite Zle_Qle, (inject_Z_plus (rounded_day t1) 1) in H. exact H. }
  assert (Q1' : inject_Z (first_day (y1, m1) + days_in_month y1 m1)
                <= inject_Z (rounded_day t1) + 31).
  { assert (H : (first_day (y1, m1) + days_in_month y1 m1 <= rounded_day t1 + 31)%Z)
      by lia.
    rewrite Zle_Qle, (inject_Z_plus (rounded_day t1) 31) in H. exact H. }
  repeat split; try lra.
  intros Hle. apply rounded_day_mono in Hle. fold t1 in Hle.
  assert (Hidx : (12 * y0 + m0 <= 12 * y1 + m1)%Z).
  { destruct (Z.le_gt_cases (12 * y0 + m0) (12 * y1 + m1)) as [ H | H ];
      [ exact H | exfalso ].
    assert (Hn := next_month_index y1 m1 Hm1).
    assert (Hf := first_day_next_month y1 m1 Hm1).
    destruct (next_month (y1, m1)) as [ y2 m2 ]. destruct Hn as [ Hm2 Hi2 ].
    assert (first_day (y2, m2) <= first_day (y0, m0))%Z
      by (apply first_day_mono_le; unfold month_index; cbn [fst snd]; lia).
    lia. }
  assert (first_day (y0, m0) <= first_day (y1, m1))%Z
    by (apply first_day_mono_le; unfold month_index; cbn [fst snd]; lia).
  lia.
Qed.

(** The statement of X4 for a record from 15 January 2000 to 20 December
    2001. *)
Lemma best_fit_time_covers_witness :
  let self' := snd (best_fit_time two_years init) in
  inject_Z self'.(TIMEmin) <= 36540.5 + (1 # 172800)
  /\ 37245.25 < inject_Z self'.(TIMEmax).
Proof.
  destruct (best_fit_time_covers init 36540.5 [36800; 37245.25])
    as (Ha & _ & Hb & _);
    [ vm_compute; split; [ discriminate | reflexivity ]
    | vm_compute; split; [ discriminate | reflexivity ] | ].
  split; [ exact Ha | exact Hb ].
Defined.

(** X5.  [best_fit_time] rejects a record it cannot date.  An empty record
    raises [IndexError]; a negative first instant, one before 1 March 1900
    and one after 31 December 9999 raise the errors of [xlrd]; in each case
    the object is left as it was.  A last instant in December 9999 raises
    an error at the step to January 10000, after [TIMEmin] has been set to
    the start of the record. *)
Theorem best_fit_time_rejects (self : Hydrograph) (t0 : Q) (rest : list Q) :
  best_fit_time [] self = (Raise IndexError, self)
  /\ (t0 < 0 -> best_fit_time (t0 :: rest) self = (Raise XLDateNegative, self))
  /\ (0 <= t0 -> rounded_day t0 = 0%Z ->
      best_fit_time (t0 :: rest) self = (Raise XLDateBadTuple, self))
  /\ ((1 <= rounded_day t0 < 61)%Z ->
      best_fit_time (t0 :: rest) self = (Raise XLDateAmbiguous, self))
  /\ ((2958466 <= rounded_day t0)%Z ->
      best_fit_time (t0 :: rest) self = (Raise XLDateTooLarge, self))
  /\ ((61 <= rounded_day t0 < 2958466)%Z ->
      (first_day (9999, 12)%Z <= rounded_day (last (t0 :: rest) t0) < 2958466)%Z ->
      fst (best_fit_time (t0 :: rest) self) = Raise XLDateBadTuple
      /\ exists ym0,
           in_month ym0 (inject_Z (rounded_day t0))
           /\ snd (best_fit_time (t0 :: rest) self)
              = with_TIMEmin (first_day ym0) self).
Proof.
  split; [ reflexivity | ].
  assert (Hpos : forall t, (1 <= rounded_day t)%Z -> 0 < t).
  { intros t Ht. destruct (rounded_day_bounds t) as [ Ha _ ].
    assert (H : inject_Z 1 <= inject_Z (rounded_day t)) by (rewrite <- Zle_Qle; exact Ht).
    change (inject_Z 1) with 1 in H. lra. }
  split; [ | split; [ | split; [ | split ] ] ].
  - intros Hneg. unfold best_fit_time, bind, lift. rewrite getitem_first.
    unfold Xldate.xldate_as_tuple, Xldate.Qlt_bool.
    replace (Qeq_bool t0 0) with false.
    2:{ symmetry. destruct (Qeq_bool t0 0) eqn:E; [ | reflexivity ].
        apply Qeq_bool_iff in E. lra. }
    replace (Qle_bool 0 t0) with false; [ reflexivity | ].
    symmetry. destruct (Qle_bool 0 t0) eqn:E; [ | reflexivity ].
    apply Qle_bool_iff in E. lra.
  - intros Hge Hday. unfold best_fit_time, bind, lift. rewrite getitem_first.
    destruct (Qeq_bool t0 0) eqn:E0.
    + unfold Xldate.xldate_as_tuple. rewrite E0. reflexivity.
    + assert (Ht : 0 < t0).
      { apply Qle_lteq in Hge. destruct Hge as [ H | H ]; [ exact H | ].
        symmetry in H. apply Qeq_bool_iff in H. congruence. }
      destruct (xldate_as_tuple_cases t0 Ht) as (hh & mm & ss & Hx).
      rewrite Hx, Hday. reflexivity.
  - intros Hday.
    destruct (xldate_as_tuple_cases t0 (Hpos t0 ltac:(lia))) as (hh & mm & ss & Hx).
    unfold best_fit_time, bind, lift. rewrite getitem_first, Hx. cbv zeta.
    unfold Xldate._XLDAYS_TOO_LARGE.
    replace (rounded_day t0 >=? 2958466)%Z with false
      by (symmetry; rewrite Z.geb_leb; apply Z.leb_gt; lia).
    replace (rounded_day t0 =? 0)%Z with false by (symmetry; apply Z.eqb_neq; lia).
    replace (rounded_day t0 <? 61)%Z with true by (symmetry; apply Z.ltb_lt; lia).
    reflexivity.
  - intros Hday.
    destruct (xldate_as_tuple_cases t0 (Hpos t0 ltac:(lia))) as (hh & mm & ss & Hx).
    unfold best_fit_time, bind, lift. rewrite getitem_first, Hx. cbv zeta.
    unfold Xldate._XLDAYS_TOO_LARGE.
    replace (rounded_day t0 >=? 2958466)%Z with true
      by (symmetry; rewrite Z.geb_leb; apply Z.leb_le; lia).
    reflexivity.
  - intros H0 H1.
    destruct (xldate_as_tuple_month t0 H0)
      as (y0 & m0 & d0 & hh0 & mm0 & ss0 & Hymd0 & Hx0 & Hv0 & Hin0).
    assert (H1' : (61 <= rounded_day (last (t0 :: rest) t0) < 2958466)%Z).
    { assert (first_day (9999, 12)%Z = 2958435%Z) by reflexivity. lia. }
    destruct (xldate_as_tuple_month _ H1')
      as (y1 & m1 & d1 & hh1 & mm1 & ss1 & Hymd1 & Hx1 & Hv1 & Hin1).
    assert (E : y1 = 9999%Z /\ m1 = 12%Z).
    { destruct Hin1 as [ _ Hlt ]. rewrite <- Zlt_Qlt in Hlt.
      apply valid_month_index in Hv1. unfold month_index in Hv1. cbn [fst snd] in Hv1.
      assert (Hn := next_month_index y1 m1 (proj1 Hv1)).
      destruct (next_month (y1, m1)) as [ y2 m2 ]. destruct Hn as [ Hm2 Hi2 ].
      destruct (Z.eq_dec (12 * y1 + m1) (12 * 9999 + 12)) as [ E | NE ]; [ lia | ].
      assert (first_day (y2, m2) <= first_day (9999, 12))%Z
        by (apply first_day_mono_le; unfold month_index; cbn [fst snd]; lia).
      lia. }
    destruct E as [ -> -> ].
    assert (Hrun : best_fit_time (t0 :: rest) self
                   = (Raise XLDateBadTuple, with_TIMEmin (first_day (y0, m0)) self)).
    { unfold best_fit_time, bind, lift, modify, ret.
      rewrite getitem_first, Hx0, (xldate_from_first_day y0 m0 Hv0).
      rewrite getitem_last, Hx1. reflexivity. }
    rewrite Hrun. split; [ reflexivity | ].
    exists (y0, m0). split; [ exact Hin0 | reflexivity ].
Qed.

(** The statement of X5 for an instant of 1898, one on 10 January 1900 and
    a record that ends on 19 December 9999. *)
Lemma best_fit_time_rejects_witness :
  best_fit_time [-500] init = (Raise XLDateNegative, init)
  /\ best_fit_time january_1900 init = (Raise XLDateAmbiguous, init)
  /\ fst (best_fit_time until_december_9999 init) = Raise XLDateBadTuple
  /\ (snd (best_fit_time until_december_9999 init)).(TIMEmin) = 36526%Z.
Proof.
  destruct (best_fit_time_rejects init (-500) []) as (_ & Hneg & _).
  destruct (best_fit_time_rejects init 10 []) as (_ & _ & _ & Hamb & _).
  destruct (best_fit_time_rejects init 36540.5 [2958440])
    as (_ & _ & _ & _ & _ & Hlate).
  split; [ apply Hneg; reflexivity | ].
  split; [ apply Hamb; vm_compute; split; [ discriminate | reflexivity ] | ].
  destruct Hlate as (Hfst & ym0 & _ & Hsnd);
    [ vm_compute; split; [ discriminate | reflexivity ]
    | vm_compute; split; [ discriminate | reflexivity ] | ].
  split; [ exact Hfst | ]. vm_compute. reflexivity.
Defined.

(** ** The fitted water-level axis *)

Section AxisCover.

Lemma ceiling_multiple (x s : Q) :
  0 < s ->
  x <= s * inject_Z (Qceiling (x / s)) /\ s * inject_Z (Qceiling (x / s)) < x + s.
Proof.
  intros Hs.
  assert (Hc1 := Qle_ceiling (x / s)). assert (Hc2 := Qceiling_lt (x / s)).
  unfold Z.sub in Hc2. rewrite inject_Z_plus in Hc2.
  change (inject_Z (- (1))) with (- (1)) in Hc2.
  set (c := inject_Z (Qceiling (x / s))) in *.
  assert (E : x / s * s == x) by (field; lra).
  split.
  - rewrite <- E at 1. rewrite (Qmult_comm s c).
    apply Qmult_le_compat_r; lra.
  - assert (H : (c + - (1)) * s < x / s * s) by (apply Qmult_lt_compat_r; lra).
    rewrite E in H. lra.
Qed.

Lemma floor_multiple (x s : Q) :
  0 < s ->
  x - s < s * inject_Z (Qfloor (x / s)) /\ s * inject_Z (Qfloor (x / s)) <= x.
Proof.
  intros Hs.
  assert (Hc1 := Qfloor_le (x / s)). assert (Hc2 := Qlt_floor (x / s)).
  rewrite inject_Z_plus in Hc2. change (inject_Z 1) with 1 in Hc2.
  set (c := inject_Z (Qfloor (x / s))) in *.
  assert (E : x / s * s == x) by (field; lra).
  split.
  - assert (H : x / s * s < (c + 1) * s) by (apply Qmult_lt_compat_r; lra).
    rewrite E in H. lra.
  - rewrite <- E at 1. rewrite (Qmult_comm s c).
    apply Qmult_le_compat_r; lra.
Qed.

(** Every entry of [SCALE] but the last is followed by one at most twice
    as large. *)
Lemma SCALE_next (c : Q) :
  In c SCALE -> c == 5 \/ exists c', In c' SCALE /\ c < c' /\ c' <= 2 * c.
Proof.
  intros Hc.
  assert (Hb : forallb
                 (fun c => Qeq_bool c 5
                           || existsb (fun c' => Xldate.Qlt_bool c c'
                                                 && Qle_bool c' (2 * c)) SCALE)
                 SCALE = true) by (vm_compute; reflexivity).
  rewrite forallb_forall in Hb. specialize (Hb c Hc).
  apply orb_true_iff in Hb. destruct Hb as [ Hb | Hb ].
  - left. now apply Qeq_bool_iff.
  - right. apply existsb_exists in Hb. destruct Hb as (c' & Hin & Hb).
    apply andb_true_iff in Hb. destruct Hb as [ Hlt Hle ].
    exists c'. split; [ exact Hin | ]. split.
    + unfold Xldate.Qlt_bool in Hlt. apply negb_true_iff in Hlt.
      now apply Qle_bool_false.
    + now apply Qle_bool_iff.
Qed.

(** On a grid of six to nine divisions the nearest entry of [SCALE] to
    the target, taken [g + 2] times, spans the data. *)
Lemma nearest_spans (t step d : Q) (i : nat) (g : Z) :
  (1 <= g <= 4)%Z ->
  t == d / inject_Z g ->
  d <= 5 * (inject_Z g + 2) ->
  nearest_first SCALE t i step ->
  d <= (inject_Z g + 2) * step.
Proof.
  intros Hg Ht Hd (Hnth & Hmin & _).
  assert (Hin : In step SCALE) by (eapply nth_error_In; eassumption).
  destruct (SCALE_bounds step Hin) as [ Hlo Hhi ].
  assert (Hgq : d == t * inject_Z g).
  { rewrite Ht. field. intros E. unfold Qeq in E. cbn in E. lia. }
  assert (Hcases : g = 1%Z \/ g = 2%Z \/ g = 3%Z \/ g = 4%Z) by lia.
  destruct (Qlt_le_dec step t) as [ Hlt | Hge ].
  - destruct (SCALE_next step Hin) as [ E5 | (c' & Hin' & Hlt' & Hle') ].
    + rewrite E5. lra.
    + specialize (Hmin c' Hin').
      rewrite (Qabs_neg (step - t)) in Hmin by lra.
      destruct (Qlt_le_dec t c') as [ Hc | Hc ].
      * rewrite (Qabs_pos (c' - t)) in Hmin by lra.
        destruct Hcases as [ -> | [ -> | [ -> | -> ] ] ];
          rewrite Hgq; unfold inject_Z; lra.
      * rewrite (Qabs_neg (c' - t)) in Hmin by lra. lra.
  - destruct Hcases as [ -> | [ -> | [ -> | -> ] ] ];
      rewrite Hgq; unfold inject_Z; lra.
Qed.

End AxisCover.

(** X6.  On a grid of six to nine divisions, the axis that
    [setup_waterlvl_scale] draws from the scale and origin fitted by
    [best_fit_waterlvl] shows every water level of the record, in both
    datums and with or without the weather panel, as long as the levels
    range over no more than [5 * (NZGrid - 3)] metres. *)
Theorem best_fit_waterlvl_shows_record (self : Hydrograph) :
  fitted_values self <> [] ->
  (6 <= self.(NZGrid) <= 9)%Z ->
  (forall a b, In a (fitted_values self) -> In b (fitted_values self) ->
               a - b <= 5 * inject_Z (self.(NZGrid) - 3)) ->
  let self' := snd (best_fit_waterlvl self) in
  (exists step origin, fst (best_fit_waterlvl self) = Ok (step, origin))
  /\ forall v, In v (fitted_values self) ->
               fst (waterlvl_axis self') <= v /\ v <= snd (waterlvl_axis self').
Proof.
  intros Hne Hgrid Hrange self'.
  destruct (np_max_spec _ Hne) as (hi & Hhi & Hmax).
  destruct (np_min_spec _ Hne) as (lo & Hlo & Hmin).
  destruct (best_fit_waterlvl_fin self hi lo Hhi Hlo) as (i & step & Hn & Hrun);
    [ lia | ].
  subst self'. rewrite Hrun. cbn [fst snd].
  split; [ do 2 eexists; reflexivity | ].
  set (g := (self.(NZGrid) - 5)%Z) in *.
  assert (Eg3 : inject_Z (self.(NZGrid) - 3) == inject_Z g + 2).
  { change 2 with (inject_Z 2). rewrite <- inject_Z_plus.
    replace (g + 2)%Z with (self.(NZGrid) - 3)%Z by (subst g; lia). reflexivity. }
  assert (Eg2 : inject_Z (self.(NZGrid) - 2) == inject_Z g + 3).
  { change 3 with (inject_Z 3). rewrite <- inject_Z_plus.
    replace (g + 3)%Z with (self.(NZGrid) - 2)%Z by (subst g; lia). reflexivity. }
  assert (Eg0 : inject_Z self.(NZGrid) == inject_Z g + 5).
  { change 5 with (inject_Z 5). rewrite <- inject_Z_plus.
    replace (g + 5)%Z with self.(NZGrid) by (subst g; lia). reflexivity. }
  assert (Hd : hi - lo <= 5 * (inject_Z g + 2)).
  { rewrite <- Eg3. apply Hrange; [ apply Hmax | apply Hmin ]. }
  assert (Hspan : hi - lo <= (inject_Z g + 2) * step).
  { apply (nearest_spans ((hi - lo) / inject_Z g) step (hi - lo) i g);
      [ subst g; lia | reflexivity | exact Hd | exact Hn ]. }
  assert (Hin : In step SCALE) by (destruct Hn as (Hnth & _); eapply nth_error_In; eassumption).
  assert (Hpos : 0 < step) by (destruct (SCALE_bounds step Hin); lra).
  assert (Hg0 : 0 <= inject_Z g).
  { change 0 with (inject_Z 0). rewrite <- Zle_Qle. subst g. lia. }
  assert (Hgs : 0 <= inject_Z g * step) by (apply Qmult_le_0_compat; lra).
  intros v Hv.
  assert (Hv1 : v <= hi) by (apply Hmax; exact Hv).
  assert (Hv0 : lo <= v) by (apply Hmin; exact Hv).
  unfold waterlvl_axis, fitted, grid_rank.
  cbn [meteo_on NZGrid WLdatum WLmin WLscale with_WLmin with_WLscale].
  destruct (ceiling_multiple hi step Hpos) as [ Hc1 Hc2 ].
  destruct (floor_multiple lo step Hpos) as [ Hf1 Hf2 ].
  destruct (WLdatum self), (meteo_on self); cbn [fst snd];
    rewrite ?Eg0, ?Eg2; split; lra.
Qed.

(** The statement of X6 for the levels 1.2, 7.9 and 3.4 on eight grid
    divisions without the weather panel: the scale is 2.2, the axis runs
    from -4.4 to 8.8. *)
Lemma best_fit_waterlvl_shows_record_witness :
  waterlvl_axis (snd (best_fit_waterlvl three_levels)) = (-4.4000, 8.80)
  /\ forall v, In v [1.2; 7.9; 3.4] ->
               fst (waterlvl_axis (snd (best_fit_waterlvl three_levels))) <= v
               /\ v <= snd (waterlvl_axis (snd (best_fit_waterlvl three_levels))).
Proof.
  split; [ vm_compute; reflexivity | ].
  apply (best_fit_waterlvl_shows_record three_levels).
  - discriminate.
  - vm_compute. split; discriminate.
  - intros a b Ha Hb. cbn in Ha, Hb.
    destruct Ha as [ <- | [ <- | [ <- | [] ] ] ];
      destruct Hb as [ <- | [ <- | [ <- | [] ] ] ]; vm_compute; discriminate.
Defined.

(** ** Ticks of the water-level axis *)

Section LevelTicks.

Lemma Qceiling_unique (z : Q) (k : Z) :
  inject_Z k - 1 < z -> z <= inject_Z k -> Qceiling z = k.
Proof.
  intros Hlt Hle. unfold Qceiling.
  destruct (Qle_lteq z (inject_Z k)) as [ H _ ]. specialize (H Hle).
  destruct H as [ H | H ].
  - assert (E : Qfloor (- z) = (- k)%Z).
    { apply Qfloor_unique; rewrite inject_Z_opp; lra. }
    rewrite E. lia.
  - rewrite (Qfloor_comp (- z) (inject_Z (- k))).
    + rewrite Qfloor_Z. lia.
    + rewrite inject_Z_opp, H. reflexivity.
Qed.

Lemma arange_values (start stop step : Q) (n : Z) :
  inject_Z n - 1 < (stop - start) / step ->
  (stop - start) / step <= inject_Z n ->
  Np.arange start stop step
  = map (fun i => start + inject_Z (Z.of_nat i) * step) (seq 0 (Z.to_nat n)).
Proof.
  intros Hlt Hle. unfold Np.arange.
  now rewrite (Qceiling_unique _ n Hlt Hle).
Qed.

End LevelTicks.

(** X7.  With a scale other than zero [setup_waterlvl_scale] puts
    [NZGrid - 1] ticks on the water-level axis: [WLmin], then one every
    [WLscale], upwards in the masl datum and downwards in the mbgs datum.
    They are the same with and without the weather panel, there are as
    many of them as grid lines (1, 2, ..., [NZGrid - 1]), and the axis
    spans the number of grid divisions times the scale, so that every
    tick is on a grid line. *)
Theorem waterlvl_yticks_on_grid (self : Hydrograph) :
  ~ self.(WLscale) == 0 ->
  let n := Z.to_nat (self.(NZGrid) - 1) in
  waterlvl_yticks self
  = map (fun k => self.(WLmin) + inject_Z (Z.of_nat k) * tick_stride self)
        (seq 0 n)
  /\ waterlvl_yticks (with_meteo_on true self)
     = waterlvl_yticks (with_meteo_on false self)
  /\ grid_yticks self = map (fun k => 1 + inject_Z (Z.of_nat k) * 1) (seq 0 n)
  /\ snd (waterlvl_axis self) - fst (waterlvl_axis self)
     == inject_Z (if self.(meteo_on) then self.(NZGrid) else self.(NZGrid) - 2)%Z
        * self.(WLscale).
Proof.
  intros Hs n.
  assert (E1 : inject_Z (self.(NZGrid) - 1) == inject_Z self.(NZGrid) - 1).
  { unfold Z.sub. rewrite inject_Z_plus. reflexivity. }
  assert (E2 : inject_Z (self.(NZGrid) - 2) == inject_Z self.(NZGrid) - 2).
  { unfold Z.sub. rewrite inject_Z_plus. reflexivity. }
  assert (Hticks : forall b,
             waterlvl_yticks (with_meteo_on b self)
             = map (fun k => self.(WLmin) + inject_Z (Z.of_nat k) * tick_stride self)
                   (seq 0 n)).
  { intros b. unfold waterlvl_yticks, tick_stride.
    cbn [meteo_on NZGrid WLdatum WLmin WLscale with_meteo_on].
    set (N := inject_Z (NZGrid self)) in *. set (s := WLscale self) in *.
    set (W := WLmin self).
    destruct (WLdatum self), b; apply arange_values; rewrite ?E1, ?E2; fold N.
    - assert (E : (W - N * s + 1.9 * s - W) / - s == N - 1.9) by (field; exact Hs).
      rewrite E. lra.
    - assert (E : (W - N * s + 1.9 * s - W) / - s == N - 1.9) by (field; exact Hs).
      rewrite E. lra.
    - assert (E : (W - (N - 2) * s - 0.1 * s - W) / - s == N - 1.9) by (field; exact Hs).
      rewrite E. lra.
    - assert (E : (W - (N - 2) * s - 0.1 * s - W) / - s == N - 1.9) by (field; exact Hs).
      rewrite E. lra.
    - assert (E : (W + N * s - 1.9 * s - W) / s == N - 1.9) by (field; exact Hs).
      rewrite E. lra.
    - assert (E : (W + N * s - 1.9 * s - W) / s == N - 1.9) by (field; exact Hs).
      rewrite E. lra.
    - assert (E : (W + (N - 2) * s + 0.1 * s - W) / s == N - 1.9) by (field; exact Hs).
      rewrite E. lra.
    - assert (E : (W + (N - 2) * s + 0.1 * s - W) / s == N - 1.9) by (field; exact Hs).
      rewrite E. lra. }
  split; [ | split; [ | split ] ].
  - rewrite <- (Hticks (meteo_on self)). now destruct self.
  - now rewrite !Hticks.
  - unfold grid_yticks. apply arange_values; rewrite E1.
    + assert (E : (inject_Z (NZGrid self) - 1) / 1 == inject_Z (NZGrid self) - 1)
        by field.
      rewrite E. lra.
    + assert (E : (inject_Z (NZGrid self) - 1) / 1 == inject_Z (NZGrid self) - 1)
        by field.
      rewrite E. lra.
  - unfold waterlvl_axis. destruct (WLdatum self); cbn [fst snd]; ring.
Qed.

(** The statement of X7 for the record of [three_levels] with its fitted
    scale of 2.2 and origin of 8.8: seven ticks from 8.8 down to -4.4. *)
Lemma waterlvl_yticks_on_grid_witness :
  ~ three_levels_fitted.(WLscale) == 0
  /\ length (waterlvl_yticks three_levels_fitted) = 7%nat
  /\ Forall2 Qeq (waterlvl_yticks three_levels_fitted)
       [8.8; 6.6; 4.4; 2.2; 0; -2.2; -4.4].
Proof.
  assert (Hs : ~ three_levels_fitted.(WLscale) == 0) by (vm_compute; discriminate).
  split; [ exact Hs | ].
  destruct (waterlvl_yticks_on_grid three_levels_fitted Hs) as (Hticks & _).
  rewrite Hticks. split; [ reflexivity | ].
  vm_compute. repeat (constructor; [ reflexivity | ]). constructor.
Defined.

(** ** Totals and missing values of bins *)

Section BinTotals.

Lemma same_reading_refl (a : reading) : same_reading a a.
Proof. destruct a; cbn; reflexivity || exact I. Qed.

Lemma same_reading_trans (a b c : reading) :
  same_reading a b -> same_reading b c -> same_reading a c.
Proof.
  destruct a, b, c; cbn; try tauto. intros H1 H2. now rewrite H1.
Qed.

Lemma same_reading_sym (a b : reading) : same_reading a b -> same_reading b a.
Proof. destruct a, b; cbn; try tauto. intros H. now symmetry. Qed.

Lemma radd_same (a a' b b' : reading) :
  same_reading a a' -> same_reading b b' ->
  same_reading (Np.radd a b) (Np.radd a' b').
Proof.
  destruct a, a', b, b'; cbn; try tauto. intros H1 H2. now rewrite H1, H2.
Qed.

Lemma radd_assoc (a b c : reading) :
  same_reading (Np.radd (Np.radd a b) c) (Np.radd a (Np.radd b c)).
Proof. destruct a, b, c; cbn; try exact I. ring. Qed.

Lemma radd_zero_l (a : reading) : same_reading (Np.radd (Some 0) a) a.
Proof. destruct a; cbn; [ ring | exact I ]. Qed.

(** A running sum from [a] is [a] plus the sum from zero. *)
Lemma fold_radd_from (l : list reading) :
  forall a, same_reading (fold_left Np.radd l a) (Np.radd a (Np.sum l)).
Proof.
  unfold Np.sum. induction l as [ | b l IH ]; intros a; cbn [fold_left].
  - destruct a; cbn; [ ring | exact I ].
  - eapply same_reading_trans; [ apply IH | ].
    eapply same_reading_trans; [ apply radd_assoc | ].
    apply radd_same; [ apply same_reading_refl | ].
    apply same_reading_sym.
    eapply same_reading_trans; [ apply IH | ].
    apply radd_same; [ apply radd_zero_l | apply same_reading_refl ].
Qed.

Lemma sum_app (l1 l2 : list reading) :
  same_reading (Np.sum (l1 ++ l2)) (Np.radd (Np.sum l1) (Np.sum l2)).
Proof.
  unfold Np.sum at 1. rewrite fold_left_app. apply fold_radd_from.
Qed.

Lemma firstn_plus {A} (a b : nat) :
  forall l : list A, firstn (a + b) l = firstn a l ++ firstn b (skipn a l).
Proof.
  induction a as [ | a IH ]; intros l; [ reflexivity | ].
  destruct l as [ | x l ]; cbn [Nat.add firstn skipn app].
  - now rewrite firstn_nil.
  - now rewrite IH.
Qed.

(** The sums of the first [n] windows add up to the sum of the samples
    they hold. *)
Lemma window_sums_total (x : list reading) (w n : nat) :
  same_reading
    (Np.sum (map (fun k => Np.sum (window x w k)) (seq 0 n)))
    (Np.sum (firstn (n * w) x)).
Proof.
  induction n as [ | n IH ]; [ cbn; reflexivity | ].
  rewrite seq_S, map_app. cbn [Nat.add map].
  replace (S n * w)%nat with (n * w + w)%nat by lia.
  rewrite firstn_plus. fold (window x w n).
  eapply same_reading_trans; [ apply sum_app | ].
  apply same_reading_sym.
  eapply same_reading_trans; [ apply sum_app | ].
  apply radd_same.
  - apply same_reading_sym. exact IH.
  - apply same_reading_sym.
    eapply same_reading_trans; [ apply (fold_radd_from [] _) | ].
    unfold Np.sum at 2. cbn [fold_left].
    destruct (Np.sum (window x w n)); cbn; [ ring | exact I ].
Qed.

(** A sum is NaN exactly when it starts from NaN or meets one. *)
Lemma fold_radd_nan (l : list reading) :
  forall a, fold_left Np.radd l a = None <-> a = None \/ In None l.
Proof.
  induction l as [ | b l IH ]; intros a; cbn [fold_left In].
  - tauto.
  - rewrite IH. destruct a, b; cbn; split; intros H;
      try (destruct H as [ H | [ H | H ] ]); try discriminate; auto.
    destruct H as [ H | H ]; [ discriminate | auto ].
Qed.

End BinTotals.

(** X8.  [bin_sum] keeps the total: with a positive width the sums of the
    bins add up to the sum of the samples in the complete windows, and to
    the sum of all samples when the width divides their number (a NaN on
    either side making both totals NaN). *)
Theorem bin_sum_keeps_total (x : list reading) (bwidth : Z) :
  (0 < bwidth)%Z ->
  exists bins,
    bin_sum x bwidth = Ok bins
    /\ same_reading (Np.sum bins)
         (Np.sum (firstn (length x / Z.to_nat bwidth * Z.to_nat bwidth) x))
    /\ ((Z.of_nat (length x) mod bwidth = 0)%Z ->
        same_reading (Np.sum bins) (Np.sum x)).
Proof.
  intros Hw. exists (window_sums x (Z.to_nat bwidth)).
  split; [ now apply bin_sum_windows | ].
  assert (Htot := window_sums_total x (Z.to_nat bwidth)
                    (length x / Z.to_nat bwidth)).
  split; [ exact Htot | ].
  intros Hmod.
  assert (E : (length x / Z.to_nat bwidth * Z.to_nat bwidth)%nat = length x).
  { set (w := Z.to_nat bwidth) in *.
    assert (Hw' : (0 < w)%nat) by (subst w; lia).
    assert (Hm : (length x mod w = 0)%nat).
    { apply Nat2Z.inj. rewrite Nat2Z.inj_mod.
      replace (Z.of_nat w) with bwidth by (subst w; lia). exact Hmod. }
    assert (H := Nat.div_mod_eq (length x) w). lia. }
  rewrite E, firstn_all in Htot. exact Htot.
Qed.

(** The statement of X8 for nine NaN-free days in bins of three. *)
Lemma bin_sum_keeps_total_witness :
  exists bins,
    bin_sum (map (fun v => Some (inject_Z v)) [1; 2; 3; 4; 5; 6; 7; 8; 9]%Z) 3
    = Ok bins
    /\ same_reading (Np.sum bins) (Some 45).
Proof.
  destruct (bin_sum_keeps_total
              (map (fun v => Some (inject_Z v)) [1; 2; 3; 4; 5; 6; 7; 8; 9]%Z) 3)
    as (bins & Hrun & _ & Hall); [ reflexivity | ].
  exists bins. split; [ exact Hrun | ].
  eapply same_reading_trans; [ apply Hall; reflexivity | ].
  vm_compute. reflexivity.
Defined.

(** X9.  A bin of [bin_sum] is NaN exactly when one of the samples of its
    window is: a missing value spoils its own bin and no other. *)
Theorem bin_sum_nan_bins (x : list reading) (bwidth : Z) (bins : list reading) :
  (0 < bwidth)%Z ->
  bin_sum x bwidth = Ok bins ->
  forall k, (k < length bins)%nat ->
            (nth_error bins k = Some None
             <-> In None (window x (Z.to_nat bwidth) k)).
Proof.
  intros Hw Hrun k Hk.
  rewrite (bin_sum_windows x bwidth Hw) in Hrun. injection Hrun as <-.
  unfold window_sums in *. rewrite length_map, length_seq in Hk.
  rewrite nth_error_map, nth_error_seq.
  replace (k <? length x / Z.to_nat bwidth)%nat with true
    by (symmetry; apply Nat.ltb_lt; exact Hk).
  cbn [option_map Nat.add]. unfold Np.sum.
  split.
  - intros H. injection H as H. apply fold_radd_nan in H.
    destruct H as [ H | H ]; [ discriminate | exact H ].
  - intros H. f_equal. apply fold_radd_nan. now right.
Qed.

(** The statement of X9 for nine days in bins of three, the fourth day
    missing: the second bin is NaN, the first is not. *)
Lemma bin_sum_nan_bins_witness :
  bin_sum nine_days 3 = Ok [Some 3.5; None; Some 6]
  /\ In None (window nine_days 3 1)
  /\ ~ In None (window nine_days 3 0).
Proof.
  assert (Hrun : bin_sum nine_days 3 = Ok [Some 3.5; None; Some 6])
    by (vm_compute; reflexivity).
  split; [ exact Hrun | ].
  assert (H := bin_sum_nan_bins nine_days 3 _ eq_refl Hrun).
  split.
  - apply (H 1%nat); [ cbn; lia | reflexivity ].
  - intros Hin. apply (H 0%nat) in Hin; [ discriminate | cbn; lia ].
Defined.

(** X10.  [resample_bin] keeps the four series aligned.  For every bin
    index that Python accepts (-4 to 3, the negative ones counting from
    the end of the list of widths) it succeeds, and series of one length
    give bins of one length; with the index 0 the bins are the daily
    series themselves.  Any other index raises [IndexError] and leaves the
    object as it was. *)
Theorem resample_bin_aligned (self : Hydrograph) :
  ((-4 <= self.(bwidth_indx) <= 3)%Z ->
   let self' := snd (resample_bin self) in
   fst (resample_bin self) = Ok tt
   /\ In self'.(bwidth) [1; 7; 30; 365]%Z
   /\ (length self.(TMAX) = length self.(TIMEmeteo) ->
       length self'.(bTMAX) = length self'.(bTIME))
   /\ (length self.(PTOT) = length self.(TIMEmeteo) ->
       length self'.(bPTOT) = length self'.(bTIME))
   /\ (length self.(RAIN) = length self.(TIMEmeteo) ->
       length self'.(bRAIN) = length self'.(bTIME))
   /\ (self.(bwidth_indx) = 0%Z ->
       self'.(bTIME) = self.(TIMEmeteo) /\ self'.(bTMAX) = self.(TMAX)
       /\ self'.(bPTOT) = self.(PTOT) /\ self'.(bRAIN) = self.(RAIN)))
  /\ ((self.(bwidth_indx) < -4 \/ 3 < self.(bwidth_indx))%Z ->
      resample_bin self = (Raise IndexError, self)).
Proof.
  split.
  - intros Hi self'.
    assert (Hcases : exists w,
               In (self.(bwidth_indx), w)
                  [(0, 1); (1, 7); (2, 30); (3, 365);
                   (-4, 1); (-3, 7); (-2, 30); (-1, 365)]%Z).
    { assert (H : (bwidth_indx self = 0 \/ bwidth_indx self = 1
                   \/ bwidth_indx self = 2 \/ bwidth_indx self = 3
                   \/ bwidth_indx self = -4 \/ bwidth_indx self = -3
                   \/ bwidth_indx self = -2 \/ bwidth_indx self = -1)%Z) by lia.
      destruct H as [ E | [ E | [ E | [ E | [ E | [ E | [ E | E ] ] ] ] ] ] ];
        rewrite E; eexists; cbn; eauto 10. }
    destruct Hcases as (w & Hin).
    assert (Hw : (0 < w)%Z).
    { cbn in Hin.
      destruct Hin as [ E | [ E | [ E | [ E | [ E | [ E | [ E | [ E | [] ] ] ] ] ] ] ] ];
        injection E; lia. }
    destruct (Z.eqb_spec (bwidth_indx self) 0) as [ E0 | NE0 ].
    + assert (Hrun : resample_bin self
                     = (Ok tt, with_bins self.(TIMEmeteo) self.(TMAX) self.(PTOT)
                                 self.(RAIN) (with_bwidth 1 self))).
      { unfold resample_bin, bind, get, lift, modify. rewrite E0. reflexivity. }
      subst self'. rewrite Hrun. cbn. repeat split; auto.
    + assert (Hrun : resample_bin self
                     = (Ok tt,
                        with_bins (window_means self.(TIMEmeteo) (Z.to_nat w))
                          (window_means self.(TMAX) (Z.to_nat w))
                          (window_sums self.(PTOT) (Z.to_nat w))
                          (window_sums self.(RAIN) (Z.to_nat w))
                          (with_bwidth w self))).
      { unfold resample_bin, bind, get, lift, modify.
        assert (Hget : Py.getitem [1; 7; 30; 365]%Z self.(bwidth_indx) = Ok w
                       /\ (self.(bwidth_indx) =? 0)%Z = false).
        { cbn in Hin.
          destruct Hin as [ E | [ E | [ E | [ E | [ E | [ E | [ E | [ E | [] ] ] ] ] ] ] ] ];
            injection E as E1 E2; rewrite <- E1, <- E2; split; try reflexivity.
          congruence. }
        destruct Hget as [ -> -> ].
        rewrite !bin_sum_windows by exact Hw. cbn.
        unfold window_means, window_sums. rewrite !map_map.
        replace (Z.of_nat (Z.to_nat w)) with w by lia. reflexivity. }
      subst self'. rewrite Hrun. cbn.
      split; [ reflexivity | ]. split.
      { cbn in Hin.
        destruct Hin as [ E | [ E | [ E | [ E | [ E | [ E | [ E | [ E | [] ] ] ] ] ] ] ] ];
          injection E as _ <-; auto. }
      unfold window_means, window_sums. rewrite !length_map, !length_seq.
      repeat split; try congruence.
  - intros Hout. unfold resample_bin, bind, get, lift, Py.getitem.
    cbn [length Z.of_nat Pos.of_succ_nat Pos.succ].
    destruct (Z.ltb_spec (bwidth_indx self) 0) as [ Hneg | Hpos ].
    + replace (0 <=? bwidth_indx self + 4)%Z with false
        by (symmetry; apply Z.leb_gt; lia).
      reflexivity.
    + replace (bwidth_indx self <? 4)%Z with false
        by (symmetry; apply Z.ltb_ge; lia).
      now rewrite andb_false_r.
Qed.

(** The statement of X10 for the ten-day record in weekly bins and for a
    bin index of 4. *)
Lemma resample_bin_aligned_witness :
  fst (resample_bin ten_days) = Ok tt
  /\ length (snd (resample_bin ten_days)).(bPTOT)
     = length (snd (resample_bin ten_days)).(bTIME)
  /\ resample_bin (with_bwidth_indx 4 ten_days)
     = (Raise IndexError, with_bwidth_indx 4 ten_days).
Proof.
  destruct (resample_bin_aligned ten_days) as [ Hin _ ].
  destruct Hin as (Hrun & _ & _ & Hp & _); [ vm_compute; split; discriminate | ].
  split; [ exact Hrun | ]. split; [ apply Hp; reflexivity | ].
  destruct (resample_bin_aligned (with_bwidth_indx 4 ten_days)) as [ _ Hout ].
  apply Hout. right. reflexivity.
Defined.

(** ** Panels of the figure *)

(** X11.  [set_margins] gives the axes three boxes of one width: the host
    and frame axes get the whole frame, the temperature axes (the fifth)
    the upper part and every other axes the lower part.  The lower and
    upper parts tile the frame, the upper one taking [va_ratio] of its
    height with the weather panel and none without; on a figure of at
    least 1.7 in by 1.3 in the frame lies inside the figure. *)
Theorem set_margins_panels (self : Hydrograph) :
  0 < self.(fwidth) -> 0 < self.(fheight) ->
  exists frame lower upper : position,
    (forall i p,
        nth_error (snd (set_margins self)).(axes) i = Some p ->
        p = if Nat.eqb i 4 then upper
            else if Nat.ltb i 2 then frame else lower)
    /\ pos_left lower = pos_left frame /\ pos_left upper = pos_left frame
    /\ pos_right lower = pos_right frame /\ pos_right upper = pos_right frame
    /\ pos_bottom lower = pos_bottom frame
    /\ pos_top lower == pos_bottom upper
    /\ pos_top upper == pos_top frame
    /\ pos_height upper == upper_share self * pos_height frame
    /\ (1.7 <= self.(fwidth) -> 1.3 <= self.(fheight) ->
        0 < pos_left frame /\ pos_left frame <= pos_right frame
        /\ pos_right frame < 1
        /\ 0 < pos_bottom frame /\ pos_bottom frame <= pos_top frame
        /\ pos_top frame < 1).
Proof.
  intros Hw Hh.
  destruct (margins_value self Hw Hh) as (l & r & b & t & Hm & Hl & Hr & Hb & Ht).
  rewrite (set_margins_run self l r b t Hm). cbn [snd axes with_axes].
  fold (upper_share self).
  set (ht := 1 - (b + t)). set (w := 1 - (l + r)).
  exists (l, b, w, ht), (l, b, w, ht * (1 - upper_share self)),
         (l, b + ht * (1 - upper_share self), w, ht * upper_share self).
  split.
  { intros i p Hp. apply place_axes_nth in Hp. cbn [Nat.add] in Hp.
    rewrite Hp. destruct (Nat.eqb i 4); [ reflexivity | ].
    destruct i as [ | [ | i ] ]; reflexivity. }
  unfold pos_height. cbn [pos_left pos_right pos_bottom pos_top].
  repeat (split; [ reflexivity || (subst ht w; ring) | ]).
  intros Hfw Hfh.
  assert (Hl0 : 0 < l).
  { apply (Qmult_lt_r 0 l (fwidth self) Hw). rewrite Hl. reflexivity. }
  assert (Hb0 : 0 < b).
  { apply (Qmult_lt_r 0 b (fheight self) Hh). rewrite Hb. reflexivity. }
  assert (Hr0 : 0 < r).
  { apply (Qmult_lt_r 0 r (fwidth self) Hw). rewrite Hr.
    unfold right_inches. destruct (meteo_on self); reflexivity. }
  assert (Ht0 : 0 < t).
  { apply (Qmult_lt_r 0 t (fheight self) Hh). rewrite Ht.
    unfold top_inches. destruct (title_or_legend self), (meteo_on self); reflexivity. }
  assert (Hlr : l + r <= 1).
  { apply (Qmult_le_r (l + r) 1 (fwidth self) Hw).
    rewrite Qmult_plus_distr_l, Hl, Hr.
    unfold right_inches. destruct (meteo_on self); lra. }
  assert (Hbt : b + t <= 1).
  { apply (Qmult_le_r (b + t) 1 (fheight self) Hh).
    rewrite Qmult_plus_distr_l, Hb, Ht.
    unfold top_inches. destruct (title_or_legend self), (meteo_on self); lra. }
  subst ht w. repeat split; lra.
Qed.

(** The statement of X11 for the 11 in by 7 in figure with five axes: the
    temperature panel takes a fifth of the frame. *)
Lemma set_margins_panels_witness :
  exists frame upper : position,
    nth_error (snd (set_margins init)).(axes) 0 = Some frame
    /\ nth_error (snd (set_margins init)).(axes) 4 = Some upper
    /\ pos_height upper == 0.2 * pos_height frame
    /\ pos_top upper == pos_top frame.
Proof.
  destruct (set_margins_panels init) as (frame & lower & upper & Hnth & Hrest);
    [ reflexivity | reflexivity | ].
  destruct Hrest as (_ & _ & _ & _ & _ & _ & Htop & Hshare & _).
  exists frame, upper.
  destruct (nth_error (snd (set_margins init)).(axes) 0) as [ p0 | ] eqn:E0;
    [ | vm_compute in E0; discriminate ].
  destruct (nth_error (snd (set_margins init)).(axes) 4) as [ p4 | ] eqn:E4;
    [ | vm_compute in E4; discriminate ].
  rewrite (Hnth 0%nat p0 E0), (Hnth 4%nat p4 E4). cbn [Nat.eqb Nat.ltb Nat.leb].
  repeat split; assumption.
Defined.

(** X12.  The label padding of [draw_ylabels] is 0.3 cm measured against
    the axes placed by [set_margins] when the weather panel is shown.
    Without the panel it is measured against an axes 0.2 in narrower than
    the one [set_margins] places (the right margin is taken as 0.35 in,
    where [set_margins] uses 0.15 in).  A figure exactly as wide as the two
    margins raises [ZeroDivisionError]. *)
Theorem draw_ylabels_padding (self : Hydrograph) :
  0 < self.(fwidth) -> 0 < self.(fheight) ->
  forall i p,
    nth_error (snd (set_margins self)).(axes) i = Some p ->
    let inches := pos_width p * self.(fwidth) in
    let assumed := if self.(meteo_on) then inches else inches - 0.2 in
    (~ assumed == 0 ->
     exists labPad, label_padding self = Ok labPad
                    /\ labPad * assumed == 0.3 / 2.54)
    /\ (assumed == 0 -> label_padding self = Raise ZeroDivisionError).
Proof.
  intros Hw Hh i p Hp inches assumed.
  destruct (margins_value self Hw Hh) as (l & r & b & t & Hm & Hl & Hr & _).
  rewrite (set_margins_run self l r b t Hm) in Hp. cbn [snd axes with_axes] in Hp.
  apply place_axes_nth in Hp.
  assert (Hwidth : pos_width p == 1 - (l + r)).
  { rewrite Hp. unfold pos_width.
    destruct (Nat.eqb (0 + i) 4); [ cbn; ring | ].
    destruct (Nat.eqb (0 + i) 0 || Nat.eqb (0 + i) 1); cbn; ring. }
  assert (Hin : inches == self.(fwidth) - 0.85 - right_inches self.(meteo_on)).
  { subst inches. rewrite Hwidth.
    setoid_replace ((1 - (l + r)) * fwidth self)
      with (fwidth self - l * fwidth self - r * fwidth self) by ring.
    now rewrite Hl, Hr. }
  assert (Hax : assumed
                == self.(fwidth) - 0.85
                   - (if negb self.(meteo_on) then 0.35 else 0.85)).
  { subst assumed. unfold right_inches in Hin.
    destruct (meteo_on self); cbn [negb]; rewrite Hin; ring. }
  unfold label_padding, Py.truediv.
  set (axwidth := fwidth self - 0.85
                  - (if negb (meteo_on self) then 0.35 else 0.85)) in *.
  split.
  - intros Hne. destruct (Qeq_bool axwidth 0) eqn:E.
    + apply Qeq_bool_iff in E. rewrite Hax in Hne. contradiction.
    + cbn [rbind]. eexists. split; [ reflexivity | ].
      rewrite Hax. field. intros E0. apply Qeq_bool_iff in E0. congruence.
  - intros H0. rewrite Hax in H0. apply Qeq_bool_iff in H0. now rewrite H0.
Qed.

(** The statement of X12 for the 11 in by 7 in figure, whose axes are
    9.3 in wide, and for a figure 1.7 in wide. *)
Lemma draw_ylabels_padding_witness :
  (exists labPad, label_padding init = Ok labPad /\ labPad * 9.3 == 0.3 / 2.54)
  /\ label_padding narrow_figure = Raise ZeroDivisionError.
Proof.
  split.
  - destruct (draw_ylabels_padding init) with (i := 0%nat) (p := (0.85 / 11, 0.6 / 7, 1 - (0.85 / 11 + 0.85 / 11), 1 - (0.6 / 7 + (0.25 / 7 + 0.45 / 7))))
      as [ Hok _ ]; [ reflexivity | reflexivity | reflexivity | ].
    destruct Hok as (labPad & Hrun & Hpad); [ vm_compute; discriminate | ].
    exists labPad. split; [ exact Hrun | ].
    rewrite <- Hpad. apply Qmult_comp; [ reflexivity | ]. vm_compute. reflexivity.
  - destruct (draw_ylabels_padding narrow_figure) with (i := 0%nat) (p := (0.85 / 1.7, 0.6 / 7, 1 - (0.85 / 1.7 + 0.85 / 1.7), 1 - (0.6 / 7 + (0.25 / 7 + 0.45 / 7))))
      as [ _ Hzero ]; [ reflexivity | reflexivity | reflexivity | ].
    apply Hzero. vm_compute. reflexivity.
Defined.

(** ** Change of datum *)

Section DatumChange.

Lemma py_int_opp (q : Q) : Py.int (- q) = (- Py.int q)%Z.
Proof. destruct q as [ n d ]. unfold Py.int. cbn. apply Z.quot_opp_l. lia. Qed.

(** [int] drops less than one unit, towards zero. *)
Lemma py_int_trunc (q : Q) :
  Qabs (q - inject_Z (Py.int q)) < 1
  /\ (0 <= q -> 0 <= q - inject_Z (Py.int q)).
Proof.
  destruct (Qlt_le_dec q 0) as [ Hneg | Hpos ].
  - assert (E : Py.int q = (- Qfloor (- q))%Z).
    { rewrite <- (Z.opp_involutive (Py.int q)), <- py_int_opp.
      rewrite py_int_floor by lra. reflexivity. }
    rewrite E, inject_Z_opp.
    assert (H1 := Qfloor_le (- q)). assert (H2 := Qlt_floor (- q)).
    rewrite inject_Z_plus in H2. change (inject_Z 1) with 1 in H2.
    split; [ | lra ]. apply Qabs_case; lra.
  - rewrite py_int_floor by exact Hpos.
    assert (H1 := Qfloor_le q). assert (H2 := Qlt_floor q).
    rewrite inject_Z_plus in H2. change (inject_Z 1) with 1 in H2.
    split; [ apply Qabs_case; lra | lra ].
Qed.

Lemma altitude_rest_small (ALT : Q) (self : Hydrograph) :
  0 < self.(WLscale) ->
  Qabs (altitude_rest ALT self) < self.(WLscale)
  /\ (0 <= ALT -> 0 <= altitude_rest ALT self).
Proof.
  intros Hs. unfold altitude_rest.
  set (s := WLscale self) in *. set (q := ALT / s).
  destruct (py_int_trunc q) as [ H1 H2 ].
  assert (E : ALT - inject_Z (Py.int q) * s == (q - inject_Z (Py.int q)) * s)
    by (subst q; field; lra).
  split.
  - rewrite (Qabs_wd _ _ E), Qabs_Qmult, (Qabs_pos s) by lra.
    rewrite <- (Qmult_1_l s) at 2. apply Qmult_lt_compat_r; assumption.
  - intros HA. rewrite E. apply Qmult_le_0_compat; [ | lra ].
    apply H2. subst q. apply Qle_shift_div_l; lra.
Qed.

Lemma datum_changed_run (ALT : Q) (d : Datum) (self : Hydrograph) :
  ~ self.(WLscale) == 0 ->
  datum_changed ALT d self
  = (Ok tt,
     with_WLmin (inject_Z (Py.int (ALT / self.(WLscale))) * self.(WLscale)
                 - self.(WLmin))
       (with_WLdatum d self)).
Proof.
  intros Hs. unfold datum_changed, bind, get, lift, modify.
  cbn [WLscale WLmin with_WLdatum]. now rewrite truediv_ok.
Qed.

End DatumChange.



(** ** Dates of the layout panel *)

(** X14.  The two dates of the layout panel survive being stored and read
    back: for months from March 1900 to December 9999 the bounds stored by
    [update_graph_layout_parameter] are read by [load_graph_layout] as the
    first days of the same months.  The other way round a stored bound is
    moved back to the first day of its month and stays where it is exactly
    when it is one.  A start in January or February 1900 cannot be stored. *)
Theorem layout_dates_roundtrip (self : Hydrograph) :
  (forall date_start date_end : Z * Z,
      valid_month date_start -> valid_month date_end ->
      fst (update_graph_layout_dates date_start date_end self) = Ok tt
      /\ fst (load_graph_layout_dates
                (snd (update_graph_layout_dates date_start date_end self)))
         = Ok (first_of date_start, first_of date_end))
  /\ ((61 <= self.(TIMEmin) < 2958466)%Z ->
      (61 <= self.(TIMEmax) < 2958466)%Z ->
      exists y0 m0 d0 y1 m1 d1,
        fst (load_graph_layout_dates self) = Ok ((y0, m0, d0), (y1, m1, d1))
        /\ self.(TIMEmin) = (first_day (y0, m0) + d0 - 1)%Z
        /\ self.(TIMEmax) = (first_day (y1, m1) + d1 - 1)%Z
        /\ (1 <= d0 <= 31)%Z /\ (1 <= d1 <= 31)%Z
        /\ update_graph_layout_dates (y0, m0) (y1, m1) self
           = (Ok tt, with_TIMEmax (first_day (y1, m1))
                       (with_TIMEmin (first_day (y0, m0)) self)))
  /\ (forall m date_end, (m = 1 \/ m = 2)%Z ->
        update_graph_layout_dates (1900%Z, m) date_end self
        = (Raise XLDateAmbiguous, self)).
Proof.
  split; [ | split ].
  - intros [ y0 m0 ] [ y1 m1 ] Hv0 Hv1.
    unfold update_graph_layout_dates, bind, lift, modify. cbn [fst snd].
    rewrite (xldate_from_first_day y0 m0 Hv0), (xldate_from_first_day y1 m1 Hv1).
    cbn [fst snd]. split; [ reflexivity | ].
    unfold load_graph_layout_dates, bind, get, lift, ret.
    cbn [TIMEmin TIMEmax with_TIMEmin with_TIMEmax].
    destruct (xldate_as_tuple_first_day (y0, m0) Hv0) as (h0 & n0 & s0 & Hx0).
    destruct (xldate_as_tuple_first_day (y1, m1) Hv1) as (h1 & n1 & s1 & Hx1).
    rewrite Hx0, Hx1. reflexivity.
  - intros Hmin Hmax.
    destruct (xldate_as_tuple_day _ Hmin) as (y0 & m0 & d0 & hh0 & mm0 & ss0 & Hymd0 & Hx0).
    destruct (xldate_as_tuple_day _ Hmax) as (y1 & m1 & d1 & hh1 & mm1 & ss1 & Hymd1 & Hx1).
    assert (Hr0 := ymd_of_xldays_roundtrip _ Hmin).
    assert (Hr1 := ymd_of_xldays_roundtrip _ Hmax).
    assert (Hd0 := day_in_month _ Hmin). assert (Hd1 := day_in_month _ Hmax).
    rewrite Hymd0 in Hr0, Hd0. rewrite Hymd1 in Hr1, Hd1.
    destruct Hd0 as (Hv0 & _ & Hday0). destruct Hd1 as (Hv1 & _ & Hday1).
    exists y0, m0, d0, y1, m1, d1.
    split; [ unfold load_graph_layout_dates, bind, get, lift, ret;
             now rewrite Hx0, Hx1 | ].
    split; [ lia | ]. split; [ lia | ].
    split; [ tauto | ]. split; [ tauto | ].
    unfold update_graph_layout_dates, bind, lift, modify. cbn [fst snd].
    now rewrite (xldate_from_first_day y0 m0 Hv0), (xldate_from_first_day y1 m1 Hv1).
  - intros m date_end [ -> | -> ]; reflexivity.
Qed.

(** The statement of X14 for the months January 2000 and January 2002. *)
Lemma layout_dates_roundtrip_witness :
  fst (load_graph_layout_dates
         (snd (update_graph_layout_dates (2000, 1)%Z (2002, 1)%Z init)))
  = Ok ((2000, 1, 1)%Z, (2002, 1, 1)%Z).
Proof.
  destruct (layout_dates_roundtrip init) as (Hstore & _).
  destruct (Hstore (2000, 1)%Z (2002, 1)%Z) as [ _ Hload ];
    [ cbn; lia | cbn; lia | ].
  exact Hload.
Defined.

(** ** Ticks of the precipitation axis *)

Section PrecipScale.

Variable RAINscale : Q.
Hypothesis RAINscale_pos : 0 < RAINscale.

(** From the [j]-th multiple of the scale the loop stops at the first
    multiple above [top]. *)
Lemma yticksmax_loop_stops (top : Q) (k : Z) :
  inject_Z k - 1 <= top / RAINscale -> top / RAINscale < inject_Z k ->
  forall (r : nat) (j : Z) (y : Q) (fuel : nat),
    (0 <= j)%Z -> (j + Z.of_nat r = k)%Z -> y == inject_Z j * RAINscale ->
    (r < fuel)%nat ->
    exists y', yticksmax_loop fuel RAINscale top y = Some y'
               /\ y' == inject_Z k * RAINscale.
Proof.
  intros Hlo Hhi.
  assert (Htop : top == top / RAINscale * RAINscale) by (field; lra).
  induction r as [ | r IH ]; intros j y fuel Hj Hk Hy Hfuel;
    (destruct fuel as [ | fuel ]; [ lia | ]); cbn [yticksmax_loop].
  - replace j with k in Hy by lia.
    replace (Xldate.Qlt_bool top y) with true.
    + exists y. now split.
    + symmetry. unfold Xldate.Qlt_bool. apply negb_true_iff.
      destruct (Qle_bool y top) eqn:E; [ | reflexivity ].
      apply Qle_bool_iff in E. rewrite Hy, Htop in E.
      apply Qmult_le_r in E; [ lra | exact RAINscale_pos ].
  - replace (Xldate.Qlt_bool top y) with false.
    + apply (IH (j + 1)%Z); [ lia | lia | | lia ].
      rewrite inject_Z_plus, Hy. change (inject_Z 1) with 1. ring.
    + symmetry. unfold Xldate.Qlt_bool. apply negb_false_iff.
      apply Qle_bool_iff. rewrite Hy, Htop.
      apply Qmult_le_compat_r; [ | lra ].
      assert (H : inject_Z j <= inject_Z k - 1).
      { assert (H' : (j <= k - 1)%Z) by lia.
        rewrite Zle_Qle in H'. unfold Z.sub in H'.
        rewrite inject_Z_plus in H'. exact H'. }
      lra.
Qed.

End PrecipScale.

(** X15.  With the weather panel and a positive [RAINscale],
    [update_precip_scale] terminates and puts the ticks of the
    precipitation axis at 0, [RAINscale], 2 [RAINscale], ... up to the
    first multiple of [RAINscale] strictly above the highest vertex of the
    bars, or up to the top of the axis, [NZGrid * RAINscale], when that is
    lower.  When the bars have no path, or a path without vertices, the
    ticks are 0 to 3 [RAINscale]. *)
Theorem update_precip_scale_ticks
    (RAINscale : Q) (paths : list (list Q)) (self : Hydrograph) :
  0 < RAINscale -> self.(meteo_on) = true -> (0 <= self.(NZGrid))%Z ->
  let ticks (n : Z) :=
    map (fun i => 0 + inject_Z (Z.of_nat i) * RAINscale) (seq 0 (Z.to_nat n)) in
  (forall y rest top,
      paths = y :: rest -> is_max top y -> 0 <= top ->
      exists k : Z,
        inject_Z k - 1 <= top / RAINscale /\ top / RAINscale < inject_Z k
        /\ forall fuel, (Z.to_nat k < fuel)%nat ->
             update_precip_scale fuel RAINscale paths self
             = Some (Some (inject_Z self.(NZGrid) * RAINscale,
                           ticks (Z.min self.(NZGrid) k + 1)%Z)))
  /\ (paths = [] \/ (exists rest, paths = [] :: rest) ->
      forall fuel,
        update_precip_scale fuel RAINscale paths self
        = Some (Some (inject_Z self.(NZGrid) * RAINscale, ticks 4%Z))).
Proof.
  intros Hs Hon HN ticks. split.
  - intros y rest top -> Hmax Htop.
    set (k := (Qfloor (top / RAINscale) + 1)%Z).
    assert (Hf1 := Qfloor_le (top / RAINscale)).
    assert (Hf2 := Qlt_floor (top / RAINscale)). fold k in Hf2.
    assert (Ek : inject_Z k - 1 == inject_Z (Qfloor (top / RAINscale))).
    { subst k. rewrite inject_Z_plus. change (inject_Z 1) with 1. ring. }
    assert (Hq : 0 <= top / RAINscale) by (apply Qle_shift_div_l; lra).
    assert (Hk : (1 <= k)%Z).
    { subst k. assert (H : (0 <= Qfloor (top / RAINscale))%Z).
      { change 0%Z with (Qfloor 0). now apply Qfloor_resp_le. }
      lia. }
    exists k. split; [ rewrite Ek; exact Hf1 | ]. split; [ exact Hf2 | ].
    intros fuel Hfuel.
    assert (Hy : Np.max y = Ok top \/ exists top', Np.max y = Ok top' /\ top' == top).
    { destruct y as [ | a r ]; [ destruct Hmax as [ [] _ ] | ].
      right. exists (fold_left Np.Qmax r a). split; [ reflexivity | ].
      destruct (fold_Qmax_spec r a) as [ Hin Hle ]. destruct Hmax as [ Hin' Hle' ].
      apply Qle_antisym; [ now apply Hle' | now apply Hle ]. }
    assert (Hy' : exists top', Np.max y = Ok top' /\ top' == top).
    { destruct Hy as [ H | H ]; [ exists top; split; [ exact H | reflexivity ] | exact H ]. }
    destruct Hy' as (top' & Hrun & Etop).
    destruct (yticksmax_loop_stops RAINscale Hs top' k) with
        (r := Z.to_nat k) (j := 0%Z) (y := 0) (fuel := fuel)
      as (y' & Hloop & Ey'); try lia.
    { rewrite Etop, Ek. exact Hf1. }
    { rewrite Etop. exact Hf2. }
    { change (inject_Z 0) with 0. ring. }
    unfold update_precip_scale. rewrite Hon. cbn [negb].
    rewrite getitem_first. cbn [rbind]. rewrite Hrun, Hloop.
    do 3 f_equal. subst ticks. cbv beta.
    assert (Emin : Np.Qmin (inject_Z (NZGrid self) * RAINscale) y'
                   == inject_Z (Z.min (NZGrid self) k) * RAINscale).
    { unfold Np.Qmin.
      destruct (Qle_bool (inject_Z (NZGrid self) * RAINscale) y') eqn:E.
      - apply Qle_bool_iff in E. rewrite Ey' in E.
        apply Qmult_le_r in E; [ | exact Hs ].
        rewrite <- Zle_Qle in E. rewrite Z.min_l by exact E. reflexivity.
      - apply Qle_bool_false in E. rewrite Ey' in E.
        apply Qmult_lt_r in E; [ | exact Hs ].
        rewrite <- Zlt_Qlt in E. rewrite Z.min_r by lia. exact Ey'. }
    assert (E : (Np.Qmin (inject_Z (NZGrid self) * RAINscale) y' + RAINscale / 2 - 0)
                / RAINscale
                == inject_Z (Z.min (NZGrid self) k) + (1 # 2)).
    { rewrite Emin. field. lra. }
    apply arange_values; rewrite E, inject_Z_plus; change (inject_Z 1) with 1; lra.
  - intros Hpaths fuel. unfold update_precip_scale. rewrite Hon. cbn [negb].
    assert (Hraise : exists e, (y <- Py.getitem paths 0 ;; Np.max y)%res = Raise e).
    { destruct Hpaths as [ -> | (rest & ->) ].
      - exists IndexError. reflexivity.
      - exists ValueError. rewrite getitem_first. reflexivity. }
    destruct Hraise as (e & ->).
    do 3 f_equal. subst ticks. cbv beta. apply arange_values.
    + assert (E : (3.9 * RAINscale - 0) / RAINscale == 3.9) by (field; lra).
      rewrite E. reflexivity.
    + assert (E : (3.9 * RAINscale - 0) / RAINscale == 3.9) by (field; lra).
      rewrite E. discriminate.
Qed.

(** The statement of X15 for bars of 12, 47 and 30 mm on the default grid
    with a scale of 20 mm: the ticks are 0, 20, 40 and 60. *)
Lemma update_precip_scale_ticks_witness :
  exists ticks,
    update_precip_scale 4 20 three_bars init = Some (Some (8 * 20, ticks))
    /\ Forall2 Qeq ticks [0; 20; 40; 60].
Proof.
  destruct (update_precip_scale_ticks 20 three_bars init) as [ Hbars _ ];
    [ reflexivity | reflexivity | vm_compute; discriminate | ].
  destruct (Hbars [0; 0; 12; 12; 0; 0; 47; 47; 0; 0; 30; 30; 0] [] 47)
    as (k & Hlo & Hhi & Hrun); [ reflexivity | | vm_compute; discriminate | ].
  { split.
    - cbn. tauto.
    - intros v Hv. cbn in Hv.
      repeat (destruct Hv as [ <- | Hv ]; [ vm_compute; discriminate | ]).
      destruct Hv. }
  assert (Ek : k = 3%Z).
  { assert (H1 : inject_Z k - 1 <= 47 / 20) by exact Hlo.
    assert (H2 : 47 / 20 < inject_Z k) by exact Hhi.
    assert (E : 47 / 20 == 2.35) by reflexivity. rewrite E in H1, H2.
    assert (Ha : inject_Z k < inject_Z 4) by (change (inject_Z 4) with 4; lra).
    assert (Hb : inject_Z 2 < inject_Z k) by (change (inject_Z 2) with 2; lra).
    rewrite <- Zlt_Qlt in Ha, Hb. lia. }
  subst k. eexists. split; [ apply Hrun; vm_compute; lia | ].
  vm_compute. repeat (constructor; [ reflexivity | ]). constructor.
Defined.

(** ** Ticks from any day *)

Section TickLists.

Local Open Scope Z_scope.

Variable sin_45 : Q.
Variables txt_bbox ax_bbox : Bbox.

Let loop := xticks_loop sin_45 txt_bbox ax_bbox.

Lemma combine_snoc {A B} (l1 : list A) (l2 : list B) (a : A) (b : B) :
  length l1 = length l2 ->
  combine (l1 ++ [a]) (l2 ++ [b]) = combine l1 l2 ++ [(a, b)].
Proof.
  revert l2. induction l1 as [ | x l1 IH ]; intros [ | y l2 ] H; try discriminate.
  - reflexivity.
  - cbn. f_equal. apply IH. now injection H.
Qed.

Lemma every_nth_snoc {A} (p : Z) (l : list A) (a : A) :
  every_nth p (l ++ [a])
  = every_nth p l ++ (if Z.of_nat (length l) mod p =? 0 then [a] else []).
Proof.
  unfold every_nth. rewrite length_app. cbn [length].
  rewrite seq_app. cbn [seq Nat.add].
  rewrite combine_snoc by now rewrite length_seq.
  rewrite filter_app, map_app. cbn [filter fst].
  destruct (Z.of_nat (length l) mod p =? 0); reflexivity.
Qed.

(** What holds of the four lists after every pass. *)
Definition ticks_invariant (self : Hydrograph) (acc : xticks_info) : Prop :=
  acc.(xticks_position) = every_nth self.(date_labels_pattern)
                            acc.(xticks_minor_position)
  /\ length acc.(xticks_labels) = length acc.(xticks_position)
  /\ length acc.(xticks_labels_position) = length acc.(xticks_position).

Lemma xticks_loop_invariant (fuel : nat) :
  forall self i pos acc out,
    loop fuel self i pos acc = Some (Ok out) ->
    i = Z.of_nat (length acc.(xticks_minor_position)) ->
    ticks_invariant self acc ->
    ticks_invariant self out
    /\ self.(date_labels_pattern) <> 0
    /\ exists rest, out.(xticks_minor_position)
                    = acc.(xticks_minor_position) ++ pos :: rest.
Proof.
  subst loop.
  induction fuel as [ | fuel IH ]; intros self i pos acc out Hrun Hi Hacc;
    [ discriminate | ].
  cbn [xticks_loop] in Hrun.
  destruct (Xldate.xldate_as_tuple (inject_Z pos))
    as [ [ [ [ [ [ y m ] d ] hh ] mm ] ss ] | e ]; [ | discriminate ].
  destruct (Calendar.monthrange y m) as [ mr | e ]; [ | discriminate ].
  destruct (Z.eqb_spec (date_labels_pattern self) 0) as [ E0 | Hp ];
    [ discriminate | ].
  match type of Hrun with
  | match ?lab with _ => _ end = _ =>
      destruct lab as [ acc' | e ] eqn:Hlab; [ | discriminate ]
  end.
  assert (Hacc' : ticks_invariant self acc'
                  /\ acc'.(xticks_minor_position)
                     = acc.(xticks_minor_position) ++ [pos]).
  { destruct Hacc as (H1 & H2 & H3). unfold ticks_invariant.
    destruct (i mod date_labels_pattern self =? 0) eqn:Emod.
    - match type of Hlab with
      | rbind ?lbl _ = _ => destruct lbl as [ label | e ]; [ | discriminate ]
      end.
      cbn [rbind] in Hlab. injection Hlab as <-.
      cbn [xticks_position xticks_labels xticks_labels_position
           xticks_minor_position].
      rewrite every_nth_snoc, <- Hi, Emod, <- H1, !length_app, H2, H3.
      repeat split.
    - injection Hlab as <-.
      cbn [xticks_position xticks_labels xticks_labels_position
           xticks_minor_position].
      rewrite every_nth_snoc, <- Hi, Emod, app_nil_r. repeat split; assumption. }
  destruct Hacc' as [ Hinv Hminor ].
  match type of Hrun with
  | match ?nxt with _ => _ end = _ =>
      destruct nxt as [ next | e ]; [ | discriminate ]
  end.
  destruct (next >? TIMEmax self).
  - injection Hrun as <-. split; [ exact Hinv | ]. split; [ exact Hp | ].
    exists []. exact Hminor.
  - apply IH in Hrun; [ | rewrite Hminor, length_app; cbn [length]; lia | exact Hinv ].
    destruct Hrun as (Hout & _ & rest & Hrest).
    split; [ exact Hout | ]. split; [ exact Hp | ].
    exists (next :: rest). rewrite Hrest, Hminor, <- app_assoc. reflexivity.
Qed.

Lemma month_length_at_bounds (x : Z) : 28 <= month_length_at x <= 31.
Proof.
  unfold month_length_at. destruct (Xldate.ymd_of_xldays x) as [ [ y m ] d ].
  apply days_in_month_bounds.
Qed.

(** One pass by month from a day that can be dated. *)
Lemma xticks_loop_month_pass (self : Hydrograph) (i pos : Z) (acc : xticks_info) :
  self.(datemode) = Month ->
  self.(date_labels_pattern) <> 0 ->
  61 <= pos < 2958466 ->
  exists acc',
    acc'.(xticks_minor_position) = acc.(xticks_minor_position) ++ [pos]
    /\ forall fuel,
         loop (S fuel) self i pos acc
         = if pos + month_length_at pos >? self.(TIMEmax)
           then Some (Ok acc')
           else loop fuel self (i + 1) (pos + month_length_at pos) acc'.
Proof.
  intros Hmode Hp Hpos. subst loop.
  destruct (xldate_as_tuple_day pos Hpos)
    as (y & m & d & hh & mm & ss & Hymd & Hx).
  assert (Hr := ymd_of_xldays_roundtrip pos Hpos). rewrite Hymd in Hr.
  destruct Hr as (_ & Hm & _ & _).
  unfold month_length_at. rewrite Hymd.
  destruct (i mod date_labels_pattern self =? 0) eqn:Emod.
  - eexists. split.
    2:{ intros fuel. cbn [xticks_loop].
        rewrite Hx, (monthrange_days y m Hm).
        destruct (Z.eqb_spec (date_labels_pattern self) 0) as [ E | _ ];
          [ contradiction | ].
        rewrite Emod, Hmode, (month_name_getitem _ m Hm). cbn [rbind].
        reflexivity. }
    reflexivity.
  - eexists. split.
    2:{ intros fuel. cbn [xticks_loop].
        rewrite Hx, (monthrange_days y m Hm).
        destruct (Z.eqb_spec (date_labels_pattern self) 0) as [ E | _ ];
          [ contradiction | ].
        rewrite Emod, Hmode. reflexivity. }
    reflexivity.
Qed.

(** By month the loop reaches its [break], a month further at each
    pass. *)
Lemma xticks_loop_months (self : Hydrograph) :
  self.(datemode) = Month ->
  self.(date_labels_pattern) <> 0 ->
  self.(TIMEmax) <= 2958465 ->
  forall (m : nat) (pos i : Z) (acc : xticks_info),
    61 <= pos <= 2958465 ->
    self.(TIMEmax) - pos < 28 * Z.of_nat m ->
    exists rest out,
      out.(xticks_minor_position) = acc.(xticks_minor_position) ++ pos :: rest
      /\ month_steps (pos :: rest)
      /\ Forall (fun t => t <= self.(TIMEmax)) rest
      /\ self.(TIMEmax)
         < last (pos :: rest) 0 + month_length_at (last (pos :: rest) 0)
      /\ forall fuel, (length (pos :: rest) <= fuel)%nat ->
                      loop fuel self i pos acc = Some (Ok out).
Proof.
  intros Hmode Hp Hmax.
  induction m as [ | m IH ]; intros pos i acc Hpos Hm.
  - destruct (xticks_loop_month_pass self i pos acc Hmode Hp ltac:(lia))
      as (acc' & Hminor & Hpass).
    assert (Hlen := month_length_at_bounds pos).
    exists [], acc'. split; [ exact Hminor | ]. split; [ exact I | ].
    split; [ constructor | ]. split; [ cbn [last]; lia | ].
    intros [ | fuel ] Hfuel; [ cbn in Hfuel; lia | ].
    rewrite Hpass.
    replace (pos + month_length_at pos >? TIMEmax self) with true
      by (symmetry; rewrite Z.gtb_ltb; apply Z.ltb_lt; lia).
    reflexivity.
  - destruct (xticks_loop_month_pass self i pos acc Hmode Hp ltac:(lia))
      as (acc' & Hminor & Hpass).
    assert (Hlen := month_length_at_bounds pos).
    destruct (Z.ltb_spec (TIMEmax self) (pos + month_length_at pos))
      as [ Hstop | Hcont ].
    + exists [], acc'. split; [ exact Hminor | ]. split; [ exact I | ].
      split; [ constructor | ]. split; [ cbn [last]; lia | ].
      intros [ | fuel ] Hfuel; [ cbn in Hfuel; lia | ].
      rewrite Hpass, Z.gtb_ltb.
      replace (TIMEmax self <? pos + month_length_at pos) with true
        by (symmetry; apply Z.ltb_lt; exact Hstop).
      reflexivity.
    + destruct (IH (pos + month_length_at pos) (i + 1) acc')
        as (rest & out & Hout & Hsteps & Hall & Hlast & Hrun); [ lia | lia | ].
      exists ((pos + month_length_at pos) :: rest), out.
      split; [ rewrite Hout, Hminor, <- app_assoc; reflexivity | ].
      split; [ split; [ reflexivity | exact Hsteps ] | ].
      split; [ constructor; assumption | ].
      split; [ exact Hlast | ].
      intros [ | fuel ] Hfuel; [ cbn in Hfuel; lia | ].
      rewrite Hpass, Z.gtb_ltb.
      replace (TIMEmax self <? pos + month_length_at pos) with false
        by (symmetry; apply Z.ltb_ge; exact Hcont).
      apply Hrun. cbn [length] in *. lia.
Qed.

End TickLists.

(** X16.  Whatever the bounds of the axis, the lists returned by
    [make_xticks_info] fit together: the first minor tick is [TIMEmin],
    the major ticks are the minor ticks at the positions 0,
    [date_labels_pattern], 2 [date_labels_pattern], ... and there is one
    label and one label position for each major tick. *)
Theorem make_xticks_info_lists
    (sin_45 : Q) (txt_bbox ax_bbox : Bbox) (fuel : nat) (self : Hydrograph)
    (out : xticks_info) :
  make_xticks_info sin_45 txt_bbox ax_bbox fuel self = Some (Ok out) ->
  (exists rest, out.(xticks_minor_position) = self.(TIMEmin) :: rest)
  /\ out.(xticks_position)
     = every_nth self.(date_labels_pattern) out.(xticks_minor_position)
  /\ length out.(xticks_labels) = length out.(xticks_position)
  /\ length out.(xticks_labels_position) = length out.(xticks_position)
  /\ self.(date_labels_pattern) <> 0%Z.
Proof.
  intros Hrun. unfold make_xticks_info in Hrun.
  apply xticks_loop_invariant in Hrun; [ | reflexivity | repeat split ].
  destruct Hrun as ((H1 & H2 & H3) & Hp & rest & Hrest).
  split; [ exists rest; exact Hrest | ]. repeat split; assumption.
Qed.

(** The statement of X16 for the axis from January 2000 to January 2001
    with a label on every third tick. *)
Lemma make_xticks_info_lists_witness :
  exists out,
    make_xticks_info 0.7071 sample_text sample_axes 13 every_third = Some (Ok out)
    /\ out.(xticks_position) = every_nth 3 out.(xticks_minor_position)
    /\ length out.(xticks_labels) = length out.(xticks_position).
Proof.
  destruct (make_xticks_info 0.7071 sample_text sample_axes 13 every_third)
    as [ [ out | e ] | ] eqn:Hrun;
    [ | vm_compute in Hrun; discriminate | vm_compute in Hrun; discriminate ].
  exists out. split; [ reflexivity | ].
  destruct (make_xticks_info_lists 0.7071 sample_text sample_axes 13 every_third
              out Hrun) as (_ & H1 & H2 & _).
  split; [ exact H1 | exact H2 ].
Defined.

(** X17.  By month [make_xticks_info] returns for every axis between
    1 March 1900 and 31 December 9999 and every label pattern other than
    zero.  The minor ticks start at [TIMEmin]; each follows the one before
    by the length of the month in which that one falls (28 to 31 days);
    all but the first are on or before [TIMEmax], and the month after the
    last tick ends after [TIMEmax]. *)
Theorem make_xticks_info_by_month
    (sin_45 : Q) (txt_bbox ax_bbox : Bbox) (self : Hydrograph) :
  self.(datemode) = Month ->
  self.(date_labels_pattern) <> 0%Z ->
  (61 <= self.(TIMEmin) <= 2958465)%Z ->
  (self.(TIMEmax) <= 2958465)%Z ->
  exists rest out,
    (forall fuel, (length (self.(TIMEmin) :: rest) <= fuel)%nat ->
                  make_xticks_info sin_45 txt_bbox ax_bbox fuel self
                  = Some (Ok out))
    /\ out.(xticks_minor_position) = self.(TIMEmin) :: rest
    /\ month_steps (self.(TIMEmin) :: rest)
    /\ Forall (fun t => (t <= self.(TIMEmax))%Z) rest
    /\ (self.(TIMEmax)
        < last (self.(TIMEmin) :: rest) 0 +
          month_length_at (last (self.(TIMEmin) :: rest) 0))%Z
    /\ forall x, (28 <= month_length_at x <= 31)%Z.
Proof.
  intros Hmode Hp Hmin Hmax.
  destruct (xticks_loop_months sin_45 txt_bbox ax_bbox self Hmode Hp Hmax
              (Z.to_nat (self.(TIMEmax) - self.(TIMEmin) + 1))
              self.(TIMEmin) 0%Z (mk_xticks_info [] [] [] []) Hmin)
    as (rest & out & Hout & Hsteps & Hall & Hlast & Hrun); [ lia | ].
  exists rest, out.
  split; [ exact Hrun | ]. split; [ exact Hout | ].
  split; [ exact Hsteps | ]. split; [ exact Hall | ].
  split; [ exact Hlast | apply month_length_at_bounds ].
Qed.

(** The statement of X17 for the axis from 31 January 2000 to 15 June
    2000. *)
Lemma make_xticks_info_by_month_witness :
  exists rest out,
    (forall fuel, (length (from_end_of_january.(TIMEmin) :: rest) <= fuel)%nat ->
                  make_xticks_info 0.7071 sample_text sample_axes fuel
                    from_end_of_january = Some (Ok out))
    /\ out.(xticks_minor_position) = from_end_of_january.(TIMEmin) :: rest
    /\ month_steps (from_end_of_january.(TIMEmin) :: rest)
    /\ Forall (fun t => (t <= from_end_of_january.(TIMEmax))%Z) rest.
Proof.
  destruct (make_xticks_info_by_month 0.7071 sample_text sample_axes
              from_end_of_january)
    as (rest & out & Hrun & Hminor & Hsteps & Hall & _);
    [ reflexivity | vm_compute; discriminate
    | vm_compute; split; discriminate | vm_compute; discriminate | ].
  exists rest, out. repeat split; assumption.
Defined.

(** ** The smoothed water levels *)

Section MovingAverage.

Lemma Qsum_app (a b : list Q) : Qsum (a ++ b) == Qsum a + Qsum b.
Proof.
  unfold Qsum. induction a as [ | x a IH ]; cbn [app fold_right]; [ ring | ].
  rewrite IH. ring.
Qed.

(** The [k]-th cumulated sum is the sum of the first [k] values. *)
Lemma cumsum_from_nth (w : list Q) :
  forall (acc : Q) (k : nat),
    (k < length w)%nat ->
    exists c, nth_error (Seq.cumsum_from acc w) k = Some c
              /\ c == acc + Qsum (firstn (S k) w).
Proof.
  induction w as [ | a w IH ]; intros acc k Hk; [ cbn in Hk; lia | ].
  destruct k as [ | k ].
  - exists (acc + a). split; [ reflexivity | ].
    cbn [firstn]. unfold Qsum. cbn [fold_right]. ring.
  - destruct (IH (acc + a) k) as (c & Hc & Ec); [ cbn in Hk; lia | ].
    exists c. split; [ exact Hc | ].
    rewrite Ec. change (firstn (S (S k)) (a :: w)) with (a :: firstn (S k) w).
    unfold Qsum. cbn [fold_right]. ring.
Qed.

Lemma cumsum_from_length (w : list Q) :
  forall acc, length (Seq.cumsum_from acc w) = length w.
Proof.
  induction w as [ | a w IH ]; intros acc; [ reflexivity | ].
  cbn [Seq.cumsum_from length]. now rewrite IH.
Qed.

Lemma cumsum_nth (w : list Q) (k : nat) :
  (k <= length w)%nat ->
  exists c, nth_error (Seq.cumsum (0 :: w)) k = Some c
            /\ c == Qsum (firstn k w).
Proof.
  intros Hk. cbn [Seq.cumsum]. destruct k as [ | k ].
  - exists 0. split; reflexivity.
  - destruct (cumsum_from_nth w 0 k) as (c & Hc & Ec); [ lia | ].
    exists c. split; [ exact Hc | ]. rewrite Ec. ring.
Qed.

Lemma cumsum_length (w : list Q) :
  length (Seq.cumsum (0 :: w)) = S (length w).
Proof. cbn [Seq.cumsum length]. now rewrite cumsum_from_length. Qed.

Lemma zip_sub_nth (a b : list Q) :
  forall i x y,
    nth_error a i = Some x -> nth_error b i = Some y ->
    nth_error (Seq.zip_sub a b) i = Some (x - y).
Proof.
  revert b. induction a as [ | u a IH ]; intros [ | v b ] i x y Ha Hb;
    try (destruct i; discriminate).
  destruct i as [ | i ]; cbn in *.
  - now injection Ha as <-; injection Hb as <-.
  - now apply IH.
Qed.

Lemma zip_sub_length (a b : list Q) :
  length a = length b -> length (Seq.zip_sub a b) = length a.
Proof.
  revert b. induction a as [ | u a IH ]; intros [ | v b ] H; try discriminate.
  - reflexivity.
  - cbn. f_equal. apply IH. now injection H.
Qed.

(** The sum of a window is the difference of two cumulated sums. *)
Lemma window_sum (w : list Q) (i n : nat) :
  Qsum (firstn (i + n) w) - Qsum (firstn i w) == Qsum (firstn n (skipn i w)).
Proof. rewrite firstn_plus, Qsum_app. ring. Qed.

End MovingAverage.

Section Slices.

Local Open Scope Z_scope.

Context {A : Type}.

(** [l[N:]] for [N >= 0] *)
Lemma getslice_from (l : list A) (N : Z) :
  0 <= N -> Seq.getslice l (Some N) None = skipn (Z.to_nat N) l.
Proof.
  intros HN. unfold Seq.getslice, Seq.bound.
  replace (N <? 0) with false by (symmetry; apply Z.ltb_ge; lia).
  set (n := Z.of_nat (length l)).
  destruct (Z.le_gt_cases N n) as [ Hle | Hgt ].
  - rewrite Z.min_r, Z.max_r by lia.
    apply firstn_all2. rewrite length_skipn. subst n. lia.
  - rewrite Z.min_l, Z.max_r by lia.
    replace (Z.to_nat (n - n)) with 0%nat by lia. cbn [firstn].
    symmetry. apply skipn_all2. subst n. lia.
Qed.

(** [l[:-N]] for [N >= 1] *)
Lemma getslice_upto (l : list A) (N : Z) :
  1 <= N ->
  Seq.getslice l None (Some (- N)) = firstn (length l - Z.to_nat N) l.
Proof.
  intros HN. unfold Seq.getslice, Seq.bound.
  replace (- N <? 0) with true by (symmetry; apply Z.ltb_lt; lia).
  cbn [Z.to_nat skipn]. f_equal. lia.
Qed.

(** [l[N // 2 : -N // 2 + 1]] for [N >= 3] *)
Lemma getslice_centre (l : list A) (N : Z) :
  3 <= N ->
  Seq.getslice l (Some (N / 2)) (Some (- N / 2 + 1))
  = firstn (length l + 1 - Z.to_nat N) (skipn (Z.to_nat (N / 2)) l).
Proof.
  intros HN. unfold Seq.getslice, Seq.bound.
  assert (Hh : 1 <= N / 2 <= N - 2) by (Z.div_mod_to_equations; lia).
  assert (Hs : - N / 2 + 1 = - (N - N / 2) + 1) by (Z.div_mod_to_equations; lia).
  replace (N / 2 <? 0) with false by (symmetry; apply Z.ltb_ge; lia).
  rewrite !Hs.
  replace (- (N - N / 2) + 1 <? 0) with true by (symmetry; apply Z.ltb_lt; lia).
  set (n := Z.of_nat (length l)). set (h := N / 2) in *.
  destruct (Z.le_gt_cases h n) as [ Hle | Hgt ].
  - rewrite (Z.min_r n h), (Z.max_r 0 h) by lia. f_equal. subst n. lia.
  - rewrite (Z.min_l n h), (Z.max_r 0 n) by lia.
    replace (Z.to_nat n) with (length l) by (subst n; lia).
    rewrite skipn_all, (skipn_all2 l) by (subst n; lia).
    now rewrite !firstn_nil.
Qed.

(** [l[N // 2 : -N // 2 + 1]] is empty for [N = 1] and [N = 2]: the stop
    index is zero. *)
Lemma getslice_centre_small (l : list A) (N : Z) :
  N = 1 \/ N = 2 -> Seq.getslice l (Some (N / 2)) (Some (- N / 2 + 1)) = [].
Proof.
  intros [ -> | -> ]; unfold Seq.getslice, Seq.bound.
  - change (- (1) / 2 + 1) with 0. change (1 / 2) with 0.
    cbn [Z.ltb Z.compare]. rewrite !Z.min_r, !Z.max_l by lia. reflexivity.
  - change (- (2) / 2 + 1) with 0. change (2 / 2) with 1.
    cbn [Z.ltb Z.compare]. rewrite (Z.min_r _ 0), (Z.max_l 0 0) by lia.
    replace (Z.to_nat (0 - _)) with 0%nat by lia. reflexivity.
Qed.

End Slices.

(** What a call that returns has computed. *)
Lemma filt_data_inv (time : list Q) (waterlvl : list reading) (N : Z)
    (tf wlf : list Q) :
  filt_data time waterlvl N = Ok (tf, wlf) ->
  exists first last xp fp w diff,
    Py.getitem time 0 = Ok first
    /\ Py.getitem time (-1) = Ok last
    /\ Seq.take_at time (Seq.nonnan_from 0 waterlvl) = Ok xp
    /\ values_at waterlvl (Seq.nonnan_from 0 waterlvl) = Ok fp
    /\ w = map (fun d => Seq.interp_at d (combine xp fp))
               (Np.arange (inject_Z (Qfloor first)) (inject_Z (Qfloor last) + 1) 1)
    /\ Seq.subtract (Seq.getslice (Seq.cumsum (0 :: w)) (Some N) None)
                    (Seq.getslice (Seq.cumsum (0 :: w)) None (Some (- N)%Z))
       = Ok diff
    /\ wlf = map (fun v => v / inject_Z N) diff
    /\ tf = Seq.getslice
              (Np.arange (inject_Z (Qfloor first)) (inject_Z (Qfloor last) + 1) 1)
              (Some (N / 2)%Z) (Some (- N / 2 + 1)%Z).
Proof.
  unfold filt_data. intros H.
  destruct (Py.getitem time 0) as [ first | e ]; [ | discriminate ].
  destruct (Py.getitem time (-1)) as [ last | e ]; [ | discriminate ].
  cbn [rbind] in H.
  destruct (Seq.take_at time (Seq.nonnan_from 0 waterlvl)) as [ xp | e ];
    [ | discriminate ].
  cbn [rbind] in H.
  destruct (values_at waterlvl (Seq.nonnan_from 0 waterlvl)) as [ fp | e ];
    [ | discriminate ].
  cbn [rbind] in H.
  destruct (Seq.interp _ xp fp) as [ w | e ] eqn:Hw; [ | discriminate ].
  cbn [rbind] in H.
  destruct (Seq.subtract _ _) as [ diff | e ] eqn:Hd; [ | discriminate ].
  cbn [rbind] in H. injection H as <- <-.
  assert (Ew : w = map (fun d => Seq.interp_at d (combine xp fp))
                       (Np.arange (inject_Z (Qfloor first))
                                  (inject_Z (Qfloor last) + 1) 1)).
  { unfold Seq.interp in Hw. destruct xp as [ | x xp ]; [ discriminate | ].
    destruct (Nat.eqb (length (x :: xp)) (length fp)); [ | discriminate ].
    now injection Hw as <-. }
  exists first, last, xp, fp, w, diff.
  repeat (split; [ reflexivity || assumption | ]). reflexivity.
Qed.

(** The differences of cumulated sums, for a window of at least one
    day. *)
Lemma cumsum_windows (w diff : list Q) (N : Z) :
  (1 <= N)%Z ->
  Seq.subtract (Seq.getslice (Seq.cumsum (0 :: w)) (Some N) None)
               (Seq.getslice (Seq.cumsum (0 :: w)) None (Some (- N)%Z))
  = Ok diff ->
  length diff = (length w + 1 - Z.to_nat N)%nat
  /\ forall i, (i < length diff)%nat ->
       exists b, nth_error diff i = Some b
                 /\ b == Qsum (firstn (Z.to_nat N) (skipn i w)).
Proof.
  intros HN. rewrite getslice_from, getslice_upto by lia.
  set (c := Seq.cumsum (0 :: w)). set (n := Z.to_nat N).
  assert (Hc : length c = S (length w)) by apply cumsum_length.
  assert (Hn : (1 <= n)%nat) by (subst n; lia).
  assert (Hlen : length (skipn n c) = length (firstn (length c - n) c)).
  { rewrite length_skipn, length_firstn. lia. }
  unfold Seq.subtract. rewrite (proj2 (Nat.eqb_eq _ _) Hlen).
  intros H.
  assert (E : diff = Seq.zip_sub (skipn n c) (firstn (length c - n) c))
    by (symmetry; now injection H).
  rewrite E. clear E H.
  assert (Hd : length (Seq.zip_sub (skipn n c) (firstn (length c - n) c))
               = (length w + 1 - n)%nat).
  { rewrite zip_sub_length by exact Hlen. rewrite length_skipn. lia. }
  split; [ exact Hd | ].
  intros i Hi0.
  assert (Hi : (i < length w + 1 - n)%nat) by (rewrite <- Hd; exact Hi0).
  destruct (cumsum_nth w (n + i)) as (c1 & Hc1 & E1); [ lia | ].
  destruct (cumsum_nth w i) as (c0 & Hc0 & E0); [ lia | ].
  exists (c1 - c0). split.
  - apply zip_sub_nth.
    + rewrite nth_error_skipn. exact Hc1.
    + rewrite nth_error_firstn.
      replace (i <? length c - n)%nat with true
        by (symmetry; apply Nat.ltb_lt; lia).
      exact Hc0.
  - rewrite E1, E0. replace (n + i)%nat with (i + n)%nat by lia.
    apply window_sum.
Qed.

(** X18.  [filt_data] resamples the record on whole days, [w] being the
    interpolated levels, and for a window of [N >= 3] days returns as many
    times as levels, [len(w) - N + 1] of each: the [i]-th level is the
    mean of the [N] daily levels from day [i] on, and the [i]-th time is
    the day [i + N // 2], the middle of that window.  For a window of one
    or two days the slice of the times is empty whereas the levels are
    not: times and levels no longer match. *)
Theorem filt_data_moving_average
    (time : list Q) (waterlvl : list reading) (N : Z) (tf wlf : list Q) :
  filt_data time waterlvl N = Ok (tf, wlf) ->
  exists first last xp fp w,
    Py.getitem time 0 = Ok first
    /\ Py.getitem time (-1) = Ok last
    /\ Seq.take_at time (Seq.nonnan_from 0 waterlvl) = Ok xp
    /\ values_at waterlvl (Seq.nonnan_from 0 waterlvl) = Ok fp
    /\ w = map (fun d => Seq.interp_at d (combine xp fp))
               (Np.arange (inject_Z (Qfloor first)) (inject_Z (Qfloor last) + 1) 1)
    /\ ((3 <= N)%Z ->
        length tf = length wlf
        /\ length wlf = (length w + 1 - Z.to_nat N)%nat
        /\ forall i, (i < length wlf)%nat ->
             exists a b,
               nth_error tf i = Some a /\ nth_error wlf i = Some b
               /\ a == inject_Z (Qfloor first + (Z.of_nat i + N / 2))
               /\ b == window_mean w i N)
    /\ ((N = 1 \/ N = 2)%Z ->
        tf = [] /\ length wlf = (length w + 1 - Z.to_nat N)%nat).
Proof.
  intros Hrun.
  destruct (filt_data_inv time waterlvl N tf wlf Hrun)
    as (first & last & xp & fp & w & diff & H0 & H1 & Hxp & Hfp & Hw & Hd & Hwlf & Htf).
  exists first, last, xp, fp, w.
  repeat (split; [ assumption | ]).
  set (days := Np.arange (inject_Z (Qfloor first)) (inject_Z (Qfloor last) + 1) 1) in *.
  assert (Hdays : length days = length w) by (rewrite Hw; now rewrite length_map).
  split.
  - intros HN.
    destruct (cumsum_windows w diff N ltac:(lia) Hd) as [ Hlen Hnth ].
    assert (Hlw : length wlf = (length w + 1 - Z.to_nat N)%nat)
      by (rewrite Hwlf, length_map; exact Hlen).
    assert (Hh : (1 <= N / 2 <= N - 2)%Z) by (Z.div_mod_to_equations; lia).
    rewrite getslice_centre in Htf by exact HN.
    assert (Hlt : length tf = (length w + 1 - Z.to_nat N)%nat).
    { rewrite Htf, length_firstn, length_skipn, Hdays. lia. }
    split; [ congruence | ]. split; [ exact Hlw | ].
    intros i Hi. rewrite Hlw in Hi.
    destruct (Hnth i) as (b & Hb & Eb); [ lia | ].
    assert (Ha : nth_error tf i
                 = Some (inject_Z (Qfloor first)
                         + inject_Z (Z.of_nat (Z.to_nat (N / 2) + i)) * 1)).
    { rewrite Htf, nth_error_firstn.
      replace (i <? length days + 1 - Z.to_nat N)%nat with true
        by (symmetry; apply Nat.ltb_lt; lia).
      rewrite nth_error_skipn. unfold days, Np.arange.
      rewrite nth_error_map, nth_error_seq.
      replace (Z.to_nat (N / 2) + i <? _)%nat with true; [ reflexivity | ].
      symmetry. apply Nat.ltb_lt.
      assert (E : length days = Z.to_nat (Qceiling ((inject_Z (Qfloor last) + 1
                                                     - inject_Z (Qfloor first)) / 1))).
      { unfold days, Np.arange. now rewrite length_map, length_seq. }
      rewrite <- E. lia. }
    eexists. exists (b / inject_Z N).
    split; [ exact Ha | ]. split.
    + rewrite Hwlf, nth_error_map, Hb. reflexivity.
    + split.
      * rewrite Qmult_1_r, <- inject_Z_plus.
        replace (Z.of_nat (Z.to_nat (N / 2) + i)) with (Z.of_nat i + N / 2)%Z by lia.
        reflexivity.
      * unfold window_mean. now rewrite Eb.
  - intros HN.
    destruct (cumsum_windows w diff N ltac:(lia) Hd) as [ Hlen _ ].
    split; [ rewrite Htf; now apply getslice_centre_small | ].
    rewrite Hwlf, length_map. exact Hlen.
Qed.

(** The statement of X18 for six days with one missing level and a window
    of three days: the missing level is interpolated to 8, and the four
    means are those of 5, 6, 8; 6, 8, 10; 8, 10, 8 and 10, 8, 9, on the days
    2 to 5. *)
Lemma filt_data_moving_average_witness :
  exists tf wlf,
    filt_data six_days_time six_days_levels 3 = Ok (tf, wlf)
    /\ Forall2 Qeq tf [36527; 36528; 36529; 36530]
    /\ Forall2 Qeq wlf [19 / 3; 8; 26 / 3; 9]
    /\ length tf = length wlf.
Proof.
  destruct (filt_data six_days_time six_days_levels 3) as [ [ tf wlf ] | e ] eqn:Hrun;
    [ | vm_compute in Hrun; discriminate ].
  exists tf, wlf. split; [ reflexivity | ].
  destruct (filt_data_moving_average _ _ _ _ _ Hrun)
    as (first & last & xp & fp & w & _ & _ & _ & _ & _ & Hbig & _).
  destruct Hbig as (Hlen & _); [ vm_compute; discriminate | ].
  vm_compute in Hrun. injection Hrun as <- <-.
  split; [ repeat (constructor; [ vm_compute; reflexivity | ]); constructor | ].
  split; [ repeat (constructor; [ vm_compute; reflexivity | ]); constructor | ].
  reflexivity.
Defined.

(** ** Bins drawn on the time axis *)

Section Subsample.

Lemma where_from_spec (mask : list bool) :
  forall i k,
    In k (where_from i mask)
    <-> exists j, k = (i + j)%nat /\ nth_error mask j = Some true.
Proof.
  induction mask as [ | b mask IH ]; intros i k.
  - cbn. split; [ tauto | ]. intros (j & _ & H). destruct j; discriminate.
  - assert (Hrec : In k (where_from (S i) mask)
                   <-> exists j, k = (i + S j)%nat /\ nth_error mask j = Some true).
    { rewrite IH. split; intros (j & -> & H); exists j; split; auto; lia. }
    destruct b; cbn [where_from In].
    + rewrite Hrec. split.
      * intros [ <- | (j & -> & H) ]; [ exists 0%nat | exists (S j) ]; split; auto; lia.
      * intros ([ | j ] & -> & H); [ left; lia | right; exists j; auto ].
    + rewrite Hrec. split.
      * intros (j & -> & H). exists (S j). auto.
      * intros ([ | j ] & -> & H); [ discriminate | exists j; auto ].
Qed.

(** The indices come in ascending order: the first is the least and the
    last the greatest. *)
Lemma where_from_first (mask : list bool) :
  forall i k r,
    where_from i mask = k :: r ->
    forall k', In k' (where_from i mask) -> (k <= k')%nat.
Proof.
  induction mask as [ | b mask IH ]; intros i k r H k' Hk'; [ discriminate | ].
  destruct b; cbn [where_from] in *.
  - injection H as <- _. destruct Hk' as [ <- | Hk' ]; [ lia | ].
    apply where_from_spec in Hk'. destruct Hk' as (j & -> & _). lia.
  - eapply IH; eassumption.
Qed.

Lemma where_from_last (mask : list bool) :
  forall i d k', In k' (where_from i mask) ->
                 (k' <= List.last (where_from i mask) d)%nat
                 /\ In (List.last (where_from i mask) d) (where_from i mask).
Proof.
  induction mask as [ | b mask IH ]; intros i d k' Hk'; [ destruct Hk' | ].
  destruct b; cbn [where_from] in *.
  - destruct (where_from (S i) mask) as [ | k1 r ] eqn:E.
    + destruct Hk' as [ <- | [] ]. cbn. split; [ lia | now left ].
    + change (List.last (i :: k1 :: r) d) with (List.last (k1 :: r) d).
      destruct Hk' as [ <- | Hk' ].
      * destruct (IH (S i) d k1) as [ H1 H2 ]; [ rewrite E; now left | ].
        rewrite E in H1, H2. split; [ | now right ].
        assert (Hin : In k1 (where_from (S i) mask)) by (rewrite E; now left).
        apply where_from_spec in Hin. destruct Hin as (j & -> & _). lia.
      * destruct (IH (S i) d k') as [ H1 H2 ]; [ rewrite E; exact Hk' | ].
        rewrite E in H1, H2. split; [ exact H1 | now right ].
  - apply IH. exact Hk'.
Qed.

(** [l[a:b]] for two indices that are not negative. *)
Lemma getslice_nth {A} (l : list A) (a b : Z) (j : nat) :
  (0 <= a)%Z -> (0 <= b)%Z ->
  nth_error (Seq.getslice l (Some a) (Some b)) j
  = if (Z.of_nat j <? b - a)%Z then nth_error l (Z.to_nat a + j) else None.
Proof.
  intros Ha Hb. unfold Seq.getslice, Seq.bound.
  replace (a <? 0)%Z with false by (symmetry; apply Z.ltb_ge; lia).
  replace (b <? 0)%Z with false by (symmetry; apply Z.ltb_ge; lia).
  set (n := Z.of_nat (length l)).
  rewrite nth_error_firstn, nth_error_skipn.
  destruct (Z.ltb_spec (Z.of_nat j) (b - a)) as [ Hj | Hj ];
    destruct (Nat.ltb_spec j
                (Z.to_nat (Z.max 0 (Z.min n b) - Z.max 0 (Z.min n a))))
      as [ Hj' | Hj' ]; try reflexivity.
  - f_equal. lia.
  - symmetry. apply nth_error_None. subst n. lia.
  - exfalso. lia.
Qed.

End Subsample.

Section VisibleBins.

Lemma Qlt_bool_iff (a b : Q) : Xldate.Qlt_bool a b = true <-> a < b.
Proof.
  unfold Xldate.Qlt_bool. rewrite negb_true_iff. split.
  - apply Qle_bool_false.
  - intros H. destruct (Qle_bool b a) eqn:E; [ | reflexivity ].
    apply Qle_bool_iff in E. lra.
Qed.

Lemma greater_nth (x : list (option Q)) (c : Z) (i : nat) :
  nth_error (greater x c) i = Some true
  <-> exists t, nth_error x i = Some (Some t) /\ inject_Z c < t.
Proof.
  unfold greater. rewrite nth_error_map.
  destruct (nth_error x i) as [ [ t | ] | ]; cbn [option_map]; cbv beta iota.
  - split.
    + intros H. injection H as H. apply Qlt_bool_iff in H. now exists t.
    + intros (t' & E & H). injection E as <-. f_equal. now apply Qlt_bool_iff.
  - split; [ discriminate | intros (t & E & _); discriminate ].
  - split; [ discriminate | intros (t & E & _); discriminate ].
Qed.

Lemma less_nth (x : list (option Q)) (c : Z) (i : nat) :
  nth_error (less x c) i = Some true
  <-> exists t, nth_error x i = Some (Some t) /\ t < inject_Z c.
Proof.
  unfold less. rewrite nth_error_map.
  destruct (nth_error x i) as [ [ t | ] | ]; cbn [option_map]; cbv beta iota.
  - split.
    + intros H. injection H as H. apply Qlt_bool_iff in H. now exists t.
    + intros (t' & E & H). injection E as <-. f_equal. now apply Qlt_bool_iff.
  - split; [ discriminate | intros (t & E & _); discriminate ].
  - split; [ discriminate | intros (t & E & _); discriminate ].
Qed.

(** The two bounds of the slice, from the first bin after [TIMEmin] and
    the last bin before [TIMEmax]. *)
Lemma subsample_bounds_spec (self : Hydrograph) :
  let '(istart, iend) := subsample_bounds self in
  (0 <= istart)%Z /\ (0 <= iend)%Z
  /\ (forall i t, nth_error self.(bTIME) i = Some (Some t) ->
                  inject_Z self.(TIMEmin) < t -> (istart <= Z.of_nat i)%Z)
  /\ (forall i t, nth_error self.(bTIME) i = Some (Some t) ->
                  t < inject_Z self.(TIMEmax) -> (Z.of_nat i < iend)%Z)
  /\ ((0 < iend)%Z ->
      exists t, nth_error self.(bTIME) (Z.to_nat (iend - 1)) = Some (Some t)
                /\ t < inject_Z self.(TIMEmax))
  /\ ((exists i t, nth_error self.(bTIME) i = Some (Some t)
                   /\ inject_Z self.(TIMEmin) < t) ->
      exists k t, nth_error self.(bTIME) k = Some (Some t)
                  /\ inject_Z self.(TIMEmin) < t
                  /\ (Z.of_nat k - 1 <= istart)%Z).
Proof.
  unfold subsample_bounds.
  set (g := where_from 0 (greater (bTIME self) (TIMEmin self))).
  set (s := where_from 0 (less (bTIME self) (TIMEmax self))).
  assert (Hg : forall i, In i g
                 <-> exists t, nth_error (bTIME self) i = Some (Some t)
                               /\ inject_Z (TIMEmin self) < t).
  { intros i. subst g. rewrite where_from_spec. split.
    - intros (j & -> & H). now apply greater_nth in H.
    - intros H. exists i. split; [ reflexivity | now apply greater_nth ]. }
  assert (Hs : forall i, In i s
                 <-> exists t, nth_error (bTIME self) i = Some (Some t)
                               /\ t < inject_Z (TIMEmax self)).
  { intros i. subst s. rewrite where_from_spec. split.
    - intros (j & -> & H). now apply less_nth in H.
    - intros H. exists i. split; [ reflexivity | now apply less_nth ]. }
  assert (Hfirst : forall k r, g = k :: r -> forall k', In k' g -> (k <= k')%nat)
    by (intros k r E; apply (where_from_first _ _ _ _ E)).
  assert (Hlast : forall d k', In k' s -> (k' <= List.last s d)%nat
                                          /\ In (List.last s d) s)
    by (intros d k'; apply where_from_last).
  assert (Hend : forall k r, s = k :: r ->
             (Z.of_nat (List.last s k) <? Z.of_nat (length (bTIME self)))%Z = true).
  { intros k r E. apply Z.ltb_lt.
    destruct (Hlast k k) as [ _ Hin ]; [ rewrite E; now left | ].
    apply Hs in Hin. destruct Hin as (t & Hn & _).
    assert (H : (List.last s k < length (bTIME self))%nat)
      by (apply nth_error_Some; congruence).
    lia. }
  assert (Hstart : forall k : Z, (0 <= k)%Z ->
             (0 <= (if (k >? 0)%Z then (k + -1)%Z else k))%Z
             /\ (k - 1 <= (if (k >? 0)%Z then (k + -1)%Z else k))%Z
             /\ ((if (k >? 0)%Z then (k + -1)%Z else k) <= k)%Z).
  { intros k Hk. destruct (Z.gtb_spec k 0); lia. }
  destruct g as [ | k r ] eqn:Eg; destruct s as [ | k0 r0 ] eqn:Es;
    try rewrite (Hend _ _ eq_refl);
    (split; [ | split; [ | split; [ | split; [ | split ] ] ] ]).
  - lia.
  - lia.
  - intros i t Hn Ht. exfalso. apply (proj2 (Hg i)). now exists t.
  - intros i t Hn Ht. exfalso. apply (proj2 (Hs i)). now exists t.
  - lia.
  - intros (i & t & Hn & Ht). exfalso. apply (proj2 (Hg i)). now exists t.
  - lia.
  - lia.
  - intros i t Hn Ht. exfalso. apply (proj2 (Hg i)). now exists t.
  - intros i t Hn Ht.
    destruct (Hlast k0 i) as [ Hle _ ]; [ apply Hs; now exists t | ]. lia.
  - intros _. destruct (Hlast k0 k0) as [ _ Hin ]; [ now left | ].
    apply Hs in Hin. destruct Hin as (t & Hn & Ht). exists t.
    replace (Z.to_nat (Z.of_nat (List.last (k0 :: r0) k0) + 1 - 1))
      with (List.last (k0 :: r0) k0) by lia.
    now split.
  - intros (i & t & Hn & Ht). exfalso. apply (proj2 (Hg i)). now exists t.
  - apply (Hstart (Z.of_nat k)). lia.
  - lia.
  - intros i t Hn Ht.
    assert (Hle : (k <= i)%nat)
      by (apply (Hfirst k r eq_refl); apply Hg; now exists t).
    destruct (Hstart (Z.of_nat k)) as (_ & _ & H); lia.
  - intros i t Hn Ht. exfalso. apply (proj2 (Hs i)). now exists t.
  - lia.
  - intros _.
    assert (Hk : In k (k :: r)) by now left.
    apply Hg in Hk. destruct Hk as (tk & Hnk & Htk).
    exists k, tk. split; [ exact Hnk | ]. split; [ exact Htk | ].
    apply (Hstart (Z.of_nat k)). lia.
  - apply (Hstart (Z.of_nat k)). lia.
  - lia.
  - intros i t Hn Ht.
    assert (Hle : (k <= i)%nat)
      by (apply (Hfirst k r eq_refl); apply Hg; now exists t).
    destruct (Hstart (Z.of_nat k)) as (_ & _ & H); lia.
  - intros i t Hn Ht.
    destruct (Hlast k0 i) as [ Hle _ ]; [ apply Hs; now exists t | ]. lia.
  - intros _. destruct (Hlast k0 k0) as [ _ Hin ]; [ now left | ].
    apply Hs in Hin. destruct Hin as (t & Hn & Ht). exists t.
    replace (Z.to_nat (Z.of_nat (List.last (k0 :: r0) k0) + 1 - 1))
      with (List.last (k0 :: r0) k0) by lia.
    now split.
  - intros _.
    assert (Hk : In k (k :: r)) by now left.
    apply Hg in Hk. destruct Hk as (tk & Hnk & Htk).
    exists k, tk. split; [ exact Hnk | ]. split; [ exact Htk | ].
    apply (Hstart (Z.of_nat k)). lia.
Qed.

End VisibleBins.

(** X19.  [draw_weather] never leaves out a bin that lies on the axis:
    every bin whose time is strictly between [TIMEmin] and [TIMEmax] is in
    the slice that is drawn, with its own temperature, precipitation and
    rain.  When the times of the bins are in ascending order the slice
    stops before [TIMEmax], and when some bin lies after [TIMEmin] it
    holds at most one bin, the first, at or before [TIMEmin]. *)
Theorem draw_weather_bins_on_axis (self : Hydrograph) :
  self.(meteo_on) = true ->
  exists time Tmax Ptot Rain,
    draw_weather_bins self = Some (time, Tmax, Ptot, Rain)
    /\ (forall i t,
           nth_error self.(bTIME) i = Some (Some t) ->
           inject_Z self.(TIMEmin) < t -> t < inject_Z self.(TIMEmax) ->
           exists j,
             nth_error time j = Some (Some t)
             /\ nth_error Tmax j = nth_error self.(bTMAX) i
             /\ nth_error Ptot j = nth_error self.(bPTOT) i
             /\ nth_error Rain j = nth_error self.(bRAIN) i)
    /\ (ascending_times self.(bTIME) ->
        forall j t,
          nth_error time j = Some (Some t) ->
          t < inject_Z self.(TIMEmax)
          /\ ((exists i t', nth_error self.(bTIME) i = Some (Some t')
                            /\ inject_Z self.(TIMEmin) < t') ->
              (0 < j)%nat -> inject_Z self.(TIMEmin) < t)).
Proof.
  intros Hon. unfold draw_weather_bins. rewrite Hon. cbn [negb].
  assert (Hb := subsample_bounds_spec self).
  destruct (subsample_bounds self) as [ istart iend ].
  destruct Hb as (H0 & H1 & Hlo & Hhi & Hend & Hfirst).
  do 4 eexists. split; [ reflexivity | ]. split.
  - intros i t Hn Hmin Hmax.
    specialize (Hlo i t Hn Hmin). specialize (Hhi i t Hn Hmax).
    exists (i - Z.to_nat istart)%nat.
    rewrite !getslice_nth by assumption.
    replace (Z.of_nat (i - Z.to_nat istart) <? iend - istart)%Z with true
      by (symmetry; apply Z.ltb_lt; lia).
    replace (Z.to_nat istart + (i - Z.to_nat istart))%nat with i by lia.
    repeat split; try reflexivity. exact Hn.
  - intros Hasc j t Hj. rewrite getslice_nth in Hj by assumption.
    destruct (Z.ltb_spec (Z.of_nat j) (iend - istart)) as [ Hlt | Hge ];
      [ | discriminate ].
    destruct Hend as (te & Hne & Hte); [ lia | ].
    split.
    + destruct (Nat.eq_dec (Z.to_nat istart + j) (Z.to_nat (iend - 1)))
        as [ E | NE ].
      * rewrite E in Hj. assert (t = te) by congruence. now subst t.
      * assert (Hlt' : t < te).
        { apply (Hasc (Z.to_nat istart + j)%nat (Z.to_nat (iend - 1)));
            [ lia | exact Hj | exact Hne ]. }
        lra.
    + intros Hsome Hpos.
      destruct (Hfirst Hsome) as (k & tk & Hnk & Htk & Hk).
      destruct (Nat.eq_dec (Z.to_nat istart + j) k) as [ E | NE ].
      * rewrite E in Hj. assert (t = tk) by congruence. now subst t.
      * assert (Hlt' : tk < t).
        { apply (Hasc k (Z.to_nat istart + j)%nat); [ lia | exact Hnk | exact Hj ]. }
        lra.
Qed.

(** The statement of X19 for six weekly bins and an axis that spans the
    third to the fifth: the second bin, the last before the axis, is drawn
    with them. *)
Lemma draw_weather_bins_on_axis_witness :
  exists time Tmax Ptot Rain,
    draw_weather_bins six_weeks = Some (time, Tmax, Ptot, Rain)
    /\ time = map (fun v => Some (inject_Z v)) [36507; 36514; 36521; 36528]%Z
    /\ exists j, nth_error time j = Some (Some 36521)
                 /\ nth_error Ptot j = Some (Some 4).
Proof.
  destruct (draw_weather_bins_on_axis six_weeks eq_refl)
    as (time & Tmax & Ptot & Rain & Hrun & Hin & _).
  exists time, Tmax, Ptot, Rain. split; [ exact Hrun | ].
  destruct (Hin 3%nat 36521) as (j & Hj & _ & Hp & _);
    [ reflexivity | reflexivity | reflexivity | ].
  vm_compute in Hrun. injection Hrun as <- _ _ _.
  split; [ reflexivity | ]. exists j. split; [ exact Hj | exact Hp ].
Defined.
